(** * ivas_xdpuinfer: control logic of the DPU inference kernel

    A shallow embedding of [ivas_xdpuinfer.cpp]: artifact resolution
    ([modelexits]), the label loader ([readlabel]), the model factory
    ([ivas_xinitmodel]) and the four kernel entry points
    ([xlnx_kernel_init], [xlnx_kernel_start], [xlnx_kernel_done],
    [xlnx_kernel_deinit]).

    Conventions of the embedding.
    - A C pointer that may be [NULL] is an [option]; heap objects that
      are released ([free], [delete]) carry an address so that a later
      use through a stale pointer can be told apart.
    - Every call that leaves the program (stat, json_load_file, model
      constructors, printf, gettimeofday, ...) is recorded as an [event]
      in the trace of the call; what the outside answers is read from a
      [world] (file system, label files, clock) or from the [frame].
    - Behaviour the C++ standard leaves undefined (a store outside an
      allocated block, a use after free, a null dereference) is the
      outcome [Undef]; nothing is assumed about what happens next.
    - [LOG_MESSAGE] only writes diagnostics and is not modelled.
    - Allocation ([calloc], [new]) is taken to succeed.
    - The heap of the embedding holds the objects this file allocates
      and releases by hand: label tables ([calloc], [free]) and model
      instances ([new], [delete]). The value [json_load_file] returns
      (this file never calls [json_decref]) and the buffers behind
      [std::string] and [std::vector] members (dropped without a
      destructor by [free (labelptr)] and [free (kpriv)]) are not
      tracked: a statement about the heap speaks of label tables and
      model instances only.
    - [struct labels] and [struct ivas_xkpriv] have [std::string]
      members and come from [calloc], so these members are assigned
      without ever having been constructed. The embedding does not
      stop at the first such assignment: it follows what libstdc++
      does with the all-zero representation (see [assign_to_zeroed]),
      which is a store through a null pointer for some values and a
      working string for the others. *)

From stdpp Require Import base option list strings.
From Stdlib Require Import ZArith Floats Lia.

Set Warnings "-inexact-float,-register-all".
Local Open Scope Z_scope.

(** ** C integer conversions *)

(** Conversion to [unsigned int] (32 bits). *)
Definition to_uint32 (z : Z) : Z := z mod 2 ^ 32.

(** Conversion to [int] (32 bits, two's complement). *)
Definition to_int32 (z : Z) : Z := (z + 2 ^ 31) mod 2 ^ 32 - 2 ^ 31.

(** Conversion to [unsigned long], 64 bits wide on the LP64 targets of
    the library. *)
Definition to_uint64 (z : Z) : Z := z mod 2 ^ 64.

(** Conversion of an integer to [double], rounding to nearest even. *)
Definition Z2double (z : Z) : float :=
  SF2Prim (binary_normalize prec emax z 0 false).

(** C [true] and the [-1] error code as seen through the return types
    of the entry points ([int32_t] for init and done, [uint32_t] for
    start and deinit). *)
Definition C_true : Z := 1.
Definition neg1_int32 : Z := to_int32 (-1).
Definition neg1_uint32 : Z := to_uint32 (-1).

(** ** Jansson values *)

(** A parsed [json_t]. The members of an object are its key/value
    pairs, each key once, as the parser stores them. *)
Inductive json : Type :=
| JObject (members : list (string * json))
| JArray (items : list json)
| JString (s : string)
| JInteger (n : Z)
| JReal (r : float)
| JTrue
| JFalse
| JNull.

Fixpoint members_get (key : string) (ms : list (string * json)) : option json :=
  match ms with
  | [] => None
  | (k, v) :: ms' => if String.eqb k key then Some v else members_get key ms'
  end.

(** [json_object_get] answers [NULL] on a [NULL] or non-object value. *)
Definition json_object_get (j : option json) (key : string) : option json :=
  match j with
  | Some (JObject ms) => members_get key ms
  | _ => None
  end.

(** The test [!j] on a [json_t *]. *)
Definition json_null (j : option json) : bool :=
  match j with None => true | Some _ => false end.


Definition json_is_integer (j : option json) : bool :=
  match j with Some (JInteger _) => true | _ => false end.

Definition json_is_boolean (j : option json) : bool :=
  match j with Some JTrue | Some JFalse => true | _ => false end.

Definition json_is_array (j : option json) : bool :=
  match j with Some (JArray _) => true | _ => false end.

Definition json_string_value (j : option json) : option string :=
  match j with Some (JString s) => Some s | _ => None end.

Definition json_integer_value (j : option json) : Z :=
  match j with Some (JInteger n) => n | _ => 0 end.

Definition json_boolean_value (j : option json) : bool :=
  match j with Some JTrue => true | _ => false end.

Definition json_array_size (j : option json) : Z :=
  match j with Some (JArray items) => Z.of_nat (length items) | _ => 0 end.

Definition json_array_get (j : option json) (index : Z) : option json :=
  match j with
  | Some (JArray items) => if index <? 0 then None else items !! Z.to_nat index
  | _ => None
  end.

Arguments json_object_get : simpl never.
Arguments json_array_get : simpl never.

(** ** The outside world, events and outcomes *)

Inductive IVASVideoFormat :=
| IVAS_VMFT_UNKNOWN
| IVAS_VFMT_RGB8
| IVAS_VFMT_BGR8
| IVAS_VFMT_OTHER (code : Z).

Record timeval := { tv_sec : Z; tv_usec : Z }.

(** What a call observes of its environment: which paths [stat] finds
    (never the empty path, for which [stat] fails with [ENOENT]), what
    [json_load_file] yields for a path ([None]: load error), and the
    successive answers of [gettimeofday]. *)
Record world := {
  fs : string → bool;
  json_files : string → option json;
  gettimeofday : nat → timeval;
  stat_empty : fs "" = false
}.

Inductive event :=
| EvStat (path : string)
| EvJsonLoad (path : string)
| EvNew (cls : Z) (elf : string) (preprocess : bool) (addr : nat)
| EvClose (addr : nat)
| EvDelete (addr : nat)
| EvSetCaps (addr : nat)
| EvCapsFree
| EvGetInpMeta
| EvAddMeta
| EvRun (addr : nat)
| EvPrintf (frames : Z) (precision : Z) (fps : float).

Inductive ub :=
| NullDeref
| UseAfterFree
| DoubleFree
| OutOfBounds (index : Z) (len : Z).

Inductive outcome (A : Type) :=
| Ret (a : A)
| Undef (why : ub).
Arguments Ret {A} a.
Arguments Undef {A} why.

(** The heap as far as the kernel can tell: the next fresh address and
    the addresses already released. *)
Record heap := { next_addr : nat; freed : list nat }.

Record mstate := { hp : heap; tick : nat; trace : list event }.

Definition M (A : Type) : Type := mstate → outcome (A * mstate).

Definition ret {A} (a : A) : M A := λ s, Ret (a, s).

Definition bind {A B} (m : M A) (f : A → M B) : M B := λ s,
  match m s with
  | Ret (a, s') => f a s'
  | Undef u => Undef u
  end.

Notation "'do' x <- m ; k" := (bind m (λ x, k))
  (at level 10, x name, m at level 100, k at level 200,
   format "'[v' 'do'  x  <-  m ; '/' k ']'").
Notation "'do' ' p <- m ; k" := (bind m (λ x, match x with p => k end))
  (at level 10, p pattern, m at level 100, k at level 200,
   format "'[v' 'do'  ' p  <-  m ; '/' k ']'").
Notation "'exec' m ; k" := (bind m (λ _, k))
  (at level 10, m at level 100, k at level 200,
   format "'[v' 'exec'  m ; '/' k ']'").

Definition undef {A} (u : ub) : M A := λ _, Undef u.

Definition emit (e : event) : M unit := λ s,
  Ret (tt, {| hp := hp s; tick := tick s; trace := trace s ++ [e] |}).

(** A fresh address, as [calloc] or [new] returns one. *)
Definition alloc : M nat := λ s,
  Ret (next_addr (hp s),
       {| hp := {| next_addr := S (next_addr (hp s)); freed := freed (hp s) |};
          tick := tick s; trace := trace s |}).

Definition is_freed (a : nat) (h : heap) : bool := bool_decide (a ∈ freed h).

(** [free] or [delete] of a live block; releasing twice is undefined. *)
Definition release (a : nat) : M unit := λ s,
  if is_freed a (hp s) then Undef DoubleFree
  else Ret (tt, {| hp := {| next_addr := next_addr (hp s); freed := a :: freed (hp s) |};
                   tick := tick s; trace := trace s |}).

(** A use of the object at [a]; undefined once it was released. *)
Definition touch (a : nat) : M unit := λ s,
  if is_freed a (hp s) then Undef UseAfterFree else Ret (tt, s).

(** One entry point called on heap [h]: its result, the heap it leaves
    and the events of the call. *)
Definition call {A} (m : M A) (h : heap) : outcome (A * heap * list event) :=
  match m {| hp := h; tick := 0%nat; trace := [] |} with
  | Ret (a, s) => Ret (a, hp s, trace s)
  | Undef u => Undef u
  end.

(** ** Kernel data *)

(** [std::string] members of storage that came from [calloc]. No
    constructor runs on them, so until its first assignment such a
    member is all zero: a null data pointer, length zero, and a
    capacity that reads as zero. What an assignment does to it is
    followed as libstdc++ (its C++11 string) executes it:
    - from a C string: a non-empty string exceeds the capacity and is
      copied into a fresh buffer; the empty string fits, and its
      terminator is stored in place, through the null pointer;
    - from a [std::string] temporary (move assignment): a temporary
      that owns a buffer hands it over; one that keeps its characters
      inside the object (fifteen or fewer) is copied in place, through
      the null pointer.
    A member that holds a buffer takes either assignment. *)
Definition assign_to_zeroed (s : string) : outcome string :=
  if String.eqb s "" then Undef NullDeref else Ret s.

Definition move_to_zeroed (in_place : bool) (s : string) : outcome string :=
  if in_place then Undef NullDeref else Ret s.

(** A member by its state: [None] while all zero, [Some s] once it
    holds a buffer with contents [s]. *)
Definition assign_cstr (member : option string) (s : string) : outcome (option string) :=
  match member with
  | None =>
    match assign_to_zeroed s with
    | Ret s => Ret (Some s)
    | Undef u => Undef u
    end
  | Some _ => Ret (Some s)
  end.

Record labels := {
  label : Z;
  name : option string;
  display_name : option string
}.

(** The block [calloc (num_labels, sizeof (labels))] returns: its
    address and its cells. *)
Record label_block := { lb_addr : nat; lb_cells : list labels }.

Record model_list := {
  ml_modelclass : Z;
  ml_modelname : string;
  ml_model : option nat;
  ml_labelptr : option label_block
}.

Record ivas_perf := {
  test_started : Z;
  frames : Z;
  last_displayed_frame : Z;
  timer_start : Z;
  last_displayed_time : Z
}.

(** [struct ivas_xkpriv], declared in the absent [ivas_xdpupriv.hpp];
    the fields are those this file reads or writes. [max_labels] is
    taken to hold the value of [num_labels] as it is assigned, without
    narrowing. *)
Record ivas_xkpriv := {
  model : option nat;
  modelclass : Z;
  modelfmt : IVASVideoFormat;
  log_level : Z;
  need_preprocess : bool;
  performance_test : bool;
  run_time_model : bool;
  labelptr : option label_block;
  labelflags : Z;
  max_labels : Z;
  modelpath : string;
  modelname : string;
  elfname : string;
  mlist : list model_list;
  pf : ivas_perf
}.

(** [handle->kernel_priv]: [NULL], a live private structure, or a
    pointer to one that was freed (its last contents kept for
    reference). *)
Inductive kernel_priv_ptr :=
| PrivNull
| PrivLive (kpriv : ivas_xkpriv)
| PrivFreed (last : ivas_xkpriv).

Record IVASKernel := {
  kernel_config : option json;
  kernel_priv : kernel_priv_ptr
}.

(** ** File checks and artifact resolution *)

Definition fileexists (w : world) (path : string) : M bool :=
  exec emit (EvStat path); ret (fs w path).

Definition model_dir (kpriv : ivas_xkpriv) : string :=
  modelpath kpriv +:+ "/" +:+ modelname kpriv +:+ "/".

Definition modelexits (w : world) (kpriv : ivas_xkpriv) : M string :=
  let elf_name := model_dir kpriv +:+ modelname kpriv +:+ ".elf" in
  let xmodel_name := model_dir kpriv +:+ modelname kpriv +:+ ".xmodel" in
  let prototxt_name := model_dir kpriv +:+ modelname kpriv +:+ ".prototxt" in
  do has_prototxt <- fileexists w prototxt_name;
  if negb has_prototxt then ret ""
  else
    do has_xmodel <- fileexists w xmodel_name;
    if has_xmodel then ret xmodel_name
    else
      do has_elf <- fileexists w elf_name;
      if has_elf then ret elf_name else ret "".

(** Whether the [std::string] that [modelexits] returns keeps its
    characters inside the object: [result] is [xmodel_name] or
    [elf_name] as built, or [elf_name] after [elf_name = ""], which
    leaves a buffer it has in place; a string has a buffer of its own
    once it was longer than fifteen characters. *)
Definition modelexits_in_place (kpriv : ivas_xkpriv) (result : string) : bool :=
  let elf_name := model_dir kpriv +:+ modelname kpriv +:+ ".elf" in
  (String.length (if String.eqb result "" then elf_name else result) <=? 15)%nat.

(** ** Field updates of the private structure *)

Definition set_model (v : option nat) (k : ivas_xkpriv) : ivas_xkpriv :=
  {| model := v; modelclass := modelclass k; modelfmt := modelfmt k;
     log_level := log_level k; need_preprocess := need_preprocess k;
     performance_test := performance_test k; run_time_model := run_time_model k;
     labelptr := labelptr k; labelflags := labelflags k; max_labels := max_labels k;
     modelpath := modelpath k; modelname := modelname k; elfname := elfname k;
     mlist := mlist k; pf := pf k |}.

Definition set_modelclass (v : Z) (k : ivas_xkpriv) : ivas_xkpriv :=
  {| model := model k; modelclass := v; modelfmt := modelfmt k;
     log_level := log_level k; need_preprocess := need_preprocess k;
     performance_test := performance_test k; run_time_model := run_time_model k;
     labelptr := labelptr k; labelflags := labelflags k; max_labels := max_labels k;
     modelpath := modelpath k; modelname := modelname k; elfname := elfname k;
     mlist := mlist k; pf := pf k |}.

Definition set_labelptr (v : option label_block) (k : ivas_xkpriv) : ivas_xkpriv :=
  {| model := model k; modelclass := modelclass k; modelfmt := modelfmt k;
     log_level := log_level k; need_preprocess := need_preprocess k;
     performance_test := performance_test k; run_time_model := run_time_model k;
     labelptr := v; labelflags := labelflags k; max_labels := max_labels k;
     modelpath := modelpath k; modelname := modelname k; elfname := elfname k;
     mlist := mlist k; pf := pf k |}.

Definition set_labelflags (v : Z) (k : ivas_xkpriv) : ivas_xkpriv :=
  {| model := model k; modelclass := modelclass k; modelfmt := modelfmt k;
     log_level := log_level k; need_preprocess := need_preprocess k;
     performance_test := performance_test k; run_time_model := run_time_model k;
     labelptr := labelptr k; labelflags := v; max_labels := max_labels k;
     modelpath := modelpath k; modelname := modelname k; elfname := elfname k;
     mlist := mlist k; pf := pf k |}.

Definition set_max_labels (v : Z) (k : ivas_xkpriv) : ivas_xkpriv :=
  {| model := model k; modelclass := modelclass k; modelfmt := modelfmt k;
     log_level := log_level k; need_preprocess := need_preprocess k;
     performance_test := performance_test k; run_time_model := run_time_model k;
     labelptr := labelptr k; labelflags := labelflags k; max_labels := v;
     modelpath := modelpath k; modelname := modelname k; elfname := elfname k;
     mlist := mlist k; pf := pf k |}.

Definition set_modelname (v : string) (k : ivas_xkpriv) : ivas_xkpriv :=
  {| model := model k; modelclass := modelclass k; modelfmt := modelfmt k;
     log_level := log_level k; need_preprocess := need_preprocess k;
     performance_test := performance_test k; run_time_model := run_time_model k;
     labelptr := labelptr k; labelflags := labelflags k; max_labels := max_labels k;
     modelpath := modelpath k; modelname := v; elfname := elfname k;
     mlist := mlist k; pf := pf k |}.

Definition set_elfname (v : string) (k : ivas_xkpriv) : ivas_xkpriv :=
  {| model := model k; modelclass := modelclass k; modelfmt := modelfmt k;
     log_level := log_level k; need_preprocess := need_preprocess k;
     performance_test := performance_test k; run_time_model := run_time_model k;
     labelptr := labelptr k; labelflags := labelflags k; max_labels := max_labels k;
     modelpath := modelpath k; modelname := modelname k; elfname := v;
     mlist := mlist k; pf := pf k |}.

Definition set_mlist (v : list model_list) (k : ivas_xkpriv) : ivas_xkpriv :=
  {| model := model k; modelclass := modelclass k; modelfmt := modelfmt k;
     log_level := log_level k; need_preprocess := need_preprocess k;
     performance_test := performance_test k; run_time_model := run_time_model k;
     labelptr := labelptr k; labelflags := labelflags k; max_labels := max_labels k;
     modelpath := modelpath k; modelname := modelname k; elfname := elfname k;
     mlist := v; pf := pf k |}.

Definition set_pf (v : ivas_perf) (k : ivas_xkpriv) : ivas_xkpriv :=
  {| model := model k; modelclass := modelclass k; modelfmt := modelfmt k;
     log_level := log_level k; need_preprocess := need_preprocess k;
     performance_test := performance_test k; run_time_model := run_time_model k;
     labelptr := labelptr k; labelflags := labelflags k; max_labels := max_labels k;
     modelpath := modelpath k; modelname := modelname k; elfname := elfname k;
     mlist := mlist k; pf := v |}.

Definition set_kernel_priv (v : kernel_priv_ptr) (h : IVASKernel) : IVASKernel :=
  {| kernel_config := kernel_config h; kernel_priv := v |}.

(** ** readlabel *)

(** A cell of the zero-filled block. *)
Definition zero_labels : labels := {| label := 0; name := None; display_name := None |}.

Definition set_label (v : Z) (c : labels) : labels :=
  {| label := v; name := name c; display_name := display_name c |}.
Definition set_name (v : option string) (c : labels) : labels :=
  {| label := label c; name := v; display_name := display_name c |}.
Definition set_display_name (v : option string) (c : labels) : labels :=
  {| label := label c; name := name c; display_name := v |}.

Definition lift {A} (o : outcome A) : M A := λ s,
  match o with
  | Ret a => Ret (a, s)
  | Undef u => Undef u
  end.

(** The [for] loop of [readlabel] from [index] on, with [todo]
    iterations left ([index + todo = num_labels]). [cells] is the block
    behind [labelptr]. [Ret None] is [goto error]. The store through
    [labelptr + (int) json_integer_value (value)] carries no range
    check: outside the block it is undefined behaviour. The cells are
    zero-filled and never constructed, so [lptr->name] and
    [lptr->display_name] are assigned as [assign_cstr] describes. *)
Fixpoint readlabel_loop (karray : option json) (num_labels : Z)
    (todo : nat) (index : Z) (cells : list labels) : outcome (option (list labels)) :=
  match todo with
  | O => Ret (Some cells)
  | S todo' =>
    match json_array_get karray index with
    | None => Ret None
    | Some lbl =>
      let value := json_object_get (Some lbl) "label" in
      if negb (json_is_integer value) then Ret None
      else
        let off := to_int32 (json_integer_value value) in
        if negb ((0 <=? off) && (off <? num_labels))
        then Undef (OutOfBounds off num_labels)
        else
          let lptr := Z.to_nat off in
          let cells := alter (set_label off) lptr cells in
          match json_string_value (json_object_get (Some lbl) "name") with
          | None => Ret None
          | Some s =>
            match assign_cstr (cells !! lptr ≫= name) s with
            | Undef u => Undef u
            | Ret nm =>
              let cells := alter (set_name nm) lptr cells in
              match json_string_value (json_object_get (Some lbl) "display_name") with
              | None => Ret None
              | Some d =>
                match assign_cstr (cells !! lptr ≫= display_name) d with
                | Undef u => Undef u
                | Ret dn =>
                  let cells := alter (set_display_name dn) lptr cells in
                  readlabel_loop karray num_labels todo' (index + 1) cells
                end
              end
            end
          end
    end
  end.

Definition readlabel (w : world) (kpriv : ivas_xkpriv) (json_file : string)
    : M (option label_block * ivas_xkpriv) :=
  exec emit (EvJsonLoad json_file);
  let root := json_files w json_file in
  if json_null root then ret (None, kpriv)
  else
    let value := json_object_get root "num-labels" in
    if negb (json_is_integer value) then ret (None, kpriv)
    else
      let num_labels := to_uint32 (json_integer_value value) in
      do labelptr <- alloc;
      let kpriv := set_max_labels num_labels kpriv in
      let error : M (option label_block * ivas_xkpriv) :=
        exec release labelptr; ret (None, kpriv) in
      let karray := json_object_get root "labels" in
      if json_null karray then error
      else if negb (json_is_array karray) then error
      else if negb (num_labels =? json_array_size karray) then error
      else
        do r <- lift (readlabel_loop karray num_labels (Z.to_nat num_labels) 0
                    (replicate (Z.to_nat num_labels) zero_labels));
        match r with
        | Some cells => ret (Some {| lb_addr := labelptr; lb_cells := cells |}, kpriv)
        | None => error
        end.

(** ** Name tables and the clock *)

(** What the absent headers fix at build time: the class-name table
    [ivas_xmodelclass], the constants they declare, which [case] labels
    the [ENABLE_*] switches compile into [ivas_xinitmodel], and the
    value a model constructor leaves in [kpriv->labelflags]. *)
Record platform := {
  ivas_xmodelclass : list string;
  IVAS_XCLASS_NOTFOUND : Z;
  class_enabled : Z → bool;
  ctor_labelflags : Z → ivas_xkpriv → Z;
  IVAS_XLABEL_NOT_REQUIRED : Z;
  IVAS_XLABEL_REQUIRED : Z;
  IVAS_XLABEL_NOT_FOUND : Z;
  LOG_LEVEL_WARNING : Z
}.

Fixpoint class_scan (names : list string) (name : string) (nameslen : Z) : option Z :=
  match names with
  | [] => None
  | n :: names' =>
    if String.eqb n name then Some nameslen else class_scan names' name (nameslen + 1)
  end.

Definition ivas_xclass_to_num (P : platform) (name : string) : Z :=
  match class_scan (ivas_xmodelclass P) name 0 with
  | Some nameslen => nameslen
  | None => IVAS_XCLASS_NOTFOUND P
  end.

(** [strncmp (name, "RGB", 3)] is zero exactly when [name] starts with
    the three characters. *)
Definition ivas_fmt_to_xfmt (name : string) : IVASVideoFormat :=
  if String.prefix "RGB" name then IVAS_VFMT_RGB8
  else if String.prefix "BGR" name then IVAS_VFMT_BGR8
  else IVAS_VMFT_UNKNOWN.

Definition get_time (w : world) : M Z := λ s,
  let tv := gettimeofday w (tick s) in
  Ret (tv_sec tv * 1000000 + tv_usec tv + 42 * 60 * 60 * 1000000,
       {| hp := hp s; tick := S (tick s); trace := trace s |}).

(** ** The model factory *)

Definition flag_set (flags mask : Z) : bool := negb (Z.land flags mask =? 0).

(** The second component is the private structure after the call:
    [None] once the [default] branch has freed it. [ivas_xsetcaps] only
    talks to the host's capability interface and its result is dropped;
    it appears as one event. *)
Definition ivas_xinitmodel (P : platform) (w : world) (kpriv : ivas_xkpriv)
    (modelclass : Z) : M (option nat * option ivas_xkpriv) :=
  let kpriv := set_labelptr None kpriv in
  let kpriv := set_labelflags (IVAS_XLABEL_NOT_REQUIRED P) kpriv in
  let labelfile := modelpath kpriv +:+ "/" +:+ modelname kpriv +:+ "/" +:+ "label.json" in
  do has_label <- fileexists w labelfile;
  do kpriv <- (if has_label
               then do '(l, k) <- readlabel w kpriv labelfile; ret (set_labelptr l k)
               else ret kpriv);
  if negb (class_enabled P modelclass) then ret (None, None)
  else
    do model_new <- alloc;
    exec emit (EvNew modelclass (elfname kpriv) (need_preprocess kpriv) model_new);
    let kpriv := set_labelflags (ctor_labelflags P modelclass kpriv) kpriv in
    if flag_set (labelflags kpriv) (IVAS_XLABEL_REQUIRED P)
       && flag_set (labelflags kpriv) (IVAS_XLABEL_NOT_FOUND P)
    then
      match model kpriv with
      | None => undef NullDeref
      | Some active =>
        exec touch active;
        exec emit (EvClose active);
        exec release active;
        exec emit (EvDelete active);
        let kpriv := set_model None kpriv in
        let kpriv := set_modelclass (IVAS_XCLASS_NOTFOUND P) kpriv in
        exec (match labelptr kpriv with
              | Some b => release (lb_addr b)
              | None => ret tt
              end);
        ret (None, Some kpriv)
      end
    else
      exec emit (EvSetCaps model_new);
      ret (Some model_new, Some kpriv).

(** ** Frames *)

(** What [xlnx_kernel_start] reads of [input[0]]: the selection
    metadata an upstream stage attached (if any), whether the
    inference metadata can be attached, the pixel format, and what the
    model's [run] reports for this frame. *)
Record IVASFrame := {
  inp_infer_meta : option (Z * string);
  add_meta_ok : bool;
  props_fmt : IVASVideoFormat;
  run_ok : bool
}.

Definition ivas_xrunmodel (kpriv : ivas_xkpriv) (inframe : IVASFrame) : M Z :=
  match model kpriv with
  | None => undef NullDeref
  | Some m =>
    exec touch m;
    exec emit (EvRun m);
    if negb (run_ok inframe) then ret (-1) else ret C_true
  end.

(** ** xlnx_kernel_init *)

Definition zero_perf : ivas_perf :=
  {| test_started := 0; frames := 0; last_displayed_frame := 0;
     timer_start := 0; last_displayed_time := 0 |}.

Definition default_modelpath : string := "/usr/share/vitis_ai_library/models/".

(** The private structure comes from [calloc]: the fields init has not
    assigned yet hold zero ([NULL], the empty string, the empty list).
    [modelpath], [modelname] and [elfname] are assigned here for the
    first time, to all-zero members ([assign_to_zeroed],
    [move_to_zeroed]). On the [err] path the structure is freed and
    the handle is left as it was. *)
Definition xlnx_kernel_init (P : platform) (w : world) (handle : IVASKernel)
    : M (Z * IVASKernel) :=
  let jconfig := kernel_config handle in
  let err : M (Z * IVASKernel) := ret (neg1_int32, handle) in
  let val := json_object_get jconfig "debug_level" in
  let log_level_v :=
    if negb (json_is_integer val) then LOG_LEVEL_WARNING P
    else to_int32 (json_integer_value val) in
  let val := json_object_get jconfig "run_time_model" in
  let run_time_model_v :=
    if negb (json_is_boolean val) then false else json_boolean_value val in
  let val := json_object_get jconfig "performance_test" in
  let performance_test_v :=
    if negb (json_is_boolean val) then false else json_boolean_value val in
  let val := json_object_get jconfig "need_preprocess" in
  let need_preprocess_v :=
    if negb (json_is_boolean val) then true else json_boolean_value val in
  let val := json_object_get jconfig "model-format" in
  let modelfmt_v :=
    match json_string_value val with
    | None => IVAS_VFMT_BGR8
    | Some s => ivas_fmt_to_xfmt s
    end in
  match modelfmt_v with
  | IVAS_VMFT_UNKNOWN => err
  | _ =>
    let val := json_object_get jconfig "model-path" in
    do modelpath_v <- lift (assign_to_zeroed
                              match json_string_value val with
                              | None => default_modelpath
                              | Some s => s
                              end);
    let kpriv :=
      {| model := None; modelclass := 0; modelfmt := modelfmt_v;
         log_level := log_level_v; need_preprocess := need_preprocess_v;
         performance_test := performance_test_v; run_time_model := run_time_model_v;
         labelptr := None; labelflags := 0; max_labels := 0;
         modelpath := modelpath_v; modelname := ""; elfname := "";
         mlist := []; pf := zero_perf |} in
    do path_ok <- fileexists w modelpath_v;
    if negb path_ok then err
    else if run_time_model_v then ret (C_true, set_kernel_priv (PrivLive kpriv) handle)
    else
      match json_string_value (json_object_get jconfig "model-class") with
      | None => err
      | Some cls =>
        let kpriv := set_modelclass (ivas_xclass_to_num P cls) kpriv in
        if modelclass kpriv =? IVAS_XCLASS_NOTFOUND P then err
        else
          match json_string_value (json_object_get jconfig "model-name") with
          | None => err
          | Some nm =>
            do nm <- lift (assign_to_zeroed nm);
            let kpriv := set_modelname nm kpriv in
            do elf <- modelexits w kpriv;
            do elf <- lift (move_to_zeroed (modelexits_in_place kpriv elf) elf);
            let kpriv := set_elfname elf kpriv in
            if String.eqb elf "" then err
            else
              do '(m, after) <- ivas_xinitmodel P w kpriv (modelclass kpriv);
              match after with
              | None => undef UseAfterFree
              | Some kpriv =>
                let kpriv := set_model m kpriv in
                match m with
                | None => err
                | Some _ => ret (C_true, set_kernel_priv (PrivLive kpriv) handle)
                end
              end
          end
      end
  end.

(** ** Throughput figures *)

Local Open Scope float_scope.

(** [(now - since) / 1000000.0] *)
Definition elapsed_seconds (now since : Z) : float :=
  Z2double (now - since) / 1000000.0.

(** [(time > 0.0) ? (count / time) : 999.99] *)
Definition throughput (count : Z) (time : float) : float :=
  if 0 <? time then Z2double count / time else 999.99.

(** The precision argument of [printf ("... fps=%6.*f ...")]:
    [(fps < 9.995) ? 3 : 2] *)
Definition fps_precision (fps : float) : Z :=
  if fps <? 9.995 then 3%Z else 2%Z.

Local Close Scope float_scope.

(** ** xlnx_kernel_deinit *)

Definition close_and_delete (m : nat) : M unit :=
  exec touch m;
  exec emit (EvClose m);
  exec release m;
  emit (EvDelete m).

Definition clear_ml_model (e : model_list) : model_list :=
  {| ml_modelclass := ml_modelclass e; ml_modelname := ml_modelname e;
     ml_model := None; ml_labelptr := ml_labelptr e |}.

(** The loop over [kpriv->mlist] in the static branch of deinit. *)
Fixpoint deinit_mlist (l : list model_list) : M (list model_list) :=
  match l with
  | [] => ret []
  | e :: l' =>
    do e <- (match ml_model e with
             | Some m => exec close_and_delete m; ret (clear_ml_model e)
             | None => ret e
             end);
    do l' <- deinit_mlist l';
    ret (e :: l')
  end.

(** The final report of deinit, printed before the counters are
    cleared. *)
Definition final_report (w : world) (kpriv : ivas_xkpriv) : M unit :=
  if performance_test kpriv && negb (test_started (pf kpriv) =? 0)
  then
    do now <- get_time w;
    let time := elapsed_seconds now (timer_start (pf kpriv)) in
    let fps := throughput (frames (pf kpriv)) time in
    emit (EvPrintf (frames (pf kpriv)) (fps_precision fps) fps)
  else ret tt.

Definition xlnx_kernel_deinit (P : platform) (w : world) (handle : IVASKernel)
    : M (Z * IVASKernel) :=
  match kernel_priv handle with
  | PrivNull => ret (C_true, handle)
  | PrivFreed _ => undef UseAfterFree
  | PrivLive kpriv =>
    exec final_report w kpriv;
    let kpriv := set_pf zero_perf kpriv in
    do kpriv <- (if negb (run_time_model kpriv)
                 then
                   do l <- deinit_mlist (mlist kpriv);
                   let kpriv := set_mlist l kpriv in
                   ret (match l with [] => kpriv | _ => set_model None kpriv end)
                 else ret kpriv);
    let kpriv := set_modelclass (IVAS_XCLASS_NOTFOUND P) kpriv in
    do kpriv <- (match model kpriv with
                 | Some m => exec close_and_delete m; ret (set_model None kpriv)
                 | None => ret kpriv
                 end);
    exec (match labelptr kpriv with
          | Some b => release (lb_addr b)
          | None => ret tt
          end);
    exec emit EvCapsFree;
    ret (C_true, set_kernel_priv (PrivFreed kpriv) handle)
  end.

(** ** xlnx_kernel_start *)

(** The scan of [kpriv->mlist]: the index at which the loop breaks. *)
Fixpoint mlist_find (ml_class : Z) (model_name : string) (l : list model_list)
    : option nat :=
  match l with
  | [] => None
  | e :: l' =>
    if (ml_modelclass e =? ml_class) && String.eqb (ml_modelname e) model_name
    then Some 0%nat
    else S <$> mlist_find ml_class model_name l'
  end.

Inductive flow :=
| Continue
| Return (code : Z).

(** The [if (kpriv->run_time_model)] block of [xlnx_kernel_start]. Its
    two [std::string] assignments (lines 758 and 764) are taken to
    succeed: they do whenever [modelname] and [elfname] hold a buffer,
    and on the first request, where the two members are still all
    zero, for a non-empty model name and an artifact path longer than
    fifteen characters. *)
Definition runtime_select (P : platform) (w : world) (inframe : IVASFrame)
    (kpriv : ivas_xkpriv) : M (flow * ivas_xkpriv) :=
  exec emit EvGetInpMeta;
  match inp_infer_meta inframe with
  | None => ret (Return neg1_uint32, kpriv)
  | Some (ml_class, model_name) =>
    let kpriv := set_modelclass ml_class kpriv in
    let kpriv := set_modelname model_name kpriv in
    do elf <- modelexits w kpriv;
    let kpriv := set_elfname elf kpriv in
    if String.eqb elf "" then ret (Return neg1_uint32, kpriv)
    else
      match mlist_find ml_class model_name (mlist kpriv) with
      | Some i =>
        match mlist kpriv !! i with
        | None => undef (OutOfBounds (Z.of_nat i) (Z.of_nat (length (mlist kpriv))))
        | Some e =>
          let kpriv := set_model (ml_model e) kpriv in
          let kpriv := set_labelptr (ml_labelptr e) kpriv in
          ret (Continue, kpriv)
        end
      | None =>
        do '(m, after) <- ivas_xinitmodel P w kpriv (modelclass kpriv);
        match after with
        | None => undef UseAfterFree
        | Some kpriv =>
          let kpriv := set_model m kpriv in
          match m with
          | None => ret (Return neg1_uint32, kpriv)
          | Some _ =>
            let entry :=
              {| ml_modelclass := ml_class; ml_modelname := model_name;
                 ml_model := model kpriv; ml_labelptr := labelptr kpriv |} in
            ret (Continue, set_mlist (mlist kpriv ++ [entry]) kpriv)
          end
        end
      end
  end.

Definition start_timer (t : Z) (p : ivas_perf) : ivas_perf :=
  {| test_started := 1; frames := frames p;
     last_displayed_frame := last_displayed_frame p;
     timer_start := t; last_displayed_time := t |}.

Definition count_frame (p : ivas_perf) : ivas_perf :=
  {| test_started := test_started p; frames := to_uint64 (frames p + 1);
     last_displayed_frame := last_displayed_frame p;
     timer_start := timer_start p; last_displayed_time := last_displayed_time p |}.

Definition mark_displayed (t : Z) (p : ivas_perf) : ivas_perf :=
  {| test_started := test_started p; frames := frames p;
     last_displayed_frame := frames p;
     timer_start := timer_start p; last_displayed_time := t |}.

(** The telemetry block that follows [ivas_xrunmodel]. *)
Definition update_perf (w : world) (kpriv : ivas_xkpriv) : M ivas_xkpriv :=
  if performance_test kpriv && negb (test_started (pf kpriv) =? 0)
  then
    let p := count_frame (pf kpriv) in
    do now <- get_time w;
    if (1000000.0 <=? Z2double (now - last_displayed_time p))%float
    then
      do current_time <- get_time w;
      let time := elapsed_seconds current_time (last_displayed_time p) in
      let fps := throughput (to_uint64 (frames p - last_displayed_frame p)) time in
      exec emit (EvPrintf (frames p) (fps_precision fps) fps);
      ret (set_pf (mark_displayed current_time p) kpriv)
    else ret (set_pf p kpriv)
  else ret kpriv.

(** [xlnx_kernel_start] after model selection: from
    [gst_buffer_add_meta] to the final [return ret]. The [touch] stands
    for [kpriv->model->requiredwidth ()] and [requiredheight ()], whose
    values only feed the log. *)
Definition process_frame (w : world) (inframe : IVASFrame) (kpriv : ivas_xkpriv)
    : M (Z * ivas_xkpriv) :=
  exec emit EvAddMeta;
  if negb (add_meta_ok inframe) then ret (neg1_uint32, kpriv)
  else
    match props_fmt inframe with
    | IVAS_VFMT_BGR8 | IVAS_VFMT_RGB8 =>
      do kpriv <- (if performance_test kpriv && (test_started (pf kpriv) =? 0)
                   then do t <- get_time w; ret (set_pf (start_timer t (pf kpriv)) kpriv)
                   else ret kpriv);
      match model kpriv with
      | None => undef NullDeref
      | Some m =>
        exec touch m;
        do r <- ivas_xrunmodel kpriv inframe;
        do kpriv <- update_perf w kpriv;
        ret (to_uint32 r, kpriv)
      end
    | _ => ret (neg1_uint32, kpriv)
    end.

Definition xlnx_kernel_start (P : platform) (w : world) (inframe : IVASFrame)
    (handle : IVASKernel) : M (Z * IVASKernel) :=
  match kernel_priv handle with
  | PrivNull => undef NullDeref
  | PrivFreed _ => undef UseAfterFree
  | PrivLive kpriv =>
    do '(fl, kpriv) <- (if run_time_model kpriv
                        then runtime_select P w inframe kpriv
                        else ret (Continue, kpriv));
    match fl with
    | Return code => ret (code, set_kernel_priv (PrivLive kpriv) handle)
    | Continue =>
      do '(code, kpriv) <- process_frame w inframe kpriv;
      ret (code, set_kernel_priv (PrivLive kpriv) handle)
    end
  end.

Definition xlnx_kernel_done (handle : IVASKernel) : M Z :=
  match kernel_priv handle with
  | PrivNull => undef NullDeref
  | PrivFreed _ => undef UseAfterFree
  | PrivLive _ => ret C_true
  end.

(** A run of the host: [xlnx_kernel_start] once per frame, each frame
    with the world it is processed in; the traces of the calls are
    concatenated. *)
Fixpoint start_all (P : platform) (fr : list (world * IVASFrame))
    (handle : IVASKernel) (h : heap) : outcome (IVASKernel * heap * list event) :=
  match fr with
  | [] => Ret (handle, h, [])
  | (w, f) :: fr' =>
    match call (xlnx_kernel_start P w f handle) h with
    | Undef u => Undef u
    | Ret ((_, handle'), h', t) =>
      match start_all P fr' handle' h' with
      | Undef u => Undef u
      | Ret (handle'', h'', t') => Ret (handle'', h'', t ++ t')
      end
    end
  end.

(** The path [modelexits] builds for the artifact with extension [ext]. *)
Definition artifact (kpriv : ivas_xkpriv) (ext : string) : string :=
  model_dir kpriv +:+ modelname kpriv +:+ ext.

(** ** Sample inputs *)

(** A build with eight model classes, all compiled in, in which only
    class 2 asks for a label table. *)
Definition sample_platform : platform :=
  {| ivas_xmodelclass :=
       ["YOLOV3"; "FACEDETECT"; "CLASSIFICATION"; "SSD"; "REID";
        "REFINEDET"; "TFSSD"; "YOLOV2"];
     IVAS_XCLASS_NOTFOUND := -1;
     class_enabled := λ c, (0 <=? c) && (c <? 8);
     ctor_labelflags := λ c k,
       if c =? 2 then (match labelptr k with Some _ => 1 | None => Z.lor 1 2 end) else 0;
     IVAS_XLABEL_NOT_REQUIRED := 0;
     IVAS_XLABEL_REQUIRED := 1;
     IVAS_XLABEL_NOT_FOUND := 2;
     LOG_LEVEL_WARNING := 1 |}.

Definition sample_clock (n : nat) : timeval :=
  {| tv_sec := 1000 + Z.of_nat n; tv_usec := 0 |}.

(** A model directory holding [ssd_voc.prototxt], [ssd_voc.xmodel] and
    [ssd_voc.elf]. *)
Definition sample_world : world :=
  {| fs := λ p, bool_decide (p ∈ ["/models/"; "/models//ssd_voc/ssd_voc.prototxt";
                                   "/models//ssd_voc/ssd_voc.xmodel";
                                   "/models//ssd_voc/ssd_voc.elf"]);
     json_files := λ _, None;
     gettimeofday := sample_clock;
     stat_empty := eq_refl |}.

Definition sample_kpriv : ivas_xkpriv :=
  {| model := None; modelclass := 3; modelfmt := IVAS_VFMT_BGR8;
     log_level := 1; need_preprocess := true; performance_test := true;
     run_time_model := true; labelptr := None; labelflags := 0; max_labels := 0;
     modelpath := "/models/"; modelname := "ssd_voc"; elfname := "";
     mlist := []; pf := zero_perf |}.

Definition empty_state : mstate :=
  {| hp := {| next_addr := 0; freed := [] |}; tick := 0; trace := [] |}.

(** The label file of the sample directory. *)
Definition sample_label_path : string := "/models//ssd_voc/label.json".

Definition label_entry (i : Z) (n d : string) : json :=
  JObject [("label", JInteger i); ("name", JString n); ("display_name", JString d)].

Definition label_resource (count : Z) (entries : list json) : json :=
  JObject [("model-name", JString "ssd_voc"); ("num-labels", JInteger count);
           ("labels", JArray entries)].

(** The sample directory with a label file whose content is [root]. *)
Definition world_with_labels (root : json) : world :=
  {| fs := λ p, fs sample_world p || String.eqb p sample_label_path;
     json_files := λ p, if String.eqb p sample_label_path then Some root else None;
     gettimeofday := sample_clock;
     stat_empty := eq_refl |}.

Definition two_labels : json :=
  label_resource 2 [label_entry 1 "dog" "Dog"; label_entry 0 "cat" "Cat"].

Definition unnamed_label : json := label_resource 1 [label_entry 0 "" ""].

(** Two entries for index 0, the second with empty names. *)
Definition renamed_label : json :=
  label_resource 2 [label_entry 0 "cat" "Cat"; label_entry 0 "" ""].

Definition stray_label : json := label_resource 1 [label_entry 5 "a" "b"].

Definition short_labels : json :=
  label_resource 3 [label_entry 0 "cat" "Cat"; label_entry 1 "dog" "Dog"].

(** Frames that select class 3, model [ssd_voc]; the second one's run
    reports failure. *)
Definition ssd_frame : IVASFrame :=
  {| inp_infer_meta := Some (3, "ssd_voc"); add_meta_ok := true;
     props_fmt := IVAS_VFMT_BGR8; run_ok := true |}.

Definition failing_frame : IVASFrame :=
  {| inp_infer_meta := Some (3, "ssd_voc"); add_meta_ok := true;
     props_fmt := IVAS_VFMT_BGR8; run_ok := false |}.

(** The private structure once [ssd_voc] has been built at address 0. *)
Definition ssd_entry : model_list :=
  {| ml_modelclass := 3; ml_modelname := "ssd_voc";
     ml_model := Some 0%nat; ml_labelptr := None |}.

Definition cached_kpriv : ivas_xkpriv :=
  set_mlist [ssd_entry] (set_model (Some 0%nat) sample_kpriv).

Definition one_model_heap : heap := {| next_addr := 1; freed := [] |}.

Definition empty_heap : heap := {| next_addr := 0; freed := [] |}.

Definition live_handle (k : ivas_xkpriv) : IVASKernel :=
  {| kernel_config := None; kernel_priv := PrivLive k |}.

(** The sample directory after [ssd_voc.prototxt] was removed. *)
Definition world_without_prototxt : world :=
  {| fs := λ p, bool_decide (p ∈ ["/models/"; "/models//ssd_voc/ssd_voc.xmodel"]);
     json_files := λ _, None;
     gettimeofday := sample_clock;
     stat_empty := eq_refl |}.




Definition fresh_handle (config : json) : IVASKernel :=
  {| kernel_config := Some config; kernel_priv := PrivNull |}.

(** A clock that stands still, and counters started at the instant it
    shows. *)
Definition frozen_world : world :=
  {| fs := fs sample_world; json_files := λ _, None;
     gettimeofday := λ _, {| tv_sec := 0; tv_usec := 0 |};
     stat_empty := eq_refl |}.

Definition frozen_kpriv : ivas_xkpriv :=
  set_pf {| test_started := 1; frames := 7; last_displayed_frame := 0;
            timer_start := 151200000000; last_displayed_time := 151200000000 |}
         cached_kpriv.

(** A second model directory, [resnet50], of the class that asks for
    labels, with no label file in it. *)
Definition two_model_world : world :=
  {| fs := λ p, bool_decide (p ∈ ["/models/"; "/models//ssd_voc/ssd_voc.prototxt";
                                   "/models//ssd_voc/ssd_voc.xmodel";
                                   "/models//resnet50/resnet50.prototxt";
                                   "/models//resnet50/resnet50.xmodel"]);
     json_files := λ _, None;
     gettimeofday := sample_clock;
     stat_empty := eq_refl |}.

Definition resnet_frame : IVASFrame :=
  {| inp_infer_meta := Some (2, "resnet50"); add_meta_ok := true;
     props_fmt := IVAS_VFMT_BGR8; run_ok := true |}.

(** A static-mode configuration for [ssd_voc], with telemetry on. *)
Definition static_config : json :=
  JObject [("model-class", JString "SSD"); ("model-name", JString "ssd_voc");
           ("model-path", JString "/models/"); ("performance_test", JTrue)].

(** A static-mode configuration whose class is not a name of the table. *)
Definition config_unknown_class : json :=
  JObject [("model-class", JString "UNKNOWN_THING"); ("model-name", JString "ssd_voc");
           ("model-path", JString "/models/")].

(** A runtime-mode private structure with two cached models, built at
    addresses 0 and 1, the first of them active. *)
Definition resnet_entry : model_list :=
  {| ml_modelclass := 2; ml_modelname := "resnet50";
     ml_model := Some 1%nat; ml_labelptr := None |}.

Definition two_model_kpriv : ivas_xkpriv :=
  set_mlist [ssd_entry; resnet_entry] (set_model (Some 0%nat) sample_kpriv).

Definition two_model_state : mstate :=
  {| hp := {| next_addr := 2; freed := [] |}; tick := 0; trace := [] |}.

(** A static-mode private structure for [ssd_voc], its model at
    address 0, telemetry off. *)
Definition static_kpriv : ivas_xkpriv :=
  {| model := Some 0%nat; modelclass := 3; modelfmt := IVAS_VFMT_BGR8;
     log_level := 1; need_preprocess := true; performance_test := false;
     run_time_model := false; labelptr := None; labelflags := 0; max_labels := 0;
     modelpath := "/models/"; modelname := "ssd_voc";
     elfname := "/models//ssd_voc/ssd_voc.xmodel";
     mlist := []; pf := zero_perf |}.

(** A frame in a pixel format the kernel does not take. *)
Definition nv12_frame : IVASFrame :=
  {| inp_infer_meta := None; add_meta_ok := true;
     props_fmt := IVAS_VFMT_OTHER 5; run_ok := true |}.


(** ** Vocabulary of the statements *)

(** An entry of the [labels] array as [readlabel] accepts it: an
    integer ["label"], and ["name"] and ["display_name"] of string
    type. *)
Definition entry_well_formed (e : json) : Prop :=
  ∃ i n d, json_object_get (Some e) "label" = Some (JInteger i) ∧
           json_object_get (Some e) "name" = Some (JString n) ∧
           json_object_get (Some e) "display_name" = Some (JString d).

(** An entry whose name and display name are moreover not empty. *)
Definition entry_named (e : json) : Prop :=
  ∃ i n d, json_object_get (Some e) "label" = Some (JInteger i) ∧
           json_object_get (Some e) "name" = Some (JString n) ∧
           json_object_get (Some e) "display_name" = Some (JString d) ∧
           n ≠ "" ∧ d ≠ "".

(** The index an entry carries, as the loop reads it. *)
Definition entry_index (e : json) : Z :=
  to_int32 (json_integer_value (json_object_get (Some e) "label")).

(** Addresses are handed out in increasing order and never reused, so
    a released address lies below the next fresh one. *)
Definition heap_wf (h : heap) : Prop := ∀ a, a ∈ freed h → (a < next_addr h)%nat.

(** The key of a cache entry. *)
Definition cache_key (e : model_list) : Z * string :=
  (ml_modelclass e, ml_modelname e).

(** No two entries of the runtime cache share a key. *)
Definition cache_ok (kpriv : ivas_xkpriv) : Prop :=
  NoDup (cache_key <$> mlist kpriv).

(** The artifact of [(modelpath, name)] resolves in [w]: the prototxt
    is there together with an xmodel or an elf. *)
Definition artifact_present (w : world) (kpriv : ivas_xkpriv) (name : string) : Prop :=
  let k := set_modelname name kpriv in
  fs w (artifact k ".prototxt") = true ∧
  (fs w (artifact k ".xmodel") = true ∨ fs w (artifact k ".elf") = true).

(** What [modelexits] computes, and the paths it stats on the way. *)
Definition resolved_artifact (w : world) (kpriv : ivas_xkpriv) : string :=
  if negb (fs w (artifact kpriv ".prototxt")) then ""
  else if fs w (artifact kpriv ".xmodel") then artifact kpriv ".xmodel"
  else if fs w (artifact kpriv ".elf") then artifact kpriv ".elf"
  else "".

Definition stat_paths (w : world) (kpriv : ivas_xkpriv) : list string :=
  if negb (fs w (artifact kpriv ".prototxt")) then [artifact kpriv ".prototxt"]
  else if fs w (artifact kpriv ".xmodel")
       then [artifact kpriv ".prototxt"; artifact kpriv ".xmodel"]
       else [artifact kpriv ".prototxt"; artifact kpriv ".xmodel"; artifact kpriv ".elf"].

Definition add_events (t : list event) (s : mstate) : mstate :=
  {| hp := hp s; tick := tick s; trace := trace s ++ t |}.


(** What model selection never touches in the private structure. *)
Definition keeps_session (k k' : ivas_xkpriv) : Prop :=
  mlist k' = mlist k ∧ run_time_model k' = run_time_model k ∧
  performance_test k' = performance_test k ∧ pf k' = pf k.

(** [emits Q m]: whenever [m] returns, the events it added to the
    trace all satisfy [Q]. *)
Definition emits (Q : event → Prop) {A} (m : M A) : Prop :=
  ∀ s a s', m s = Ret (a, s') → ∃ t, trace s' = trace s ++ t ∧ Forall Q t.

(** Events that model selection can produce: anything but running a
    model, attaching result metadata, printing a report or releasing
    the capabilities. *)
Definition selection_event (e : event) : Prop :=
  match e with
  | EvRun _ | EvPrintf _ _ _ | EvAddMeta | EvCapsFree => False
  | _ => True
  end.

(** The clock value [get_time] derives from the [n]-th answer of
    [gettimeofday]. *)
Definition time_at (w : world) (n : nat) : Z :=
  tv_sec (gettimeofday w n) * 1000000 + tv_usec (gettimeofday w n)
  + 42 * 60 * 60 * 1000000.

(** The events [printf] leaves. *)
Definition is_report (e : event) : Prop :=
  match e with EvPrintf _ _ _ => True | _ => False end.

(** The model path init settles on. *)
Definition configured_modelpath (jconfig : option json) : string :=
  match json_string_value (json_object_get jconfig "model-path") with
  | Some p => p
  | None => default_modelpath
  end.

(** The cell an entry of the [labels] array fills in, the last entry
    of a list that carries a given index, and the cell that results. *)
Definition entry_cell (e : json) : labels :=
  {| label := entry_index e;
     name := json_string_value (json_object_get (Some e) "name");
     display_name := json_string_value (json_object_get (Some e) "display_name") |}.

Definition last_with_index (j : Z) (items : list json) : option json :=
  last (filter (λ e, entry_index e = j) items).

Definition cell_of (o : option json) : labels :=
  match o with
  | Some e => entry_cell e
  | None => zero_labels
  end.

(** What init reads from the configuration, with the defaults it
    falls back to. *)
Definition configured_format (jconfig : option json) : IVASVideoFormat :=
  match json_string_value (json_object_get jconfig "model-format") with
  | None => IVAS_VFMT_BGR8
  | Some s => ivas_fmt_to_xfmt s
  end.

Definition configured_flag (jconfig : option json) (key : string) (dflt : bool) : bool :=
  if negb (json_is_boolean (json_object_get jconfig key)) then dflt
  else json_boolean_value (json_object_get jconfig key).

Definition configured_log_level (P : platform) (jconfig : option json) : Z :=
  if negb (json_is_integer (json_object_get jconfig "debug_level"))
  then LOG_LEVEL_WARNING P
  else to_int32 (json_integer_value (json_object_get jconfig "debug_level")).

(** The private structure as init has filled it in before it looks at
    the model class. *)
Definition configured_kpriv (P : platform) (jconfig : option json) : ivas_xkpriv :=
  {| model := None; modelclass := 0; modelfmt := configured_format jconfig;
     log_level := configured_log_level P jconfig;
     need_preprocess := configured_flag jconfig "need_preprocess" true;
     performance_test := configured_flag jconfig "performance_test" false;
     run_time_model := configured_flag jconfig "run_time_model" false;
     labelptr := None; labelflags := 0; max_labels := 0;
     modelpath := configured_modelpath jconfig; modelname := ""; elfname := "";
     mlist := []; pf := zero_perf |}.

(** The three fields the label loader and the constructors write. *)
Definition with_labels (lp : option label_block) (lf ml : Z) (k : ivas_xkpriv)
    : ivas_xkpriv :=
  set_labelflags lf (set_labelptr lp (set_max_labels ml k)).

(** The part of [xlnx_kernel_init] that follows the runtime-mode
    return: class, name, artifact and construction of the one model. *)
Definition init_static (P : platform) (w : world) (handle : IVASKernel)
    (kpriv : ivas_xkpriv) : M (Z * IVASKernel) :=
  let jconfig := kernel_config handle in
  let err : M (Z * IVASKernel) := ret (neg1_int32, handle) in
  match json_string_value (json_object_get jconfig "model-class") with
  | None => err
  | Some cls =>
    let kpriv := set_modelclass (ivas_xclass_to_num P cls) kpriv in
    if modelclass kpriv =? IVAS_XCLASS_NOTFOUND P then err
    else
      match json_string_value (json_object_get jconfig "model-name") with
      | None => err
      | Some nm =>
        do nm <- lift (assign_to_zeroed nm);
        let kpriv := set_modelname nm kpriv in
        do elf <- modelexits w kpriv;
        do elf <- lift (move_to_zeroed (modelexits_in_place kpriv elf) elf);
        let kpriv := set_elfname elf kpriv in
        if String.eqb elf "" then err
        else
          do '(m, after) <- ivas_xinitmodel P w kpriv (modelclass kpriv);
          match after with
          | None => undef UseAfterFree
          | Some kpriv =>
            let kpriv := set_model m kpriv in
            match m with
            | None => err
            | Some _ => ret (C_true, set_kernel_priv (PrivLive kpriv) handle)
            end
          end
      end
  end.

(** The stages of [xlnx_kernel_init] past the format test and the
    assignment of the model path. *)
Definition init_after_format (P : platform) (w : world) (handle : IVASKernel)
    : M (Z * IVASKernel) :=
  let jconfig := kernel_config handle in
  do path_ok <- fileexists w (configured_modelpath jconfig);
  if negb path_ok then ret (neg1_int32, handle)
  else if configured_flag jconfig "run_time_model" false
       then ret (C_true, set_kernel_priv (PrivLive (configured_kpriv P jconfig)) handle)
       else init_static P w handle (configured_kpriv P jconfig).

(** The label file [ivas_xinitmodel] looks for. *)
Definition label_path (kpriv : ivas_xkpriv) : string :=
  modelpath kpriv +:+ "/" +:+ modelname kpriv +:+ "/" +:+ "label.json".

(** The private structure as the constructor of class [c] sees it when
    no label file was found, and the verdict "labels required but not
    found" it may leave in [labelflags]. *)
Definition before_ctor (P : platform) (kpriv : ivas_xkpriv) : ivas_xkpriv :=
  set_labelflags (IVAS_XLABEL_NOT_REQUIRED P) (set_labelptr None kpriv).

Definition ctor_misses_labels (P : platform) (c : Z) (kpriv : ivas_xkpriv) : bool :=
  flag_set (ctor_labelflags P c (before_ctor P kpriv)) (IVAS_XLABEL_REQUIRED P)
  && flag_set (ctor_labelflags P c (before_ctor P kpriv)) (IVAS_XLABEL_NOT_FOUND P).

(** The blocks deinit hands back, in the order they end up on the
    free list (the model is released first, then the label table), and
    the events of that teardown. *)
Definition active_blocks (kpriv : ivas_xkpriv) : list nat :=
  match labelptr kpriv with Some b => [lb_addr b] | None => [] end ++
  match model kpriv with Some m => [m] | None => [] end.

Definition teardown_events (kpriv : ivas_xkpriv) : list event :=
  match model kpriv with Some m => [EvClose m; EvDelete m] | None => [] end ++ [EvCapsFree].

(** A frame that gets past the two checks before the model runs: the
    result metadata can be attached and the pixel format is BGR or RGB. *)
Definition frame_accepted (fr : IVASFrame) : bool :=
  add_meta_ok fr &&
  match props_fmt fr with
  | IVAS_VFMT_BGR8 | IVAS_VFMT_RGB8 => true
  | _ => false
  end.

(** A static-mode session: one model, no cache, and every block taken
    from the heap since address [h0] is either released or one of the
    two the private structure points to. *)
Definition static_session (h0 : nat) (kpriv : ivas_xkpriv) (h : heap) : Prop :=
  run_time_model kpriv = false ∧ mlist kpriv = [] ∧ is_Some (model kpriv) ∧
  NoDup (active_blocks kpriv) ∧
  (∀ a, a ∈ active_blocks kpriv → a ∉ freed h) ∧
  (∀ a, (h0 ≤ a < next_addr h)%nat → a ∈ active_blocks kpriv ∨ a ∈ freed h).

(** The number of times a trace shows a model being run. *)
Fixpoint count_runs (t : list event) : nat :=
  match t with
  | [] => 0
  | EvRun _ :: t' => S (count_runs t')
  | _ :: t' => count_runs t'
  end.

(** * Properties *)

(** ** Artifact resolution *)

Lemma append_nonempty (a b : string) : b ≠ "" → a +:+ b ≠ "".
Proof.
  intros Hb. destruct a as [|c a]; simpl; [exact Hb | discriminate].
Qed.

Lemma artifact_nonempty (kpriv : ivas_xkpriv) (ext : string) :
  ext ≠ "" → artifact kpriv ext ≠ "".
Proof.
  intros Hext. unfold artifact.
  apply append_nonempty, append_nonempty, Hext.
Qed.

(** C3. [modelexits] always returns; the result is empty when the
    prototxt is missing; with the prototxt present it is the xmodel path
    whenever the xmodel exists (whatever the elf), the elf path when
    only the elf exists, and empty when neither exists. The two paths
    are never empty, so the empty result always means failure. *)
Theorem modelexits_resolution (w : world) (kpriv : ivas_xkpriv) (s : mstate) :
  ∃ r s', modelexits w kpriv s = Ret (r, s') ∧ hp s' = hp s ∧
    (fs w (artifact kpriv ".prototxt") = false → r = "") ∧
    (fs w (artifact kpriv ".prototxt") = true →
       (fs w (artifact kpriv ".xmodel") = true → r = artifact kpriv ".xmodel") ∧
       (fs w (artifact kpriv ".xmodel") = false →
          fs w (artifact kpriv ".elf") = true → r = artifact kpriv ".elf") ∧
       (fs w (artifact kpriv ".xmodel") = false →
          fs w (artifact kpriv ".elf") = false → r = "")) ∧
    artifact kpriv ".xmodel" ≠ "" ∧ artifact kpriv ".elf" ≠ "".
Proof.
  unfold modelexits, fileexists, bind, ret, emit. fold (artifact kpriv ".elf").
  fold (artifact kpriv ".xmodel"). fold (artifact kpriv ".prototxt"). simpl.
  destruct (fs w (artifact kpriv ".prototxt")) eqn:Hp; simpl.
  - destruct (fs w (artifact kpriv ".xmodel")) eqn:Hx; simpl.
    + eexists _, _. repeat split; try congruence; by apply artifact_nonempty.
    + destruct (fs w (artifact kpriv ".elf")) eqn:He; simpl;
        eexists _, _; repeat split; try congruence; by apply artifact_nonempty.
  - eexists _, _. repeat split; try congruence; by apply artifact_nonempty.
Qed.

(** ** The label loader *)

Lemma json_array_get_items (items : list json) (k : nat) :
  json_array_get (Some (JArray items)) (Z.of_nat k) = items !! k.
Proof.
  unfold json_array_get.
  destruct (Z.ltb_spec (Z.of_nat k) 0) as [?|_]; [lia|].
  by rewrite Nat2Z.id.
Qed.

(** What a completed loop tells about the entries it went through. *)
Lemma readlabel_loop_success (karray : option json) (N : Z) (todo : nat) :
  ∀ (index : nat) (cells cells' : list labels),
    readlabel_loop karray N todo (Z.of_nat index) cells = Ret (Some cells') →
    length cells' = length cells ∧
    ∀ k, (k < todo)%nat →
      ∃ e, json_array_get karray (Z.of_nat (index + k)) = Some e ∧
           entry_well_formed e ∧ 0 ≤ entry_index e < N.
Proof.
  induction todo as [|todo IH]; intros index cells cells' H; simpl in H.
  - split; [congruence | intros k Hk; lia].
  - destruct (json_array_get karray (Z.of_nat index)) as [lbl|] eqn:Hget;
      [|discriminate].
    destruct (json_object_get (Some lbl) "label") as [[?|?|?|i|?| | |]|] eqn:Hl;
      simpl in H; try discriminate.
    destruct (Z.leb_spec 0 (to_int32 i)) as [Hlo|?]; simpl in H; [|discriminate].
    destruct (Z.ltb_spec (to_int32 i) N) as [Hhi|?]; simpl in H; [|discriminate].
    destruct (json_object_get (Some lbl) "name") as [[?|?|n|?|?| | |]|] eqn:Hn;
      simpl in H; try discriminate.
    destruct (assign_cstr _ n) as [nm|]; [|discriminate].
    destruct (json_object_get (Some lbl) "display_name") as [[?|?|d|?|?| | |]|] eqn:Hd;
      simpl in H; try discriminate.
    destruct (assign_cstr _ d) as [dn|]; [|discriminate].
    replace (Z.of_nat index + 1) with (Z.of_nat (S index)) in H by lia.
    apply IH in H as [Hlen Hall]. split.
    + rewrite Hlen. by rewrite !length_alter.
    + intros [|k] Hk.
      * rewrite Nat.add_0_r. exists lbl. split; [done|]. split.
        -- by exists i, n, d.
        -- unfold entry_index. rewrite Hl. simpl. lia.
      * replace (index + S k)%nat with (S index + k)%nat by lia.
        apply Hall. lia.
Qed.

Lemma to_uint32_id (n : Z) : 0 ≤ n < 2 ^ 32 → to_uint32 n = n.
Proof. intros Hn. unfold to_uint32. by apply Z.mod_small. Qed.

(** [readlabel] hands out a table only when the file loads,
    ["num-labels"] is an integer, ["labels"] is an array whose length
    equals the count as read into [unsigned int num_labels] (the count
    modulo 2^32), and every entry has an integer ["label"] and
    string-typed ["name"] and ["display_name"]. The table then has as
    many cells as [num_labels], which is also what [kpriv->max_labels]
    holds. *)
Lemma readlabel_success_conditions (w : world) (kpriv kpriv' : ivas_xkpriv)
    (json_file : string) (s s' : mstate) (blk : label_block) :
  readlabel w kpriv json_file s = Ret ((Some blk, kpriv'), s') →
  ∃ root n items,
    json_files w json_file = Some root ∧
    json_object_get (Some root) "num-labels" = Some (JInteger n) ∧
    json_object_get (Some root) "labels" = Some (JArray items) ∧
    Z.of_nat (length items) = to_uint32 n ∧
    Forall entry_well_formed items ∧
    Z.of_nat (length (lb_cells blk)) = to_uint32 n ∧
    max_labels kpriv' = to_uint32 n ∧
    (0 ≤ n < 2 ^ 32 →
       Z.of_nat (length items) = n ∧ Z.of_nat (length (lb_cells blk)) = n).
Proof.
  unfold readlabel, bind, emit, ret, alloc, release, lift. simpl. intros H.
  destruct (json_files w json_file) as [root|]; simpl in H; [|done].
  destruct (json_object_get (Some root) "num-labels")
    as [[?|?|?|n|?| | |]|] eqn:Hn; simpl in H; try discriminate.
  destruct (json_object_get (Some root) "labels")
    as [[?|items|?|?|?| | |]|] eqn:Hl; simpl in H;
    try (by destruct (is_freed _ _)).
  destruct (Z.eqb_spec (to_uint32 n) (Z.of_nat (length items))) as [Hlen|?];
    simpl in H; [|by destruct (is_freed _ _)].
  destruct (readlabel_loop _ _ _ _ _) as [[cells|]|] eqn:Hloop; simpl in H;
    [|by destruct (is_freed _ _)|done].
  injection H as <- <- <-.
  apply (readlabel_loop_success _ _ _ 0%nat) in Hloop as [Hcells Hall].
  rewrite length_replicate in Hcells.
  assert (Hsz : Z.of_nat (length cells) = to_uint32 n).
  { rewrite Hcells, Z2Nat.id; [done|]. unfold to_uint32. apply Z.mod_pos_bound. lia. }
  exists root, n, items. repeat split; try done.
  - apply Forall_lookup_2. intros k e Hk'.
    assert (Hlt : (k < Z.to_nat (to_uint32 n))%nat).
    { apply lookup_lt_Some in Hk'. lia. }
    destruct (Hall k Hlt) as (e' & Hget & Hwf & _).
    rewrite json_array_get_items in Hget. simpl in Hget. congruence.
  - rewrite <- Hlen. by apply to_uint32_id.
  - simpl. rewrite Hsz. by apply to_uint32_id.
Qed.



Lemma assign_cstr_nonempty (member : option string) (s : string) :
  s ≠ "" → assign_cstr member s = Ret (Some s).
Proof.
  intros Hs. destruct member; [done|]. unfold assign_cstr, assign_to_zeroed.
  by destruct (String.eqb_spec s "").
Qed.

Lemma assign_cstr_Ret (member r : option string) (s : string) :
  assign_cstr member s = Ret r → r = Some s.
Proof.
  destruct member; simpl; [congruence|]. unfold assign_to_zeroed.
  destruct (String.eqb s ""); [done | congruence].
Qed.

(** The loop runs to its end over entries that are well formed, carry
    indices inside the block and have non-empty names. *)
Lemma readlabel_loop_complete (karray : option json) (N : Z) (todo : nat) :
  ∀ (index : nat) (cells : list labels),
    (∀ k, (k < todo)%nat →
       ∃ e, json_array_get karray (Z.of_nat (index + k)) = Some e ∧
            entry_named e ∧ 0 ≤ entry_index e < N) →
    ∃ cells', readlabel_loop karray N todo (Z.of_nat index) cells = Ret (Some cells').
Proof.
  induction todo as [|todo IH]; intros index cells Hall; simpl; [by eexists|].
  destruct (Hall 0%nat) as (e & Hget & (i & n & d & Hl & Hn & Hd & Hne & Hde) & Hrange);
    [lia|].
  rewrite Nat.add_0_r in Hget. rewrite Hget, Hl. simpl.
  unfold entry_index in Hrange. rewrite Hl in Hrange. simpl in Hrange.
  destruct (Z.leb_spec 0 (to_int32 i)); [|lia].
  destruct (Z.ltb_spec (to_int32 i) N); [|lia]. simpl.
  rewrite Hn. simpl. rewrite (assign_cstr_nonempty _ n Hne).
  rewrite Hd. simpl. rewrite (assign_cstr_nonempty _ d Hde).
  replace (Z.of_nat index + 1) with (Z.of_nat (S index)) by lia.
  apply IH. intros k Hk.
  replace (S index + k)%nat with (index + S k)%nat by lia. apply Hall. lia.
Qed.

(** A resource whose count, array and entries are well formed, whose
    indices stay inside the table and whose names are not empty is
    parsed: the table has one cell per declared label. *)
Lemma readlabel_valid_resource_succeeds (w : world) (kpriv : ivas_xkpriv)
    (json_file : string) (s : mstate) (root : json) (n : Z) (items : list json) :
  json_files w json_file = Some root →
  json_object_get (Some root) "num-labels" = Some (JInteger n) →
  json_object_get (Some root) "labels" = Some (JArray items) →
  Z.of_nat (length items) = to_uint32 n →
  Forall (λ e, entry_named e ∧ 0 ≤ entry_index e < to_uint32 n) items →
  ∃ cells s',
    readlabel w kpriv json_file s
    = Ret ((Some {| lb_addr := next_addr (hp s); lb_cells := cells |},
            set_max_labels (to_uint32 n) kpriv), s') ∧
    Z.of_nat (length cells) = to_uint32 n.
Proof.
  intros Hroot Hn Hl Hlen Hall.
  destruct (readlabel_loop_complete (Some (JArray items)) (to_uint32 n)
              (Z.to_nat (to_uint32 n)) 0
              (replicate (Z.to_nat (to_uint32 n)) zero_labels))
    as [cells Hloop].
  { intros k Hk. simpl. rewrite json_array_get_items.
    destruct (lookup_lt_is_Some_2 items k) as [e He]; [lia|].
    exists e. split; [done|]. by apply (Forall_lookup_1 _ _ _ _ Hall He). }
  exists cells. unfold readlabel, bind, emit, ret, alloc, lift. simpl.
  rewrite Hroot, Hn. simpl. rewrite Hl. simpl.
  rewrite <- Hlen, Z.eqb_refl. simpl. rewrite Hlen.
  assert (Hloop' := Hloop). change (Z.of_nat 0) with 0 in Hloop'.
  rewrite Hloop'. eexists. split; [done|].
  apply (readlabel_loop_success _ _ _ 0%nat) in Hloop as [-> _].
  rewrite length_replicate. lia.
Qed.

(** The store of the loop body falls outside the block as soon as an
    entry carries an index that is not in [0, num_labels). *)
Lemma readlabel_loop_stray (karray : option json) (N : Z) (todo : nat)
    (index : Z) (cells : list labels) (e : json) (i : Z) :
  json_array_get karray index = Some e →
  json_object_get (Some e) "label" = Some (JInteger i) →
  ¬ (0 ≤ to_int32 i < N) →
  readlabel_loop karray N (S todo) index cells = Undef (OutOfBounds (to_int32 i) N).
Proof.
  intros Hget Hl Hout. simpl. rewrite Hget, Hl. simpl.
  destruct (Z.leb_spec 0 (to_int32 i)); destruct (Z.ltb_spec (to_int32 i) N);
    simpl; try done. lia.
Qed.

(** C4 (the code at the failing input). A resource declaring one label
    whose only entry carries index 5: [readlabel] neither fails with a
    validation error nor drops the entry; it stores through
    [labelptr + 5], outside the one-cell block. *)
Theorem readlabel_stray_index_stores_outside_block :
  readlabel (world_with_labels stray_label) sample_kpriv sample_label_path empty_state
  = Undef (OutOfBounds 5 1).
Proof. vm_compute. reflexivity. Qed.

Lemma fresh_cell_name (off : Z) (lptr N : nat) :
  alter (set_label off) lptr (replicate N zero_labels) !! lptr ≫= name = None.
Proof.
  rewrite list_lookup_alter_eq.
  destruct (replicate N zero_labels !! lptr) as [c|] eqn:Hc; [|done].
  apply lookup_replicate in Hc as [-> _]. reflexivity.
Qed.

Lemma fresh_cell_display_name (off : Z) (nm : option string) (lptr N : nat) :
  alter (set_name nm) lptr (alter (set_label off) lptr (replicate N zero_labels))
    !! lptr ≫= display_name = None.
Proof.
  rewrite !list_lookup_alter_eq.
  destruct (replicate N zero_labels !! lptr) as [c|] eqn:Hc; [|done].
  apply lookup_replicate in Hc as [-> _]. reflexivity.
Qed.

Lemma readlabel_loop_empty_first (karray : option json) (N : Z) (todo M : nat)
    (e : json) (i : Z) :
  (0 < todo)%nat → json_array_get karray 0 = Some e →
  json_object_get (Some e) "label" = Some (JInteger i) → 0 ≤ to_int32 i < N →
  json_object_get (Some e) "name" = Some (JString "") ∨
  (∃ nm, json_object_get (Some e) "name" = Some (JString nm) ∧ nm ≠ "" ∧
         json_object_get (Some e) "display_name" = Some (JString "")) →
  readlabel_loop karray N todo 0 (replicate M zero_labels) = Undef NullDeref.
Proof.
  intros Htodo Hget Hi Hrange Hempty. destruct todo as [|todo]; [lia|].
  simpl. rewrite Hget, Hi. simpl.
  destruct (Z.leb_spec 0 (to_int32 i)); [|lia].
  destruct (Z.ltb_spec (to_int32 i) N); [|lia]. simpl.
  destruct Hempty as [Hnm|(nm & Hnm & Hne & Hd)]; rewrite Hnm; simpl.
  - by rewrite fresh_cell_name.
  - rewrite fresh_cell_name. simpl. unfold assign_to_zeroed.
    destruct (String.eqb_spec nm "") as [?|_]; [done|]. rewrite Hd. simpl.
    by rewrite fresh_cell_display_name.
Qed.

(** C5 (the code at the failing input). The loop tests the type of
    ["name"] and ["display_name"] and nothing else. An empty name, or
    an empty display name, in the first entry of the array is not
    turned down with an error: it is assigned to a member of the
    zero-filled block that no constructor has run on, and the
    assignment stores the terminator through the member's null data
    pointer. *)
Theorem readlabel_empty_name_writes_through_null (w : world) (kpriv : ivas_xkpriv)
    (json_file : string) (s : mstate) (root e : json) (rest : list json) (n i : Z) :
  json_files w json_file = Some root →
  json_object_get (Some root) "num-labels" = Some (JInteger n) →
  json_object_get (Some root) "labels" = Some (JArray (e :: rest)) →
  Z.of_nat (length (e :: rest)) = to_uint32 n →
  json_object_get (Some e) "label" = Some (JInteger i) →
  0 ≤ to_int32 i < to_uint32 n →
  json_object_get (Some e) "name" = Some (JString "") ∨
  (∃ nm, json_object_get (Some e) "name" = Some (JString nm) ∧ nm ≠ "" ∧
         json_object_get (Some e) "display_name" = Some (JString "")) →
  readlabel w kpriv json_file s = Undef NullDeref.
Proof.
  intros Hroot Hn Hl Hlen Hi Hrange Hempty.
  assert (Hloop : readlabel_loop (Some (JArray (e :: rest))) (to_uint32 n)
                    (Z.to_nat (to_uint32 n)) 0
                    (replicate (Z.to_nat (to_uint32 n)) zero_labels)
                  = Undef NullDeref).
  { apply (readlabel_loop_empty_first _ _ _ _ e i); try done.
    rewrite <- Hlen. simpl. lia. }
  unfold readlabel, bind, emit, ret, alloc, lift. simpl.
  rewrite Hroot, Hn. simpl. rewrite Hl.
  change (json_null (Some (JArray (e :: rest)))) with false.
  change (negb (json_is_array (Some (JArray (e :: rest))))) with false.
  change (json_array_size (Some (JArray (e :: rest))))
    with (Z.of_nat (length (e :: rest))).
  cbv iota. rewrite Hlen, Z.eqb_refl. simpl negb. cbv iota. by rewrite Hloop.
Qed.

(** ** The runtime cache *)

Lemma bind_Ret {A B} (m : M A) (f : A → M B) (s s' : mstate) (b : B) :
  bind m f s = Ret (b, s') → ∃ a s1, m s = Ret (a, s1) ∧ f a s1 = Ret (b, s').
Proof.
  unfold bind. destruct (m s) as [[a s1]|]; [|done]. intros H. by exists a, s1.
Qed.

Lemma modelexits_run (w : world) (kpriv : ivas_xkpriv) (s : mstate) :
  modelexits w kpriv s
  = Ret (resolved_artifact w kpriv, add_events (EvStat <$> stat_paths w kpriv) s).
Proof.
  unfold modelexits, resolved_artifact, stat_paths, fileexists, bind, ret, emit, add_events.
  fold (artifact kpriv ".elf"). fold (artifact kpriv ".xmodel").
  fold (artifact kpriv ".prototxt"). simpl.
  destruct (fs w (artifact kpriv ".prototxt")); simpl; [|done].
  destruct (fs w (artifact kpriv ".xmodel")); simpl; rewrite <- ?app_assoc; [done|].
  destruct (fs w (artifact kpriv ".elf")); simpl; by rewrite <- ?app_assoc.
Qed.

Lemma mlist_find_Some (c : Z) (n : string) (l : list model_list) (i : nat) :
  mlist_find c n l = Some i →
  ∃ e, l !! i = Some e ∧ cache_key e = (c, n) ∧
       ∀ j e', (j < i)%nat → l !! j = Some e' → cache_key e' ≠ (c, n).
Proof.
  revert i. induction l as [|e l IH]; intros i H; simpl in H; [done|].
  destruct (Z.eqb_spec (ml_modelclass e) c) as [Hc|Hc]; simpl in H.
  - destruct (String.eqb_spec (ml_modelname e) n) as [Hn|Hn].
    + injection H as <-. exists e. repeat split; [by rewrite <- Hc, <- Hn | lia].
    + destruct (mlist_find c n l) as [i'|]; [|done]. injection H as <-.
      destruct (IH i' eq_refl) as (e0 & Hl & Hk & Hfirst).
      exists e0. repeat split; [done..|].
      intros [|j] e' Hj He'; simpl in He'.
      * injection He' as <-. unfold cache_key. congruence.
      * apply (Hfirst j); [lia | done].
  - destruct (mlist_find c n l) as [i'|]; [|done]. injection H as <-.
    destruct (IH i' eq_refl) as (e0 & Hl & Hk & Hfirst).
    exists e0. repeat split; [done..|].
    intros [|j] e' Hj He'; simpl in He'.
    + injection He' as <-. unfold cache_key. congruence.
    + apply (Hfirst j); [lia | done].
Qed.

Lemma mlist_find_None (c : Z) (n : string) (l : list model_list) :
  mlist_find c n l = None ↔ (c, n) ∉ cache_key <$> l.
Proof.
  induction l as [|e l IH]; simpl.
  - split; [intros _; apply not_elem_of_nil | done].
  - rewrite not_elem_of_cons, <- IH. unfold cache_key at 1.
    destruct (Z.eqb_spec (ml_modelclass e) c) as [Hc|Hc]; simpl.
    + destruct (String.eqb_spec (ml_modelname e) n) as [Hn|Hn].
      * split; [done | intros [Hne _]; by subst].
      * destruct (mlist_find c n l); simpl; split; try done.
        -- by intros [_ ?].
        -- intros _. split; [congruence | done].
    + destruct (mlist_find c n l); simpl; split; try done.
      * by intros [_ ?].
      * intros _. split; [congruence | done].
Qed.

(** With distinct keys, the scan stops at the entry itself. *)
Lemma mlist_find_entry (l : list model_list) (e : model_list) :
  NoDup (cache_key <$> l) → e ∈ l →
  ∃ i, mlist_find (ml_modelclass e) (ml_modelname e) l = Some i ∧ l !! i = Some e.
Proof.
  intros Hnd He.
  destruct (mlist_find (ml_modelclass e) (ml_modelname e) l) as [i|] eqn:Hf.
  - exists i. split; [done|].
    destruct (mlist_find_Some _ _ _ _ Hf) as (e0 & Hl & Hk & _).
    apply list_elem_of_lookup in He as [j Hj].
    assert (i = j) as ->; [|done].
    apply (NoDup_lookup (cache_key <$> l) i j (cache_key e) Hnd).
    + rewrite list_lookup_fmap, Hl. simpl. by rewrite Hk.
    + by rewrite list_lookup_fmap, Hj.
  - apply mlist_find_None in Hf. destruct Hf.
    apply list_elem_of_fmap. by exists e.
Qed.

Ltac bind_inv H :=
  let a := fresh "a" in
  let s := fresh "s" in
  let Ha := fresh "Hstep" in
  apply bind_Ret in H as (a & s & Ha & H).

Tactic Notation "bind_step" hyp(H) "as" simple_intropattern(a)
    simple_intropattern(s) simple_intropattern(Ha) :=
  apply bind_Ret in H as (a & s & Ha & H).

Lemma readlabel_keeps (w : world) (k k' : ivas_xkpriv) (f : string)
    (s s' : mstate) (l : option label_block) :
  readlabel w k f s = Ret ((l, k'), s') → keeps_session k k'.
Proof.
  unfold readlabel. intros H. bind_inv H.
  destruct (json_null _); [by injection H as <- <- <-|].
  destruct (negb (json_is_integer _)); [by injection H as <- <- <-|].
  bind_inv H.
  assert (Herr : ∀ sx, bind (release a0) (λ _, ret (None, set_max_labels
            (to_uint32 (json_integer_value
               (json_object_get (json_files w f) "num-labels"))) k)) sx
          = Ret ((l, k'), s') → keeps_session k k').
  { intros sx H0. bind_inv H0. by injection H0 as <- <- <-. }
  destruct (json_null _); [by eapply Herr|].
  destruct (negb (json_is_array _)); [by eapply Herr|].
  destruct (negb (_ =? _)); [by eapply Herr|].
  bind_inv H. destruct a1; [by injection H as <- <- <-|by eapply Herr].
Qed.

Lemma ivas_xinitmodel_keeps (P : platform) (w : world) (k k' : ivas_xkpriv)
    (c : Z) (s s' : mstate) (m : option nat) :
  ivas_xinitmodel P w k c s = Ret ((m, Some k'), s') → keeps_session k k'.
Proof.
  unfold ivas_xinitmodel. intros H. bind_inv H. bind_inv H.
  assert (Hk : keeps_session k a0).
  { destruct a.
    - bind_inv Hstep0. destruct a as [l k0]. injection Hstep0 as <- <-.
      by apply readlabel_keeps in Hstep1.
    - by injection Hstep0 as <- <-. }
  destruct Hk as (Hm & Hr & Hp & Hpf).
  destruct (negb (class_enabled P c)); [done|].
  bind_inv H. bind_inv H.
  destruct (_ && _).
  - destruct (model _); [|done]. repeat bind_inv H.
    by injection H as <- <- <-.
  - bind_inv H. by injection H as <- <- <-.
Qed.

Lemma artifact_set_modelclass (k : ivas_xkpriv) (c : Z) (n ext : string) :
  artifact (set_modelname n (set_modelclass c k)) ext = artifact (set_modelname n k) ext.
Proof. reflexivity. Qed.

Lemma resolved_artifact_present (w : world) (k : ivas_xkpriv) (n : string) :
  artifact_present w k n →
  String.eqb (resolved_artifact w (set_modelname n k)) "" = false.
Proof.
  intros [Hp Hx]. unfold resolved_artifact. rewrite Hp. simpl.
  apply String.eqb_neq.
  destruct (fs w (artifact (set_modelname n k) ".xmodel")).
  - by apply artifact_nonempty.
  - destruct Hx as [?|He]; [done|]. rewrite He. by apply artifact_nonempty.
Qed.

(** The selection block on a request whose pair is cached. *)
Lemma runtime_select_hit (P : platform) (w : world) (fr : IVASFrame)
    (k : ivas_xkpriv) (e : model_list) (s : mstate) :
  cache_ok k → e ∈ mlist k →
  inp_infer_meta fr = Some (cache_key e) →
  artifact_present w k (ml_modelname e) →
  let kq := set_modelname (ml_modelname e) (set_modelclass (ml_modelclass e) k) in
  runtime_select P w fr k s
  = Ret ((Continue,
          set_labelptr (ml_labelptr e)
            (set_model (ml_model e) (set_elfname (resolved_artifact w kq) kq))),
         add_events (EvGetInpMeta :: (EvStat <$> stat_paths w kq)) s).
Proof.
  intros Hok He Hmeta Hart kq. unfold runtime_select, bind at 1, emit.
  rewrite Hmeta. unfold cache_key. fold kq. unfold bind. rewrite modelexits_run.
  assert (Hres : String.eqb (resolved_artifact w kq) "" = false).
  { by apply (resolved_artifact_present w (set_modelclass (ml_modelclass e) k)). }
  rewrite Hres. simpl.
  destruct (mlist_find_entry _ _ Hok He) as (i & Hfind & Hi).
  rewrite Hfind, Hi. unfold ret, add_events. simpl.
  by rewrite <- app_assoc.
Qed.

(** What any return of the selection block leaves behind. *)
Lemma runtime_select_cache (P : platform) (w : world) (fr : IVASFrame)
    (k k' : ivas_xkpriv) (s s' : mstate) (fl : flow) :
  runtime_select P w fr k s = Ret ((fl, k'), s') →
  (cache_ok k → cache_ok k') ∧ mlist k `prefix_of` mlist k' ∧
  keeps_session (set_mlist (mlist k') k) k' ∧
  (fl = Continue →
     ∃ c n e, inp_infer_meta fr = Some (c, n) ∧ e ∈ mlist k' ∧ cache_key e = (c, n) ∧
              ml_model e = model k' ∧ ml_labelptr e = labelptr k' ∧
              (mlist_find c n (mlist k) = None → mlist k' = mlist k ++ [e])).
Proof.
  unfold runtime_select. intros H. bind_inv H.
  destruct (inp_infer_meta fr) as [[c n]|]; [|by injection H as <- <- <-].
  bind_inv H. rewrite modelexits_run in Hstep0. injection Hstep0 as <- <-.
  destruct (String.eqb _ ""); [by injection H as <- <- <-|].
  simpl in H.
  destruct (mlist_find c n (mlist k)) as [i|] eqn:Hfind.
  - destruct (mlist_find_Some _ _ _ _ Hfind) as (e & Hi & Hkey & _).
    rewrite Hi in H. injection H as <- <- <-. simpl.
    repeat split; try done.
    intros _. exists c, n, e. repeat split; try done; [|congruence].
    apply list_elem_of_lookup. by exists i.
  - bind_inv H. destruct a0 as [m [k1|]]; [|done].
    apply ivas_xinitmodel_keeps in Hstep0 as (Hm & Hr & Hp & Hpf). simpl in *.
    destruct m as [m|]; injection H as <- <- <-; simpl.
    + repeat split; try done.
      * unfold cache_ok. simpl. intros Hok. rewrite Hm, fmap_app. apply NoDup_app.
        split; [done|]. split; [|apply NoDup_singleton].
        intros x Hx Hx'. apply list_elem_of_singleton in Hx'. subst x.
        by apply mlist_find_None in Hfind.
      * rewrite Hm. by apply prefix_app_r.
      * intros _.
        exists c, n, {| ml_modelclass := c; ml_modelname := n;
                        ml_model := Some m; ml_labelptr := labelptr k1 |}.
        repeat split; [|by rewrite Hm].
        rewrite elem_of_app. right. by apply list_elem_of_singleton.
    + repeat split; try done.
      * unfold cache_ok. simpl. by rewrite Hm.
      * simpl. by rewrite Hm.
Qed.

(** ** Traces *)

Section Emits.
Context (Q : event → Prop).

Lemma emits_ret {A} (a : A) : emits Q (ret a).
Proof.
  intros s a' s' [= <- <-]. exists []. by rewrite app_nil_r.
Qed.

Lemma emits_undef {A} (u : ub) : emits Q (@undef A u).
Proof. intros s a s' H. discriminate H. Qed.

Lemma emits_bind {A B} (m : M A) (f : A → M B) :
  emits Q m → (∀ a, emits Q (f a)) → emits Q (bind m f).
Proof.
  intros Hm Hf s b s' H. apply bind_Ret in H as (a & s1 & H1 & H2).
  destruct (Hm _ _ _ H1) as (t1 & E1 & Ht1).
  destruct (Hf a _ _ _ H2) as (t2 & E2 & Ht2).
  exists (t1 ++ t2). split; [by rewrite E2, E1, app_assoc | by apply Forall_app].
Qed.

Lemma emits_emit (e : event) : Q e → emits Q (emit e).
Proof.
  intros He s a s' [= <- <-]. exists [e]. simpl. split; [done|].
  by apply Forall_singleton.
Qed.

Lemma emits_alloc : emits Q alloc.
Proof. intros s a s' [= <- <-]. exists []. by rewrite app_nil_r. Qed.

Lemma emits_release (a : nat) : emits Q (release a).
Proof.
  intros s x s'. unfold release. destruct (is_freed a (hp s)); [done|].
  intros [= <- <-]. exists []. by rewrite app_nil_r.
Qed.

Lemma emits_touch (a : nat) : emits Q (touch a).
Proof.
  intros s x s'. unfold touch. destruct (is_freed a (hp s)); [done|].
  intros [= <- <-]. exists []. by rewrite app_nil_r.
Qed.

Lemma emits_lift {A} (o : outcome A) : emits Q (lift o).
Proof.
  intros s a s'. unfold lift. destruct o; [|done].
  intros [= <- <-]. exists []. by rewrite app_nil_r.
Qed.

Lemma emits_get_time (w : world) : emits Q (get_time w).
Proof. intros s a s' [= <- <-]. exists []. by rewrite app_nil_r. Qed.
End Emits.

Ltac emits_step :=
  lazymatch goal with
  | |- emits _ (bind _ _) => apply emits_bind; [|intros ?]
  | |- emits _ (ret _) => apply emits_ret
  | |- emits _ (undef _) => apply emits_undef
  | |- emits _ (emit _) => apply emits_emit; simpl; tauto
  | |- emits _ alloc => apply emits_alloc
  | |- emits _ (release _) => apply emits_release
  | |- emits _ (touch _) => apply emits_touch
  | |- emits _ (lift _) => apply emits_lift
  | |- emits _ (get_time _) => apply emits_get_time
  | |- emits _ (if ?c then _ else _) => destruct c
  | |- emits _ (match ?x with _ => _ end) => destruct x
  end.

Lemma fileexists_selection (w : world) (p : string) :
  emits selection_event (fileexists w p).
Proof. unfold fileexists. repeat emits_step. Qed.

Lemma modelexits_selection (w : world) (k : ivas_xkpriv) :
  emits selection_event (modelexits w k).
Proof.
  unfold modelexits.
  repeat (emits_step || apply fileexists_selection).
Qed.

Lemma readlabel_selection (w : world) (k : ivas_xkpriv) (f : string) :
  emits selection_event (readlabel w k f).
Proof. unfold readlabel. repeat emits_step. Qed.

Lemma ivas_xinitmodel_selection (P : platform) (w : world) (k : ivas_xkpriv) (c : Z) :
  emits selection_event (ivas_xinitmodel P w k c).
Proof.
  unfold ivas_xinitmodel.
  repeat (emits_step || apply fileexists_selection || apply readlabel_selection).
Qed.

Lemma runtime_select_selection (P : platform) (w : world) (fr : IVASFrame)
    (k : ivas_xkpriv) :
  emits selection_event (runtime_select P w fr k).
Proof.
  unfold runtime_select.
  repeat (emits_step || apply modelexits_selection || apply ivas_xinitmodel_selection).
Qed.

(** ** Telemetry *)

Lemma throughput_zero_elapsed (count t : Z) :
  throughput count (elapsed_seconds t t) = 999.99%float.
Proof.
  unfold throughput, elapsed_seconds. rewrite Z.sub_diag.
  replace (0 <? Z2double 0 / 1000000)%float with false; [done|].
  vm_compute. reflexivity.
Qed.

(** The telemetry block always returns; it leaves everything but the
    counters alone, counts the frame when the test is running, and
    prints at most one report. *)
Lemma update_perf_run (w : world) (k : ivas_xkpriv) (s : mstate) :
  ∃ k' s' t,
    update_perf w k s = Ret (k', s') ∧ trace s' = trace s ++ t ∧ hp s' = hp s ∧
    keeps_session (set_pf (pf k') k) k' ∧
    model k' = model k ∧ labelptr k' = labelptr k ∧
    test_started (pf k') = test_started (pf k) ∧
    (if performance_test k && negb (test_started (pf k) =? 0)
     then frames (pf k') = to_uint64 (frames (pf k) + 1)
     else pf k' = pf k ∧ t = []) ∧
    (t = [] ∨
     ∃ fps, t = [EvPrintf (frames (pf k')) (fps_precision fps) fps] ∧
            fps = throughput (to_uint64 (frames (pf k') - last_displayed_frame (pf k)))
                    (elapsed_seconds (time_at w (S (tick s))) (last_displayed_time (pf k)))).
Proof.
  unfold update_perf.
  destruct (performance_test k && negb (test_started (pf k) =? 0)).
  - unfold bind, get_time, emit, ret. simpl.
    destruct (1000000 <=? _)%float; simpl.
    + eexists _, _, _. split; [done|]. simpl. repeat split. right. by eexists.
    + eexists _, _, []. split; [done|]. simpl. rewrite app_nil_r.
      repeat split. by left.
  - exists k, s, []. unfold ret. rewrite app_nil_r. repeat split. by left.
Qed.

(** What a return of the processing part tells: either the frame
    reached [ivas_xrunmodel], or it was turned away right after
    [gst_buffer_add_meta] with nothing changed. *)
Lemma process_frame_inv (w : world) (fr : IVASFrame) (k k' : ivas_xkpriv)
    (s s' : mstate) (code : Z) :
  process_frame w fr k s = Ret ((code, k'), s') →
  keeps_session (set_pf (pf k') k) k' ∧ model k' = model k ∧ labelptr k' = labelptr k ∧
  ((∃ m t, model k = Some m ∧
           trace s' = trace s ++ EvAddMeta :: EvRun m :: t ∧ Forall is_report t ∧
           code = to_uint32 (if run_ok fr then C_true else -1) ∧
           (performance_test k = true → frames (pf k') = to_uint64 (frames (pf k) + 1)) ∧
           (performance_test k = false → pf k' = pf k))
   ∨ (trace s' = trace s ++ [EvAddMeta] ∧ code = neg1_uint32 ∧ k' = k)).
Proof.
  unfold process_frame. intros H. bind_step H as u0 s0 Hmeta.
  injection Hmeta as _ <-.
  destruct (negb (add_meta_ok fr)).
  { injection H as <- <- <-. repeat split. by right. }
  assert (Hgo :
    bind (if performance_test k && (test_started (pf k) =? 0)
          then bind (get_time w) (λ t, ret (set_pf (start_timer t (pf k)) k))
          else ret k)
      (λ kpriv, match model kpriv with
                | Some m =>
                  bind (touch m) (λ _, bind (ivas_xrunmodel kpriv fr) (λ r,
                    bind (update_perf w kpriv) (λ kpriv0, ret (to_uint32 r, kpriv0))))
                | None => undef NullDeref
                end)
      {| hp := hp s; tick := tick s; trace := trace s ++ [EvAddMeta] |}
    = Ret ((code, k'), s') →
    keeps_session (set_pf (pf k') k) k' ∧ model k' = model k ∧ labelptr k' = labelptr k ∧
    ∃ m t, model k = Some m ∧
           trace s' = trace s ++ EvAddMeta :: EvRun m :: t ∧ Forall is_report t ∧
           code = to_uint32 (if run_ok fr then C_true else -1) ∧
           (performance_test k = true → frames (pf k') = to_uint64 (frames (pf k) + 1)) ∧
           (performance_test k = false → pf k' = pf k)).
  { clear H. intros H. bind_step H as k0 s1 Hk0.
    assert (Hk1 : mlist k0 = mlist k ∧ run_time_model k0 = run_time_model k ∧
                  performance_test k0 = performance_test k ∧ model k0 = model k ∧
                  labelptr k0 = labelptr k ∧ trace s1 = trace s ++ [EvAddMeta] ∧
                  (performance_test k = true →
                     negb (test_started (pf k0) =? 0) = true ∧
                     frames (pf k0) = frames (pf k)) ∧
                  (performance_test k = false → pf k0 = pf k)).
    { destruct (performance_test k) eqn:Hp; simpl in Hk0.
      - destruct (Z.eqb_spec (test_started (pf k)) 0) as [H0|H0].
        + bind_step Hk0 as t0 s0 Ht0. injection Ht0 as <- <-.
          injection Hk0 as <- <-. by repeat split.
        + injection Hk0 as <- <-. repeat split; try done.
          by apply negb_true_iff, Z.eqb_neq.
      - injection Hk0 as <- <-. by repeat split. }
    destruct Hk1 as (Hm & Hr & Hp & Hmod & Hlab & Htr & Hon & Hoff).
    destruct (model k0) as [m|] eqn:Hm0; [|done].
    bind_step H as u1 s2 Ht1. unfold touch in Ht1.
    destruct (is_freed m (hp s1)) eqn:Hfr; [done|]. injection Ht1 as _ <-.
    bind_step H as r s3 Hrun. unfold ivas_xrunmodel in Hrun. rewrite Hm0 in Hrun.
    unfold bind, touch, emit in Hrun. rewrite Hfr in Hrun. simpl in Hrun.
    bind_step H as k1 s4 Hup.
    injection H as <- <- <-.
    assert (Hr3 : s3 = add_events [EvRun m] s1 ∧
                  r = if run_ok fr then C_true else -1).
    { destruct (run_ok fr); simpl in Hrun; by injection Hrun as <- <-. }
    destruct Hr3 as [-> ->].
    destruct (update_perf_run w k0 (add_events [EvRun m] s1))
      as (k2 & s5 & t & E & Et & _ & (Hm1 & Hr1 & Hp1 & _) & Hmod1 & Hlab1 & _ & Hcnt & Hrep).
    rewrite E in Hup. injection Hup as <- <-.
    simpl in *. split; [|split; [by rewrite Hmod1, Hm0|split; [by rewrite Hlab1|]]].
    { unfold keeps_session. simpl. by rewrite Hm1, Hr1, Hp1. }
    exists m, t. split; [done|]. split.
    { rewrite Et, Htr, <- !app_assoc. done. }
    split.
    { destruct Hrep as [->|(fps & -> & _)]; [done|]. by apply Forall_singleton. }
    split; [done|].
    rewrite Hp in Hcnt. split.
    - intros Hpt. destruct (Hon Hpt) as [Hts Hfr']. rewrite Hpt, Hts in Hcnt.
      simpl in Hcnt. by rewrite Hcnt, Hfr'.
    - intros Hpt. rewrite Hpt in Hcnt. simpl in Hcnt. destruct Hcnt as [-> _].
      by apply Hoff. }
  destruct (props_fmt fr).
  - injection H as <- <- <-. repeat split. by right.
  - destruct (Hgo H) as (? & ? & ? & ?). split; [done|]. by repeat split; try left.
  - destruct (Hgo H) as (? & ? & ? & ?). split; [done|]. by repeat split; try left.
  - injection H as <- <- <-. repeat split. by right.
Qed.

Lemma runtime_select_return (P : platform) (w : world) (fr : IVASFrame)
    (k k' : ivas_xkpriv) (s s' : mstate) (code : Z) :
  runtime_select P w fr k s = Ret ((Return code, k'), s') → code = neg1_uint32.
Proof.
  unfold runtime_select. intros H. bind_step H as u0 s0 Hmeta.
  destruct (inp_infer_meta fr) as [[c n]|]; [|by injection H as <- _ _].
  bind_step H as elf s1 Helf.
  destruct (String.eqb _ ""); [by injection H as <- _ _|].
  destruct (mlist_find _ _ _).
  - by destruct (_ !! _).
  - bind_step H as r s2 Hinit. destruct r as [m [k1|]]; [|done].
    destruct m; [done | by injection H as <- _ _].
Qed.

Lemma selection_event_not_run (t : list event) :
  Forall selection_event t → ∀ m, EvRun m ∉ t.
Proof.
  intros Ht m Hin. rewrite Forall_forall in Ht. by apply Ht in Hin.
Qed.

(** One call of [xlnx_kernel_start] on a live private structure. *)
Lemma start_inv (P : platform) (w : world) (fr : IVASFrame)
    (handle handle' : IVASKernel) (k : ivas_xkpriv) (s s' : mstate) (code : Z) :
  kernel_priv handle = PrivLive k →
  xlnx_kernel_start P w fr handle s = Ret ((code, handle'), s') →
  ∃ k' t,
    handle' = set_kernel_priv (PrivLive k') handle ∧
    trace s' = trace s ++ t ∧
    (cache_ok k → cache_ok k') ∧ mlist k `prefix_of` mlist k' ∧
    run_time_model k' = run_time_model k ∧
    performance_test k' = performance_test k ∧
    (((∃ m, EvRun m ∈ t) ∧ code = to_uint32 (if run_ok fr then C_true else -1) ∧
      (performance_test k = true → frames (pf k') = to_uint64 (frames (pf k) + 1)) ∧
      (performance_test k = false → pf k' = pf k))
     ∨ ((∀ m, EvRun m ∉ t) ∧ code = neg1_uint32 ∧ pf k' = pf k)).
Proof.
  intros Hpriv H. unfold xlnx_kernel_start in H. rewrite Hpriv in H.
  bind_step H as [fl k1] s1 Hsel.
  assert (Hs : ∃ t1, trace s1 = trace s ++ t1 ∧ Forall selection_event t1 ∧
                     (cache_ok k → cache_ok k1) ∧ mlist k `prefix_of` mlist k1 ∧
                     keeps_session (set_mlist (mlist k1) k) k1 ∧
                     ∀ c, fl = Return c → c = neg1_uint32).
  { destruct (run_time_model k).
    - destruct (runtime_select_selection P w fr k _ _ _ Hsel) as (t1 & Et1 & Ht1).
      destruct (runtime_select_cache _ _ _ _ _ _ _ _ Hsel) as (Hc & Hpre & Hkeep & _).
      exists t1. do 5 (split; [done|]).
      intros c ->. by apply runtime_select_return in Hsel.
    - injection Hsel as <- <- <-. exists []. rewrite app_nil_r.
      repeat split; try done.  }
  destruct Hs as (t1 & Et1 & Ht1 & Hc & Hpre & (_ & Hr & Hp & Hpf) & Hret).
  simpl in Hr, Hp, Hpf.
  destruct fl as [|c].
  - bind_step H as [c k2] s2 Hproc. injection H as <- <- <-.
    apply process_frame_inv in Hproc
      as ((Hm2 & Hr2 & Hp2 & _) & _ & _ & Hcases). simpl in Hm2, Hr2, Hp2.
    exists k2. destruct Hcases as [(m & t2 & _ & Et2 & _ & Hcode & Hon & Hoff)|(Et2 & Hcode & ->)].
    + exists (t1 ++ EvAddMeta :: EvRun m :: t2).
      split; [done|]. split; [by rewrite Et2, Et1, app_assoc|].
      split; [unfold cache_ok; by rewrite Hm2|]. split; [by rewrite Hm2|].
      split; [congruence|]. split; [congruence|]. left.
      split.
      { exists m. rewrite elem_of_app. right. apply elem_of_cons. right.
        apply elem_of_cons. by left. }
      split; [done|]. rewrite <- Hpf. split; intros Hpt.
      * apply Hon. by rewrite Hp.
      * apply Hoff. by rewrite Hp.
    + exists (t1 ++ [EvAddMeta]).
      split; [done|]. split; [by rewrite Et2, Et1, app_assoc|].
      repeat split; try done. right. repeat split; try done.
      intros m Hin. apply elem_of_app in Hin as [Hin|Hin].
      * by apply (selection_event_not_run _ Ht1 m).
      * by apply list_elem_of_singleton in Hin.
  - injection H as <- <- <-. exists k1, t1. repeat split; try done.
    right. repeat split; try done.
    + by apply selection_event_not_run.
    + by apply Hret.
Qed.

Lemma call_Ret {A} (m : M A) (h h' : heap) (a : A) (t : list event) :
  call m h = Ret (a, h', t) →
  ∃ s', m {| hp := h; tick := 0; trace := [] |} = Ret (a, s') ∧ hp s' = h' ∧ trace s' = t.
Proof.
  unfold call. destruct (m _) as [[a0 s0]|]; [|done].
  intros [= <- <- <-]. by exists s0.
Qed.



(** Init either succeeds or returns -1 with the handle as it was. *)
Lemma init_failure_leaves_handle (P : platform) (w : world)
    (handle handle' : IVASKernel) (s s' : mstate) (code : Z) :
  xlnx_kernel_init P w handle s = Ret ((code, handle'), s') →
  code = C_true ∨ (code = neg1_int32 ∧ handle' = handle).
Proof.
  unfold xlnx_kernel_init. intros H.
  destruct (match json_string_value _ with Some _ => _ | None => _ end);
    try (injection H as <- <- <-; by right).
  all: bind_step H as mp st0 Hmp.
  all: bind_step H as ok st1 Hok; destruct (negb ok);
    [injection H as <- <- <-; by right|].
  all: destruct (if negb (json_is_boolean _) then false else _);
    [injection H as <- <- <-; by left|].
  all: destruct (json_string_value (json_object_get _ "model-class"));
    [|injection H as <- <- <-; by right].
  all: destruct (_ =? _); [injection H as <- <- <-; by right|].
  all: destruct (json_string_value (json_object_get _ "model-name"));
    [|injection H as <- <- <-; by right].
  all: bind_step H as nm st4 Hnm.
  all: bind_step H as elf0 st2 Helf; bind_step H as elf st5 Hmv.
  all: destruct (String.eqb elf ""); [injection H as <- <- <-; by right|].
  all: bind_step H as r st3 Hinit; destruct r as [m [k1|]]; [|done].
  all: destruct m; injection H as <- <- <-; [by left | by right].
Qed.


(** The final report always returns and prints at most once, with the
    counters as they stand. *)
Lemma final_report_run (w : world) (k : ivas_xkpriv) (s : mstate) :
  ∃ s' t,
    final_report w k s = Ret (tt, s') ∧ trace s' = trace s ++ t ∧ hp s' = hp s ∧
    (if performance_test k && negb (test_started (pf k) =? 0)
     then ∃ fps, t = [EvPrintf (frames (pf k)) (fps_precision fps) fps] ∧
                 fps = throughput (frames (pf k))
                         (elapsed_seconds (time_at w (tick s)) (timer_start (pf k)))
     else t = []).
Proof.
  unfold final_report.
  destruct (performance_test k && negb (test_started (pf k) =? 0)).
  - unfold bind, get_time, emit. simpl. eexists _, _. repeat split. by eexists.
  - exists s, []. unfold ret. by rewrite app_nil_r.
Qed.

Lemma deinit_mlist_quiet (l : list model_list) :
  emits (λ e, ¬ is_report e) (deinit_mlist l).
Proof.
  induction l as [|e l IH]; simpl; [apply emits_ret|].
  unfold close_and_delete. repeat (emits_step || apply IH).
Qed.

(** One call of [xlnx_kernel_deinit] on a live private structure: the
    report comes first, then the counters are cleared, then the
    teardown, which prints nothing. *)
Lemma deinit_inv (P : platform) (w : world) (handle handle' : IVASKernel)
    (k : ivas_xkpriv) (s s' : mstate) (code : Z) :
  kernel_priv handle = PrivLive k →
  xlnx_kernel_deinit P w handle s = Ret ((code, handle'), s') →
  ∃ k' t1 t2,
    handle' = set_kernel_priv (PrivFreed k') handle ∧ code = C_true ∧
    pf k' = zero_perf ∧
    trace s' = trace s ++ t1 ++ t2 ∧ Forall (λ e, ¬ is_report e) t2 ∧
    (if performance_test k && negb (test_started (pf k) =? 0)
     then ∃ fps, t1 = [EvPrintf (frames (pf k)) (fps_precision fps) fps] ∧
                 fps = throughput (frames (pf k))
                         (elapsed_seconds (time_at w (tick s)) (timer_start (pf k)))
     else t1 = []).
Proof.
  intros Hpriv H. unfold xlnx_kernel_deinit in H. rewrite Hpriv in H.
  bind_step H as u s1 Hrep.
  destruct (final_report_run w k s) as (s1' & t1 & E & Et1 & _ & Ht1).
  rewrite E in Hrep. injection Hrep as _ <-.
  match type of H with
  | ?m s1' = _ => assert (Hquiet : emits (λ e, ¬ is_report e) m)
  end.
  { unfold close_and_delete.
    repeat (emits_step || apply deinit_mlist_quiet). }
  destruct (Hquiet _ _ _ H) as (t2 & Et2 & Ht2).
  bind_step H as k1 s2 Hk1.
  assert (Hpf1 : pf k1 = zero_perf).
  { simpl in Hk1. destruct (run_time_model k); simpl in Hk1.
    - by injection Hk1 as <- <-.
    - bind_step Hk1 as l s3 Hl. injection Hk1 as <- <-. by destruct l. }
  bind_step H as k2 s4 Hk2.
  assert (Hpf2 : pf k2 = zero_perf).
  { simpl in Hk2. destruct (model k1).
    - bind_step Hk2 as u2 s5 Hcl. by injection Hk2 as <- <-.
    - by injection Hk2 as <- <-. }
  bind_step H as u3 s6 Hfree. bind_step H as u4 s7 Hcaps.
  injection H as <- <- <-.
  exists k2, t1, t2. repeat split; try done.
  by rewrite Et2, Et1, app_assoc.
Qed.

(** ** Cache hits and the artifact check *)

Lemma resolved_artifact_absent (w : world) (k : ivas_xkpriv) (n : string) :
  ¬ artifact_present w k n → resolved_artifact w (set_modelname n k) = "".
Proof.
  unfold artifact_present, resolved_artifact. intros Hno.
  destruct (fs w (artifact (set_modelname n k) ".prototxt")); simpl; [|done].
  destruct (fs w (artifact (set_modelname n k) ".xmodel")); [destruct Hno; auto|].
  destruct (fs w (artifact (set_modelname n k) ".elf")); [destruct Hno; auto|done].
Qed.



(** ** Frame counting and the reset at deinit *)

(** C7 (amended). With telemetry on, a call of [xlnx_kernel_start]
    that returns either reached [ivas_xrunmodel], and then the frame
    counter went up by exactly one whether the run reported success or
    failure, or was turned away before it, and then the counter is
    unchanged. A call of [xlnx_kernel_deinit] prints its report, if any,
    from the counters as they stood and then leaves every counter at
    zero. *)
Theorem frame_counter_updates (P : platform) (w : world) (fr : IVASFrame)
    (handle : IVASKernel) (k : ivas_xkpriv) (h : heap) :
  kernel_priv handle = PrivLive k →
  (performance_test k = true →
   ∀ code handle' h' tr,
     call (xlnx_kernel_start P w fr handle) h = Ret ((code, handle'), h', tr) →
     ∃ k', kernel_priv handle' = PrivLive k' ∧ performance_test k' = true ∧
       (((∃ m, EvRun m ∈ tr) ∧ code = to_uint32 (if run_ok fr then C_true else -1) ∧
         frames (pf k') = to_uint64 (frames (pf k) + 1))
        ∨ ((∀ m, EvRun m ∉ tr) ∧ code = neg1_uint32 ∧ frames (pf k') = frames (pf k)))) ∧
  (∀ code handle' h' tr,
     call (xlnx_kernel_deinit P w handle) h = Ret ((code, handle'), h', tr) →
     ∃ k' t1 t2, kernel_priv handle' = PrivFreed k' ∧ code = C_true ∧
       pf k' = zero_perf ∧ tr = t1 ++ t2 ∧ Forall (λ e, ¬ is_report e) t2 ∧
       (performance_test k = true → test_started (pf k) ≠ 0 →
          ∃ fps, t1 = [EvPrintf (frames (pf k)) (fps_precision fps) fps])).
Proof.
  intros Hpriv. split.
  - intros Hperf code handle' h' tr H.
    apply call_Ret in H as (s' & H & _ & Htr).
    destruct (start_inv _ _ _ _ _ _ _ _ _ Hpriv H)
      as (k' & t & -> & Et & _ & _ & _ & Hp & Hcases).
    simpl in Et. rewrite Htr in Et. subst t.
    exists k'. split; [done|]. split; [congruence|].
    destruct Hcases as [(Hrun & Hcode & Hon & _)|(Hno & Hcode & Hpf)].
    + left. auto.
    + right. repeat split; try done. by rewrite Hpf.
  - intros code handle' h' tr H.
    apply call_Ret in H as (s' & H & _ & Htr).
    destruct (deinit_inv _ _ _ _ _ _ _ _ Hpriv H)
      as (k' & t1 & t2 & -> & Hcode & Hpf & Et & Ht2 & Ht1).
    simpl in Et. rewrite Htr in Et.
    exists k', t1, t2. repeat split; try done.
    intros Hperf Hts. rewrite Hperf in Ht1.
    apply Z.eqb_neq in Hts. rewrite Hts in Ht1. simpl in Ht1.
    destruct Ht1 as (fps & -> & _). by exists fps.
Qed.

(** ** Throughput reports *)

(** C8. Both reports print the throughput with the precision
    [(fps < 9.995) ? 3 : 2], and the throughput they print is 999.99
    whenever the interval it is computed over is zero. The rolling
    report is the one of the telemetry block of start, the final one
    that of deinit; comparisons are those of IEEE binary64. *)
Theorem throughput_report_format (w : world) (k : ivas_xkpriv) (s : mstate) :
  (∃ k' s' t, update_perf w k s = Ret (k', s') ∧ trace s' = trace s ++ t ∧
     (t = [] ∨
      ∃ fps, t = [EvPrintf (frames (pf k')) (fps_precision fps) fps] ∧
        fps = throughput (to_uint64 (frames (pf k') - last_displayed_frame (pf k)))
                (elapsed_seconds (time_at w (S (tick s))) (last_displayed_time (pf k))) ∧
        (time_at w (S (tick s)) = last_displayed_time (pf k) → fps = 999.99%float))) ∧
  (∃ s' t, final_report w k s = Ret (tt, s') ∧ trace s' = trace s ++ t ∧
     (t = [] ∨
      ∃ fps, t = [EvPrintf (frames (pf k)) (fps_precision fps) fps] ∧
        fps = throughput (frames (pf k))
                (elapsed_seconds (time_at w (tick s)) (timer_start (pf k))) ∧
        (time_at w (tick s) = timer_start (pf k) → fps = 999.99%float))) ∧
  (∀ fps, ((fps <? 9.995)%float = true → fps_precision fps = 3) ∧
          ((fps <? 9.995)%float = false → fps_precision fps = 2)) ∧
  fps_precision 9.99 = 3 ∧ fps_precision 15.2 = 2 ∧
  fps_precision 9.995 = 2 ∧ fps_precision 999.99 = 2.
Proof.
  split; [|split; [|split]].
  - destruct (update_perf_run w k s)
      as (k' & s' & t & E & Et & _ & _ & _ & _ & _ & _ & Hrep).
    exists k', s', t. do 2 (split; [done|]).
    destruct Hrep as [->|(fps & -> & Hfps)]; [by left|right].
    exists fps. do 2 (split; [done|]).
    intros Hz. rewrite Hfps, Hz. apply throughput_zero_elapsed.
  - destruct (final_report_run w k s) as (s' & t & E & Et & _ & Hrep).
    exists s', t. do 2 (split; [done|]).
    destruct (performance_test k && negb (test_started (pf k) =? 0)); [right|by left].
    destruct Hrep as (fps & -> & Hfps). exists fps. do 2 (split; [done|]).
    intros Hz. rewrite Hfps, Hz. apply throughput_zero_elapsed.
  - intros fps. unfold fps_precision. split; by intros ->.
  - repeat split; vm_compute; reflexivity.
Qed.

(** ** deinit on an empty handle *)

(** C9. On a handle whose private pointer is [NULL], deinit returns
    [true] at once: the handle and the heap are as before and no call
    leaves the kernel. *)
Theorem deinit_null_priv (P : platform) (w : world) (config : option json) (h : heap) :
  call (xlnx_kernel_deinit P w {| kernel_config := config; kernel_priv := PrivNull |}) h
  = Ret ((C_true, {| kernel_config := config; kernel_priv := PrivNull |}), h, []).
Proof. reflexivity. Qed.

(** ** The model format at init *)


(** * Instances *)

(** ** Witnesses *)



Lemma modelexits_resolution_witness :
  ∃ r s', modelexits sample_world sample_kpriv empty_state = Ret (r, s') ∧
          r = "/models//ssd_voc/ssd_voc.xmodel".
Proof.
  destruct (modelexits_resolution sample_world sample_kpriv empty_state)
    as (r & s' & H & _ & _ & Hx & _).
  exists r, s'. split; [exact H|].
  apply Hx; vm_compute; reflexivity.
Defined.

Lemma readlabel_empty_name_writes_through_null_witness :
  readlabel (world_with_labels unnamed_label) sample_kpriv sample_label_path empty_state
  = Undef NullDeref.
Proof.
  apply (readlabel_empty_name_writes_through_null (world_with_labels unnamed_label)
           sample_kpriv sample_label_path empty_state unnamed_label
           (label_entry 0 "" "") [] 1 0); try reflexivity.
  - vm_compute. split; [discriminate | reflexivity].
  - left. reflexivity.
Defined.


Lemma frame_counter_updates_witness :
  (∃ code handle' h' tr k',
     call (xlnx_kernel_start sample_platform sample_world ssd_frame
             (live_handle cached_kpriv)) one_model_heap
     = Ret ((code, handle'), h', tr) ∧
     kernel_priv handle' = PrivLive k' ∧ frames (pf k') = 1) ∧
  (∃ code handle' h' tr k',
     call (xlnx_kernel_deinit sample_platform sample_world (live_handle cached_kpriv))
       one_model_heap
     = Ret ((code, handle'), h', tr) ∧
     kernel_priv handle' = PrivFreed k' ∧ code = C_true ∧ pf k' = zero_perf).
Proof.
  destruct (frame_counter_updates sample_platform sample_world ssd_frame
              (live_handle cached_kpriv) cached_kpriv one_model_heap eq_refl)
    as [Hstart Hdeinit].
  split.
  - destruct (call (xlnx_kernel_start sample_platform sample_world ssd_frame
                      (live_handle cached_kpriv)) one_model_heap)
      as [[[[code handle'] h'] tr]|] eqn:H; [|vm_compute in H; discriminate H].
    destruct (Hstart eq_refl code handle' h' tr eq_refl) as (k' & Hp & _ & Hcases).
    exists code, handle', h', tr, k'. do 2 (split; [done|]).
    destruct Hcases as [(_ & _ & Hf)|(Hno & _)]; [exact Hf|].
    vm_compute in H. injection H as _ _ _ <-. destruct (Hno 0%nat).
    apply list_elem_of_In. simpl. tauto.
  - destruct (call (xlnx_kernel_deinit sample_platform sample_world
                      (live_handle cached_kpriv)) one_model_heap)
      as [[[[code handle'] h'] tr]|] eqn:H; [|vm_compute in H; discriminate H].
    destruct (Hdeinit code handle' h' tr eq_refl) as (k' & t1 & t2 & Hp & Hc & Hpf & _).
    exists code, handle', h', tr, k'. auto.
Defined.

Lemma throughput_report_format_witness :
  ∃ s', final_report frozen_world frozen_kpriv empty_state = Ret (tt, s') ∧
        trace s' = [EvPrintf 7 2 999.99%float].
Proof.
  destruct (throughput_report_format frozen_world frozen_kpriv empty_state)
    as (_ & (s' & t & H & Et & Hrep) & _).
  exists s'. split; [exact H|].
  vm_compute in H. injection H as <-. vm_compute. reflexivity.
Defined.


(** ** Counterexamples *)




(** C7 as stated fails: the run of this frame reports failure, start
    returns -1, and the frame counter still goes from 0 to 1. *)
Lemma failed_run_is_counted :
  run_ok failing_frame = false ∧ frames (pf cached_kpriv) = 0 ∧
  ∃ k' tr,
    call (xlnx_kernel_start sample_platform sample_world failing_frame
            (live_handle cached_kpriv)) one_model_heap
    = Ret ((neg1_uint32, live_handle k'), one_model_heap, tr) ∧
    frames (pf k') = 1 ∧ EvRun 0 ∈ tr.
Proof.
  split; [reflexivity|]. split; [reflexivity|].
  eexists _, _. split; [vm_compute; reflexivity|].
  split; [reflexivity|]. apply list_elem_of_In. simpl. tauto.
Qed.

(** ** Further runs *)

(** Ten frames over 1.2 seconds are reported as 8.33 frames per second
    with three decimals. *)
Example rolling_report_ten_frames :
  fps_precision (throughput 10 (elapsed_seconds 1200000 0)) = 3 ∧
  throughput 10 (elapsed_seconds 1200000 0) = (10 / 1.2)%float.
Proof. split; vm_compute; reflexivity. Qed.

(** Empty names are not validated at all: stored over a cell that an
    earlier entry with the same index has filled, they are accepted. *)
Example empty_name_over_filled_cell_is_accepted :
  ∃ k' s',
    readlabel (world_with_labels renamed_label) sample_kpriv sample_label_path empty_state
    = Ret ((Some {| lb_addr := 0;
                    lb_cells := [{| label := 0; name := Some ""; display_name := Some "" |};
                                 zero_labels] |}, k'), s').
Proof. eexists _, _. vm_compute. reflexivity. Qed.

(** A label file that declares three labels and lists two is turned
    down, and its block is released. *)
Example short_label_file_fails :
  ∃ k' t,
    call (readlabel (world_with_labels short_labels) sample_kpriv sample_label_path)
      empty_heap
    = Ret ((None, k'), {| next_addr := 1; freed := [0%nat] |}, t).
Proof. eexists _, _. vm_compute. reflexivity. Qed.

(** The label-failure path of [ivas_xinitmodel] closes and deletes
    [kpriv->model], the instance that was active before the request,
    not the one it has just built. After [ssd_voc] was served and a
    request for [resnet50] failed for want of labels, the cache still
    lists the deleted instance, and the next request for [ssd_voc] uses
    it. *)
Example label_failure_deletes_active_model :
  (∃ handle' k' tr,
     start_all sample_platform [(two_model_world, ssd_frame); (two_model_world, resnet_frame)]
       (live_handle sample_kpriv) empty_heap
     = Ret (handle', {| next_addr := 2; freed := [0%nat] |}, tr) ∧
     kernel_priv handle' = PrivLive k' ∧ mlist k' = [ssd_entry]) ∧
  start_all sample_platform
    [(two_model_world, ssd_frame); (two_model_world, resnet_frame);
     (two_model_world, ssd_frame)]
    (live_handle sample_kpriv) empty_heap
  = Undef UseAfterFree.
Proof.
  split; [|vm_compute; reflexivity].
  eexists _, _, _. split; [vm_compute; reflexivity|]. split; reflexivity.
Qed.

(** * Further properties of the kernel *)

(** ** Name lookups *)

Lemma class_scan_Some (names : list string) (name : string) (k r : Z) :
  class_scan names name k = Some r →
  ∃ i, r = k + Z.of_nat i ∧ names !! i = Some name ∧
       ∀ j, (j < i)%nat → names !! j ≠ Some name.
Proof.
  revert k. induction names as [|n names IH]; intros k H; simpl in H; [done|].
  destruct (String.eqb_spec n name) as [->|Hne].
  - injection H as <-. exists 0%nat. split; [lia|]. split; [done|]. lia.
  - destruct (IH _ H) as (i & -> & Hi & Hfirst). exists (S i).
    split; [lia|]. split; [done|].
    intros [|j] Hj; simpl; [congruence|]. apply Hfirst. lia.
Qed.

Lemma class_scan_None (names : list string) (name : string) (k : Z) :
  class_scan names name k = None ↔ name ∉ names.
Proof.
  revert k. induction names as [|n names IH]; intros k; simpl.
  - split; [intros _; apply not_elem_of_nil | done].
  - rewrite not_elem_of_cons. destruct (String.eqb_spec n name) as [->|Hne].
    + split; [done | by intros [? _]].
    + rewrite IH. split; [intros ?; split; [congruence|done] | by intros [_ ?]].
Qed.

Lemma ivas_xclass_to_num_absent (P : platform) (name : string) :
  name ∉ ivas_xmodelclass P → ivas_xclass_to_num P name = IVAS_XCLASS_NOTFOUND P.
Proof.
  intros Hin. unfold ivas_xclass_to_num.
  apply (class_scan_None _ _ 0) in Hin. by rewrite Hin.
Qed.

(** [ivas_xclass_to_num] answers the position of the first table entry
    equal to the name, and [IVAS_XCLASS_NOTFOUND] exactly for the names
    the table does not hold. *)
Theorem ivas_xclass_to_num_lookup (P : platform) (name : string) :
  (name ∈ ivas_xmodelclass P →
     ∃ i, ivas_xclass_to_num P name = Z.of_nat i ∧
          ivas_xmodelclass P !! i = Some name ∧
          ∀ j, (j < i)%nat → ivas_xmodelclass P !! j ≠ Some name) ∧
  (name ∉ ivas_xmodelclass P → ivas_xclass_to_num P name = IVAS_XCLASS_NOTFOUND P).
Proof.
  unfold ivas_xclass_to_num. split; intros Hin.
  - destruct (class_scan _ name 0) as [r|] eqn:Hs.
    + destruct (class_scan_Some _ _ _ _ Hs) as (i & -> & Hi & Hfirst). by exists i.
    + by apply class_scan_None in Hs.
  - by apply ivas_xclass_to_num_absent.
Qed.

Lemma ivas_xclass_to_num_lookup_witness :
  ivas_xclass_to_num sample_platform "SSD" = 3 ∧
  ivas_xclass_to_num sample_platform "UNKNOWN_THING" = -1.
Proof.
  destruct (ivas_xclass_to_num_lookup sample_platform "UNKNOWN_THING") as [_ Hno].
  destruct (ivas_xclass_to_num_lookup sample_platform "SSD") as [Hyes _].
  split.
  - destruct Hyes as (i & Hi & _); [apply list_elem_of_In; simpl; tauto|].
    vm_compute. reflexivity.
  - apply Hno. intros Hin. apply list_elem_of_In in Hin. simpl in Hin.
    repeat destruct Hin as [Hin|Hin]; try discriminate Hin. exact Hin.
Defined.

Lemma length_append (a b : string) :
  String.length (a +:+ b) = (String.length a + String.length b)%nat.
Proof. induction a as [|c a IH]; simpl; [done | by rewrite IH]. Qed.

Lemma prefix_append (p s : string) :
  String.prefix p s = true ↔ ∃ rest, s = p +:+ rest.
Proof.
  revert s. induction p as [|a p IH]; intros s.
  - split; [intros _; by exists s | intros _; by destruct s].
  - destruct s as [|b s]; simpl; [split; [done | by intros [? ?]]|].
    destruct (Ascii.ascii_dec a b) as [->|Hne].
    + rewrite IH. split; intros [rest Hr]; exists rest; [by rewrite Hr | by injection Hr].
    + split; [done | intros [rest [= ? ?]]; congruence].
Qed.

(** [ivas_fmt_to_xfmt] looks at the first three characters only: a
    name is RGB exactly when it starts with ["RGB"], BGR exactly when
    it starts with ["BGR"], whatever follows, and unknown otherwise (so
    every name shorter than three characters is unknown). No other
    format is ever returned. *)
Theorem ivas_fmt_to_xfmt_prefix (name : string) :
  (ivas_fmt_to_xfmt name = IVAS_VFMT_RGB8 ↔ ∃ rest, name = "RGB" +:+ rest) ∧
  (ivas_fmt_to_xfmt name = IVAS_VFMT_BGR8 ↔ ∃ rest, name = "BGR" +:+ rest) ∧
  (ivas_fmt_to_xfmt name = IVAS_VMFT_UNKNOWN ↔
     ¬ (∃ rest, name = "RGB" +:+ rest) ∧ ¬ (∃ rest, name = "BGR" +:+ rest)) ∧
  ((String.length name < 3)%nat → ivas_fmt_to_xfmt name = IVAS_VMFT_UNKNOWN) ∧
  (∀ code, ivas_fmt_to_xfmt name ≠ IVAS_VFMT_OTHER code).
Proof.
  assert (Hexcl : (∃ rest, name = "RGB" +:+ rest) → (∃ rest, name = "BGR" +:+ rest) → False).
  { intros [r1 ->] [r2 [=]]. }
  assert (Hshort : ∀ p, String.length p = 3%nat → (String.length name < 3)%nat →
                        ¬ ∃ rest, name = p +:+ rest).
  { intros p Hp Hlt [rest ->]. rewrite length_append in Hlt. lia. }
  unfold ivas_fmt_to_xfmt.
  destruct (String.prefix "RGB" name) eqn:Hr.
  - apply prefix_append in Hr.
    split; [split; [by intros _ | by intros _]|].
    split; [split; [discriminate | intros Hb; by destruct (Hexcl Hr Hb)]|].
    split; [split; [discriminate | intros [Hn _]; by destruct (Hn Hr)]|].
    split; [intros Hlt; by destruct (Hshort "RGB" eq_refl Hlt)|discriminate].
  - assert (Hnr : ¬ ∃ rest, name = "RGB" +:+ rest).
    { intros H. apply prefix_append in H. congruence. }
    destruct (String.prefix "BGR" name) eqn:Hb.
    + apply prefix_append in Hb.
      split; [split; [discriminate | intros H; by destruct (Hnr H)]|].
      split; [split; [by intros _ | by intros _]|].
      split; [split; [discriminate | intros [_ Hn]; by destruct (Hn Hb)]|].
      split; [intros Hlt; by destruct (Hshort "BGR" eq_refl Hlt)|discriminate].
    + assert (Hnb : ¬ ∃ rest, name = "BGR" +:+ rest).
      { intros H. apply prefix_append in H. congruence. }
      split; [split; [discriminate | intros H; by destruct (Hnr H)]|].
      split; [split; [discriminate | intros H; by destruct (Hnb H)]|].
      split; [split; [by intros _ | by intros _]|].
      split; [by intros _|discriminate].
Qed.

(** ** Growth of the runtime cache *)

Lemma mlist_find_app (c : Z) (n : string) (l l' : list model_list) :
  mlist_find c n (l ++ l')
  = match mlist_find c n l with
    | Some i => Some i
    | None => (λ i, (length l + i)%nat) <$> mlist_find c n l'
    end.
Proof.
  induction l as [|e l IH]; simpl.
  - by destruct (mlist_find c n l').
  - destruct ((ml_modelclass e =? c) && String.eqb (ml_modelname e) n); [done|].
    rewrite IH. destruct (mlist_find c n l); [done|].
    by destruct (mlist_find c n l').
Qed.

Lemma mlist_find_single (c : Z) (n : string) (e : model_list) :
  mlist_find c n [e] = if bool_decide (cache_key e = (c, n)) then Some 0%nat else None.
Proof.
  simpl. unfold cache_key.
  destruct (Z.eqb_spec (ml_modelclass e) c) as [Hc|Hc];
    destruct (String.eqb_spec (ml_modelname e) n) as [Hn|Hn]; simpl;
    case_bool_decide; congruence.
Qed.

(** Pushing an entry on the cache and scanning for it: a pair that was
    not cached is found at the position it was pushed to; a pair that
    was cached keeps being found at its old position however the list
    grows; and scans for other pairs are not affected by the push. *)
Theorem mlist_find_push_back (c : Z) (n : string) (l l' : list model_list)
    (e : model_list) :
  (mlist_find c n l = None → cache_key e = (c, n) →
     mlist_find c n (l ++ [e]) = Some (length l) ∧ (l ++ [e]) !! length l = Some e) ∧
  (∀ i, mlist_find c n l = Some i →
     mlist_find c n (l ++ l') = Some i ∧ (l ++ l') !! i = l !! i) ∧
  (cache_key e ≠ (c, n) → mlist_find c n (l ++ [e]) = mlist_find c n l).
Proof.
  split; [|split].
  - intros Hnone Hkey. rewrite mlist_find_app, Hnone, mlist_find_single.
    rewrite bool_decide_eq_true_2 by done. simpl. rewrite Nat.add_0_r.
    split; [done|]. by rewrite list_lookup_middle.
  - intros i Hi. rewrite mlist_find_app, Hi. split; [done|].
    destruct (mlist_find_Some _ _ _ _ Hi) as (e0 & Hl & _).
    apply lookup_app_l. by apply lookup_lt_Some in Hl.
  - intros Hkey. rewrite mlist_find_app, mlist_find_single.
    rewrite bool_decide_eq_false_2 by done. by destruct (mlist_find c n l).
Qed.

Lemma mlist_find_push_back_witness :
  mlist_find 2 "resnet50" ([ssd_entry] ++ [{| ml_modelclass := 2; ml_modelname := "resnet50";
                                              ml_model := Some 1%nat; ml_labelptr := None |}])
  = Some 1%nat ∧
  mlist_find 3 "ssd_voc" ([ssd_entry] ++ [ssd_entry]) = Some 0%nat.
Proof.
  split.
  - destruct (mlist_find_push_back 2 "resnet50" [ssd_entry] []
                {| ml_modelclass := 2; ml_modelname := "resnet50";
                   ml_model := Some 1%nat; ml_labelptr := None |}) as [Hnew _].
    by destruct (Hnew eq_refl eq_refl).
  - destruct (mlist_find_push_back 3 "ssd_voc" [ssd_entry] [ssd_entry] ssd_entry)
      as (_ & Hold & _).
    by destruct (Hold 0%nat eq_refl).
Defined.

(** ** The label table *)

(** A file that does not load, or has no integer ["num-labels"], is
    turned down before anything is allocated: the private structure and
    the heap are as before. *)
Theorem readlabel_unreadable_is_atomic (w : world) (kpriv : ivas_xkpriv)
    (json_file : string) (s : mstate) :
  json_is_integer (json_object_get (json_files w json_file) "num-labels") = false →
  readlabel w kpriv json_file s = Ret ((None, kpriv), add_events [EvJsonLoad json_file] s).
Proof.
  intros H. unfold readlabel, bind, emit, ret, add_events. simpl.
  destruct (json_files w json_file); simpl; [|done]. by rewrite H.
Qed.

Lemma readlabel_unreadable_is_atomic_witness :
  readlabel sample_world sample_kpriv sample_label_path empty_state
  = Ret ((None, sample_kpriv), add_events [EvJsonLoad sample_label_path] empty_state).
Proof. apply readlabel_unreadable_is_atomic. reflexivity. Defined.

(** The table [readlabel] allocates is never lost and never freed
    twice: past the count, every return has called [calloc] once and
    loaded the file once, and the block is either the table handed
    out, not freed, or has been passed to [free] once before [NULL] is
    returned. (The value [json_load_file] returned and the buffers of
    the names stored so far are not released by any path; they are not
    objects of the embedding's heap.) *)
Theorem readlabel_table_accounting (w : world) (kpriv kpriv' : ivas_xkpriv)
    (json_file : string) (s s' : mstate) (r : option label_block) :
  json_is_integer (json_object_get (json_files w json_file) "num-labels") = true →
  readlabel w kpriv json_file s = Ret ((r, kpriv'), s') →
  next_addr (hp s') = S (next_addr (hp s)) ∧
  trace s' = trace s ++ [EvJsonLoad json_file] ∧
  match r with
  | Some b => lb_addr b = next_addr (hp s) ∧ freed (hp s') = freed (hp s)
  | None => freed (hp s') = next_addr (hp s) :: freed (hp s)
  end.
Proof.
  intros Hint. unfold readlabel, bind, emit, ret, alloc, release, lift, is_freed. simpl.
  destruct (json_files w json_file) as [root|]; simpl; [|done]. simpl in Hint.
  rewrite Hint. simpl.
  destruct (json_null _); simpl.
  { destruct (bool_decide _) eqn:Hd; [done|]. intros [= <- <- <-].
    by rewrite bool_decide_eq_false in Hd. }
  destruct (negb (json_is_array _)); simpl.
  { destruct (bool_decide _) eqn:Hd; [done|]. by intros [= <- <- <-]. }
  destruct (negb (_ =? _)); simpl.
  { destruct (bool_decide _) eqn:Hd; [done|]. by intros [= <- <- <-]. }
  destruct (readlabel_loop _ _ _ _ _) as [[cells|]|]; simpl; [| |done].
  - by intros [= <- <- <-].
  - destruct (bool_decide _) eqn:Hd; [done|]. by intros [= <- <- <-].
Qed.

Lemma readlabel_table_accounting_witness :
  ∃ k' s', readlabel (world_with_labels short_labels) sample_kpriv sample_label_path
             empty_state = Ret ((None, k'), s') ∧
           next_addr (hp s') = 1%nat ∧ freed (hp s') = [0%nat].
Proof.
  destruct (readlabel (world_with_labels short_labels) sample_kpriv sample_label_path
              empty_state) as [[[r k'] s']|] eqn:H; [|vm_compute in H; discriminate H].
  destruct (readlabel_table_accounting (world_with_labels short_labels) sample_kpriv k'
              sample_label_path empty_state s' r eq_refl H) as (Hn & _ & Hf).
  assert (r = None) as -> by (vm_compute in H; by injection H as <- _ _).
  by exists k', s'.
Defined.

Lemma last_with_index_snoc (j : Z) (l : list json) (e : json) :
  last_with_index j (l ++ [e])
  = if decide (entry_index e = j) then Some e else last_with_index j l.
Proof.
  unfold last_with_index. rewrite filter_app, filter_cons, filter_nil.
  destruct (decide (entry_index e = j)); [by rewrite last_snoc | by rewrite app_nil_r].
Qed.

(** The loop keeps, in every cell, the data of the last entry seen so
    far that carries the cell's index. *)
Lemma readlabel_loop_contents (items : list json) (N : Z) (todo : nat) :
  ∀ (index : nat) (cells cells' : list labels),
    readlabel_loop (Some (JArray items)) N todo (Z.of_nat index) cells
    = Ret (Some cells') →
    Z.of_nat (length cells) = N →
    (∀ j, (j < length cells)%nat →
       cells !! j = Some (cell_of (last_with_index (Z.of_nat j) (take index items)))) →
    ∀ j, (j < length cells')%nat →
      cells' !! j
      = Some (cell_of (last_with_index (Z.of_nat j) (take (index + todo) items))).
Proof.
  induction todo as [|todo IH]; intros index cells cells' H Hlen Hinv; simpl in H.
  - injection H as <-. by rewrite Nat.add_0_r.
  - rewrite json_array_get_items in H.
    destruct (items !! index) as [lbl|] eqn:Hget; [|discriminate].
    destruct (json_object_get (Some lbl) "label") as [[?|?|?|i|?| | |]|] eqn:Hl;
      simpl in H; try discriminate.
    destruct (Z.leb_spec 0 (to_int32 i)) as [Hlo|?]; simpl in H; [|discriminate].
    destruct (Z.ltb_spec (to_int32 i) N) as [Hhi|?]; simpl in H; [|discriminate].
    destruct (json_object_get (Some lbl) "name") as [[?|?|n|?|?| | |]|] eqn:Hn;
      simpl in H; try discriminate.
    destruct (assign_cstr _ n) as [nm|] eqn:Hnm; [|discriminate].
    apply assign_cstr_Ret in Hnm as ->.
    destruct (json_object_get (Some lbl) "display_name") as [[?|?|d|?|?| | |]|] eqn:Hd;
      simpl in H; try discriminate.
    destruct (assign_cstr _ d) as [dn|] eqn:Hdn; [|discriminate].
    apply assign_cstr_Ret in Hdn as ->.
    replace (Z.of_nat index + 1) with (Z.of_nat (S index)) in H by lia.
    replace (index + S todo)%nat with (S index + todo)%nat by lia.
    assert (Hidx : entry_index lbl = to_int32 i).
    { unfold entry_index. by rewrite Hl. }
    eapply IH; [exact H | by rewrite !length_alter |].
    intros j Hj. rewrite !length_alter in Hj.
    rewrite (take_S_r _ _ _ Hget), last_with_index_snoc, Hidx.
    destruct (decide (to_int32 i = Z.of_nat j)) as [Heq|Hne].
    + rewrite Heq, Nat2Z.id, !list_lookup_alter_eq, (Hinv j Hj). simpl. f_equal.
      unfold entry_cell. rewrite Hidx, Hn, Hd, Heq. reflexivity.
    + rewrite !list_lookup_alter_ne by lia. by apply Hinv.
Qed.

(** The table [readlabel] hands out is addressed by the entries' own
    index: each cell holds the index, name and display name of the
    last entry of the file that carries the cell's position, and a cell
    no entry names is left zero. Entries need not come in order, and a
    repeated index overwrites. *)
Theorem readlabel_table_contents (w : world) (kpriv kpriv' : ivas_xkpriv)
    (json_file : string) (s s' : mstate) (blk : label_block) :
  readlabel w kpriv json_file s = Ret ((Some blk, kpriv'), s') →
  ∃ items,
    json_object_get (json_files w json_file) "labels" = Some (JArray items) ∧
    length (lb_cells blk) = length items ∧
    ∀ j, (j < length items)%nat →
      lb_cells blk !! j = Some (cell_of (last_with_index (Z.of_nat j) items)).
Proof.
  unfold readlabel, bind, emit, ret, alloc, release, lift. simpl. intros H.
  destruct (json_files w json_file) as [root|]; simpl in H; [|done].
  destruct (json_object_get (Some root) "num-labels")
    as [[?|?|?|n|?| | |]|] eqn:Hn; simpl in H; try discriminate.
  destruct (json_object_get (Some root) "labels")
    as [[?|items|?|?|?| | |]|] eqn:Hl; simpl in H;
    try (by destruct (is_freed _ _)).
  destruct (Z.eqb_spec (to_uint32 n) (Z.of_nat (length items))) as [Hlen|?];
    simpl in H; [|by destruct (is_freed _ _)].
  destruct (readlabel_loop _ _ _ _ _) as [[cells|]|] eqn:Hloop; simpl in H;
    [|by destruct (is_freed _ _)|done].
  injection H as <- <- <-. simpl.
  assert (Hn0 : Z.to_nat (to_uint32 n) = length items) by lia.
  rewrite Hn0 in Hloop.
  assert (Hcells : length cells = length items).
  { apply (readlabel_loop_success _ _ _ 0%nat) in Hloop as [-> _].
    by rewrite length_replicate. }
  exists items. do 2 (split; [done|]). intros j Hj.
  rewrite <- (firstn_all items) at 1.
  apply (readlabel_loop_contents items (to_uint32 n) (length items) 0%nat
           (replicate (length items) zero_labels) cells Hloop).
  - rewrite length_replicate. lia.
  - intros j' Hj'. rewrite length_replicate in Hj'.
    rewrite lookup_replicate_2 by done. by rewrite take_0.
  - by rewrite Hcells.
Qed.

Lemma readlabel_table_contents_witness :
  ∃ blk k' s',
    readlabel (world_with_labels two_labels) sample_kpriv sample_label_path empty_state
    = Ret ((Some blk, k'), s') ∧
    lb_cells blk !! 0%nat
    = Some {| label := 0; name := Some "cat"; display_name := Some "Cat" |} ∧
    lb_cells blk !! 1%nat
    = Some {| label := 1; name := Some "dog"; display_name := Some "Dog" |}.
Proof.
  destruct (readlabel (world_with_labels two_labels) sample_kpriv sample_label_path
              empty_state) as [[[[blk|] k'] s']|] eqn:H;
    try (vm_compute in H; discriminate H).
  destruct (readlabel_table_contents _ _ _ _ _ _ _ H)
    as (items & Hitems & _ & Hcells).
  vm_compute in Hitems. injection Hitems as <-.
  exists blk, k', s'. split; [done|].
  split; [apply (Hcells 0%nat) | apply (Hcells 1%nat)]; simpl; lia.
Defined.

(** ** What the factory and init leave behind *)

Lemma readlabel_result (w : world) (k k' : ivas_xkpriv) (f : string)
    (s s' : mstate) (l : option label_block) :
  readlabel w k f s = Ret ((l, k'), s') → k' = k ∨ ∃ n, k' = set_max_labels n k.
Proof.
  unfold readlabel. intros H. bind_step H as u0 s0 Hload.
  destruct (json_null _); [left; by injection H as _ <- _|].
  destruct (negb (json_is_integer _)); [left; by injection H as _ <- _|].
  bind_step H as a s1 Ha. right. eexists.
  destruct (json_null _); [bind_step H as u1 s2 Hr; by injection H as _ <- _|].
  destruct (negb (json_is_array _)); [bind_step H as u1 s2 Hr; by injection H as _ <- _|].
  destruct (negb (_ =? _)); [bind_step H as u1 s2 Hr; by injection H as _ <- _|].
  bind_step H as r s2 Hloop. destruct r.
  - by injection H as _ <- _.
  - bind_step H as u1 s3 Hr. by injection H as _ <- _.
Qed.

(** Every return of the factory that leaves the private structure
    alive: the class is compiled in; on success only the label fields
    have changed; on failure there was an active model, which is now
    unset together with the class. *)
Lemma ivas_xinitmodel_result (P : platform) (w : world) (k k' : ivas_xkpriv)
    (c : Z) (s s' : mstate) (m : option nat) :
  ivas_xinitmodel P w k c s = Ret ((m, Some k'), s') →
  class_enabled P c = true ∧
  ∃ lp lf ml,
    match m with
    | Some a => k' = with_labels lp lf ml k
    | None => (∃ active, model k = Some active) ∧
              k' = set_modelclass (IVAS_XCLASS_NOTFOUND P)
                     (set_model None (with_labels lp lf ml k))
    end.
Proof.
  unfold ivas_xinitmodel. intros H.
  bind_step H as has s0 Hhas. bind_step H as k1 s1 Hk1.
  assert (Hk : ∃ lp ml, k1 = set_labelptr lp (set_max_labels ml
                 (set_labelflags (IVAS_XLABEL_NOT_REQUIRED P) k))).
  { destruct has.
    - bind_step Hk1 as r s2 Hrl. destruct r as [l k0]. injection Hk1 as <- _.
      apply readlabel_result in Hrl as [->|[n ->]]; by eexists _, _.
    - injection Hk1 as <- _. by eexists _, _. }
  destruct Hk as (lp & ml & ->).
  destruct (class_enabled P c); simpl in H; [|done]. split; [done|].
  bind_step H as a s2 Ha. bind_step H as u0 s3 Hnew.
  destruct (_ && _).
  - simpl in H. destruct (model k) as [active|] eqn:Hact; [|done].
    bind_step H as u1 s4 H1. bind_step H as u2 s5 H2. bind_step H as u3 s6 H3.
    bind_step H as u4 s7 H4. bind_step H as u5 s8 H5.
    injection H as <- <- _. eexists _, _, _. split; [by eexists|reflexivity].
  - bind_step H as u1 s4 H1. injection H as <- <- _. by eexists _, _, _.
Qed.

Lemma lift_assign_Ret (x y : string) (s s' : mstate) :
  lift (assign_to_zeroed x) s = Ret (y, s') → y = x ∧ s' = s ∧ x ≠ "".
Proof.
  unfold lift, assign_to_zeroed. destruct (String.eqb_spec x ""); [done|].
  by intros [= <- <-].
Qed.

Lemma lift_move_Ret (b : bool) (x y : string) (s s' : mstate) :
  lift (move_to_zeroed b x) s = Ret (y, s') → y = x ∧ s' = s ∧ b = false.
Proof. unfold lift, move_to_zeroed. destruct b; [done|]. by intros [= <- <-]. Qed.

(** [xlnx_kernel_init] read as its stages: the format test, the
    assignment of the model path, its stat, and then either the
    runtime-mode return or the static part. *)
Lemma xlnx_kernel_init_stages (P : platform) (w : world) (handle : IVASKernel) :
  xlnx_kernel_init P w handle
  = let jconfig := kernel_config handle in
    let err : M (Z * IVASKernel) := ret (neg1_int32, handle) in
    match configured_format jconfig with
    | IVAS_VMFT_UNKNOWN => err
    | _ =>
      if String.eqb (configured_modelpath jconfig) "" then undef NullDeref
      else
        do path_ok <- fileexists w (configured_modelpath jconfig);
        if negb path_ok then err
        else if configured_flag jconfig "run_time_model" false
             then ret (C_true,
                       set_kernel_priv (PrivLive (configured_kpriv P jconfig)) handle)
             else init_static P w handle (configured_kpriv P jconfig)
    end.
Proof.
  unfold xlnx_kernel_init. fold (configured_format (kernel_config handle)).
  fold (configured_modelpath (kernel_config handle)). cbv zeta.
  unfold configured_kpriv.
  destruct (configured_format (kernel_config handle)); try reflexivity.
  all: unfold bind at 1, lift, assign_to_zeroed.
  all: by destruct (String.eqb (configured_modelpath (kernel_config handle)) "").
Qed.

Lemma xlnx_kernel_init_accepted (P : platform) (w : world) (handle : IVASKernel) :
  configured_format (kernel_config handle) ≠ IVAS_VMFT_UNKNOWN →
  xlnx_kernel_init P w handle
  = if String.eqb (configured_modelpath (kernel_config handle)) "" then undef NullDeref
    else init_after_format P w handle.
Proof.
  intros Hfmt. rewrite xlnx_kernel_init_stages. cbv zeta.
  by destruct (configured_format (kernel_config handle)).
Qed.

(** Every return of init is the rejection of the format or a return
    of the later stages, reached with a non-empty model path. *)
Lemma xlnx_kernel_init_inv (P : platform) (w : world) (handle handle' : IVASKernel)
    (s s' : mstate) (code : Z) :
  xlnx_kernel_init P w handle s = Ret ((code, handle'), s') →
  (configured_format (kernel_config handle) = IVAS_VMFT_UNKNOWN ∧
   code = neg1_int32 ∧ handle' = handle ∧ s' = s) ∨
  (configured_format (kernel_config handle) ≠ IVAS_VMFT_UNKNOWN ∧
   configured_modelpath (kernel_config handle) ≠ "" ∧
   init_after_format P w handle s = Ret ((code, handle'), s')).
Proof.
  intros H.
  assert (Hcases : configured_format (kernel_config handle) = IVAS_VMFT_UNKNOWN ∨
                   configured_format (kernel_config handle) ≠ IVAS_VMFT_UNKNOWN).
  { destruct (configured_format (kernel_config handle)); [by left | by right..]. }
  destruct Hcases as [Hu|Hfmt].
  - left. rewrite xlnx_kernel_init_stages in H. cbv zeta in H. rewrite Hu in H.
    by injection H as <- <- <-.
  - right. rewrite (xlnx_kernel_init_accepted _ _ _ Hfmt) in H.
    by destruct (String.eqb_spec (configured_modelpath (kernel_config handle)) "").
Qed.

Lemma init_static_inv (P : platform) (w : world) (handle handle' : IVASKernel)
    (k : ivas_xkpriv) (s s' : mstate) (code : Z) :
  model k = None →
  init_static P w handle k s = Ret ((code, handle'), s') →
  (code = neg1_int32 ∧ handle' = handle ∧ hp s' = hp s) ∨
  (code = C_true ∧
   ∃ cls nm m lp lf ml,
     json_string_value (json_object_get (kernel_config handle) "model-class") = Some cls ∧
     json_string_value (json_object_get (kernel_config handle) "model-name") = Some nm ∧
     ivas_xclass_to_num P cls ≠ IVAS_XCLASS_NOTFOUND P ∧
     class_enabled P (ivas_xclass_to_num P cls) = true ∧
     let kq := set_modelname nm (set_modelclass (ivas_xclass_to_num P cls) k) in
     resolved_artifact w kq ≠ "" ∧
     handle' = set_kernel_priv
                 (PrivLive (set_model (Some m)
                    (with_labels lp lf ml (set_elfname (resolved_artifact w kq) kq))))
                 handle).
Proof.
  intros Hmodel H. unfold init_static in H.
  destruct (json_string_value (json_object_get _ "model-class")) as [cls|];
    [|left; by injection H as <- <- <-].
  simpl in H.
  destruct (Z.eqb_spec (ivas_xclass_to_num P cls) (IVAS_XCLASS_NOTFOUND P)) as [?|Hcls];
    [left; by injection H as <- <- <-|].
  destruct (json_string_value (json_object_get _ "model-name")) as [nm|];
    [|left; by injection H as <- <- <-].
  bind_step H as nm' s0 Hnm. apply lift_assign_Ret in Hnm as (-> & -> & _).
  bind_step H as elf s1 Helf. rewrite modelexits_run in Helf. injection Helf as <- <-.
  bind_step H as elf' s3 Hmv. apply lift_move_Ret in Hmv as (-> & -> & _).
  destruct (String.eqb_spec (resolved_artifact w
              (set_modelname nm (set_modelclass (ivas_xclass_to_num P cls) k))) "")
    as [?|Helf]; [left; by injection H as <- <- <-|].
  bind_step H as r s2 Hinit. destruct r as [m [k1|]]; [|done].
  apply ivas_xinitmodel_result in Hinit as (Hen & lp & lf & ml & Hk1).
  destruct m as [m|].
  - injection H as <- <- <-. subst k1. right. split; [done|].
    by exists cls, nm, m, lp, lf, ml.
  - destruct Hk1 as [[active Hact] _]. simpl in Hact. congruence.
Qed.

Lemma configured_format_known (jconfig : option json) :
  configured_format jconfig ≠ IVAS_VMFT_UNKNOWN →
  configured_format jconfig = IVAS_VFMT_RGB8 ∨ configured_format jconfig = IVAS_VFMT_BGR8.
Proof.
  unfold configured_format, ivas_fmt_to_xfmt.
  destruct (json_string_value _) as [fmt|]; [|by right].
  destruct (String.prefix "RGB" fmt); [by left|].
  destruct (String.prefix "BGR" fmt); [by right|done].
Qed.

(** Init never returns anything but [true] and -1, and when it
    returns -1 the handle is as the host passed it ([kernel_priv] is
    not assigned) and no model instance or label table has been left
    allocated or released. (The private structure itself is freed; the
    buffers of its [std::string] members go with it unreleased, and
    are not objects of the embedding's heap.) *)
Theorem init_failure_builds_nothing (P : platform) (w : world) (handle handle' : IVASKernel)
    (s s' : mstate) (code : Z) :
  xlnx_kernel_init P w handle s = Ret ((code, handle'), s') →
  (code = C_true ∨ code = neg1_int32) ∧
  (code ≠ C_true → handle' = handle ∧ hp s' = hp s).
Proof.
  intros H. apply xlnx_kernel_init_inv in H as [(_ & -> & -> & ->)|(_ & _ & H)].
  { split; [by right|done]. }
  unfold init_after_format in H. bind_step H as ok s1 Hok. injection Hok as <- <-.
  destruct (negb _); [injection H as <- <- <-; split; [by right|done]|].
  destruct (configured_flag _ _ _); [injection H as <- <- <-; split; [by left|done]|].
  apply init_static_inv in H as [(-> & -> & Hh)|(-> & _)]; [| |done].
  - split; [by right|done].
  - split; [by left|done].
Qed.

Lemma init_failure_builds_nothing_witness :
  ∃ s', xlnx_kernel_init sample_platform world_without_prototxt
          (fresh_handle static_config) empty_state
        = Ret ((neg1_int32, fresh_handle static_config), s') ∧
        hp s' = hp empty_state.
Proof.
  destruct (xlnx_kernel_init sample_platform world_without_prototxt
              (fresh_handle static_config) empty_state)
    as [[[code handle'] s']|] eqn:H; [|vm_compute in H; discriminate H].
  destruct (init_failure_builds_nothing sample_platform world_without_prototxt
              (fresh_handle static_config) handle' empty_state s' code H) as [_ Hclean].
  assert (code = neg1_int32) as -> by (vm_compute in H; by injection H as <- _ _).
  destruct (Hclean ltac:(done)) as [-> Hh]. by exists s'.
Defined.

(** A successful init hands the host a private structure that
    reflects the configuration: each optional key or its default, a
    model format that is RGB or BGR, a model path that exists, an empty
    cache and cleared counters. In runtime mode no model is built and
    the heap is untouched; in static mode the class is one of the table
    and compiled in, the artifact of the configured name resolved, and
    the model is set. *)
Theorem init_success_state (P : platform) (w : world) (handle handle' : IVASKernel)
    (s s' : mstate) :
  xlnx_kernel_init P w handle s = Ret ((C_true, handle'), s') →
  let jconfig := kernel_config handle in
  ∃ k,
    handle' = set_kernel_priv (PrivLive k) handle ∧
    log_level k = configured_log_level P jconfig ∧
    run_time_model k = configured_flag jconfig "run_time_model" false ∧
    performance_test k = configured_flag jconfig "performance_test" false ∧
    need_preprocess k = configured_flag jconfig "need_preprocess" true ∧
    modelfmt k = configured_format jconfig ∧
    (modelfmt k = IVAS_VFMT_RGB8 ∨ modelfmt k = IVAS_VFMT_BGR8) ∧
    modelpath k = configured_modelpath jconfig ∧ fs w (modelpath k) = true ∧
    mlist k = [] ∧ pf k = zero_perf ∧
    (run_time_model k = true → model k = None ∧ hp s' = hp s) ∧
    (run_time_model k = false →
       is_Some (model k) ∧
       (∃ cls, json_string_value (json_object_get jconfig "model-class") = Some cls ∧
               modelclass k = ivas_xclass_to_num P cls) ∧
       modelclass k ≠ IVAS_XCLASS_NOTFOUND P ∧ class_enabled P (modelclass k) = true ∧
       json_string_value (json_object_get jconfig "model-name") = Some (modelname k) ∧
       elfname k = resolved_artifact w k ∧ elfname k ≠ "").
Proof.
  intros H. apply xlnx_kernel_init_inv in H as [(_ & ? & _)|(Hknown & _ & H)]; [done|].
  unfold init_after_format in H. cbv zeta.
  destruct (configured_format_known (kernel_config handle) Hknown) as [Hfmt|Hfmt].
  all: bind_step H as ok s1 Hok; injection Hok as <- <-.
  all: destruct (fs w (configured_modelpath (kernel_config handle))) eqn:Hfs;
    simpl in H; [|discriminate H].
  all: destruct (configured_flag (kernel_config handle) "run_time_model" false) eqn:Hrt.
  all: try (injection H as <- <-; eexists; split; [reflexivity|]; simpl;
            rewrite ?Hfmt, ?Hrt; repeat split; auto; done).
  all: apply init_static_inv in H as [(? & _)|(_ & cls & nm & m & lp & lf & ml
         & Hcls & Hnm & Hnot & Hen & Hres & ->)]; [done| |done].
  all: eexists; split; [reflexivity|]; simpl; rewrite ?Hfmt, ?Hrt.
  all: repeat split; auto; try done; try by eexists.
Qed.

Lemma init_success_state_witness :
  ∃ handle' s' k,
    xlnx_kernel_init sample_platform sample_world (fresh_handle static_config) empty_state
    = Ret ((C_true, handle'), s') ∧
    kernel_priv handle' = PrivLive k ∧
    modelclass k = 3 ∧ modelname k = "ssd_voc" ∧
    elfname k = "/models//ssd_voc/ssd_voc.xmodel" ∧ need_preprocess k = true ∧
    performance_test k = true ∧ is_Some (model k).
Proof.
  destruct (xlnx_kernel_init sample_platform sample_world (fresh_handle static_config)
              empty_state) as [[[code handle'] s']|] eqn:H;
    [|vm_compute in H; discriminate H].
  assert (code = C_true) as -> by (vm_compute in H; by injection H as <- _ _).
  destruct (init_success_state sample_platform sample_world (fresh_handle static_config)
              handle' empty_state s' H)
    as (k & -> & _ & Hrt & Hperf & Hpre & _ & _ & Hpath & _ & _ & _ & _ & Hstatic).
  destruct (Hstatic Hrt) as (Hm & (cls & Hcls & Hc) & _ & _ & Hnm & Helf & _).
  exists (set_kernel_priv (PrivLive k) (fresh_handle static_config)), s', k.
  do 2 (split; [done|]).
  injection Hcls as <-. injection Hnm as Hnm.
  split; [exact Hc|]. split; [by rewrite <- Hnm|].
  split; [|done]. rewrite Helf. unfold resolved_artifact, artifact, model_dir.
  rewrite <- Hnm, Hpath. vm_compute. reflexivity.
Defined.

(** What init does with a configuration it cannot use, the model
    format being accepted. An empty ["model-path"] string is assigned
    to the all-zero [modelpath] before anything else: a store through
    a null pointer. A non-empty path that does not exist makes init
    return -1 with the handle as it was, after the one stat. In static
    mode it returns -1 the same way when ["model-class"] is missing,
    not a string or not a name of the table, or ["model-name"] is
    missing or not a string; an empty ["model-name"] is again a store
    through a null pointer. When class and name are fine but the
    artifact does not resolve, init returns -1 after the stat calls of
    [modelexits], provided the path of the elf file is longer than
    fifteen characters; with a shorter one the empty string
    [modelexits] returns is copied in place into the all-zero
    [elfname]. *)
Theorem init_rejects (P : platform) (w : world) (handle : IVASKernel) (s : mstate) :
  let jconfig := kernel_config handle in
  let path := configured_modelpath jconfig in
  configured_format jconfig ≠ IVAS_VMFT_UNKNOWN →
  (path = "" → xlnx_kernel_init P w handle s = Undef NullDeref) ∧
  (path ≠ "" → fs w path = false →
     xlnx_kernel_init P w handle s
     = Ret ((neg1_int32, handle), add_events [EvStat path] s)) ∧
  (fs w path = true → configured_flag jconfig "run_time_model" false = false →
     (json_string_value (json_object_get jconfig "model-class") = None ∨
      (∃ cls, json_string_value (json_object_get jconfig "model-class") = Some cls ∧
              cls ∉ ivas_xmodelclass P) ∨
      json_string_value (json_object_get jconfig "model-name") = None) →
     xlnx_kernel_init P w handle s
     = Ret ((neg1_int32, handle), add_events [EvStat path] s)) ∧
  (fs w path = true → configured_flag jconfig "run_time_model" false = false →
   ∀ cls nm,
     json_string_value (json_object_get jconfig "model-class") = Some cls →
     ivas_xclass_to_num P cls ≠ IVAS_XCLASS_NOTFOUND P →
     json_string_value (json_object_get jconfig "model-name") = Some nm →
     (nm = "" → xlnx_kernel_init P w handle s = Undef NullDeref) ∧
     (nm ≠ "" → ¬ artifact_present w (configured_kpriv P jconfig) nm →
      let kq := set_modelname nm (configured_kpriv P jconfig) in
      if (String.length (artifact kq ".elf") <=? 15)%nat
      then xlnx_kernel_init P w handle s = Undef NullDeref
      else xlnx_kernel_init P w handle s
           = Ret ((neg1_int32, handle),
                  add_events (EvStat path :: (EvStat <$> stat_paths w kq)) s))).
Proof.
  intros jconfig path Hfmt. rewrite (xlnx_kernel_init_accepted _ _ _ Hfmt).
  fold jconfig. fold path.
  assert (Hexists : fs w path = true → String.eqb path "" = false).
  { intros Hfs. apply String.eqb_neq. intros Heq. rewrite Heq, (stat_empty w) in Hfs.
    discriminate. }
  assert (Hstatic : fs w path = true →
                    configured_flag jconfig "run_time_model" false = false →
                    init_after_format P w handle s
                    = init_static P w handle (configured_kpriv P jconfig)
                        (add_events [EvStat path] s)).
  { intros Hfs Hst. unfold init_after_format, bind, fileexists, bind, emit, ret.
    fold jconfig. fold path. simpl. by rewrite Hfs, Hst. }
  split; [|split; [|split]].
  - intros ->. reflexivity.
  - intros Hne Hfs. apply String.eqb_neq in Hne. rewrite Hne.
    unfold init_after_format, bind, fileexists, bind, emit, ret. fold jconfig. fold path.
    simpl. by rewrite Hfs.
  - intros Hfs Hst Hbad. rewrite (Hexists Hfs), (Hstatic Hfs Hst).
    unfold init_static. fold jconfig.
    destruct (json_string_value (json_object_get jconfig "model-class")) as [cls|];
      [|reflexivity].
    simpl. destruct (Z.eqb_spec (ivas_xclass_to_num P cls) (IVAS_XCLASS_NOTFOUND P))
      as [?|Hcls]; [reflexivity|].
    destruct Hbad as [?|[(cls' & [= <-] & Hnot)|Hnm]]; [done| |by rewrite Hnm].
    by destruct (Hcls (ivas_xclass_to_num_absent P cls Hnot)).
  - intros Hfs Hst cls nm Hcls Hnum Hnm. rewrite (Hexists Hfs), (Hstatic Hfs Hst).
    apply Z.eqb_neq in Hnum.
    assert (Hname : init_static P w handle (configured_kpriv P jconfig)
                      (add_events [EvStat path] s)
                    = bind (lift (assign_to_zeroed nm))
                        (λ nm0,
                           let kpriv := set_modelname nm0
                                          (set_modelclass (ivas_xclass_to_num P cls)
                                             (configured_kpriv P jconfig)) in
                           bind (modelexits w kpriv) (λ elf,
                             bind (lift (move_to_zeroed (modelexits_in_place kpriv elf) elf))
                               (λ elf,
                                  let kpriv := set_elfname elf kpriv in
                                  if String.eqb elf "" then ret (neg1_int32, handle)
                                  else
                                    bind (ivas_xinitmodel P w kpriv (modelclass kpriv))
                                      (λ '(m, after),
                                         match after with
                                         | None => undef UseAfterFree
                                         | Some kpriv =>
                                           match m with
                                           | None => ret (neg1_int32, handle)
                                           | Some _ =>
                                             ret (C_true,
                                                  set_kernel_priv
                                                    (PrivLive (set_model m kpriv)) handle)
                                           end
                                         end))))
                        (add_events [EvStat path] s)).
    { unfold init_static. fold jconfig. rewrite Hcls, Hnm. simpl (modelclass _).
      by rewrite Hnum. }
    rewrite Hname. clear Hname. split.
    + intros ->. reflexivity.
    + intros Hne Hart kq. apply String.eqb_neq in Hne.
      assert (Hrun : ∀ (f : string → M (Z * IVASKernel)) s1,
                bind (lift (assign_to_zeroed nm)) f s1 = f nm s1).
      { intros f s1. unfold bind, lift, assign_to_zeroed. by rewrite Hne. }
      destruct (String.length (artifact kq ".elf") <=? 15)%nat eqn:Hlen.
      all: rewrite Hrun; cbv zeta; unfold bind at 1; rewrite modelexits_run.
      all: rewrite (resolved_artifact_absent w
                      (set_modelclass (ivas_xclass_to_num P cls)
                         (configured_kpriv P jconfig))) by done.
      all: unfold bind at 1, lift, move_to_zeroed, modelexits_in_place.
      all: change (String.eqb "" "") with true; cbv iota.
      all: change (model_dir
                (set_modelname nm
                   (set_modelclass (ivas_xclass_to_num P cls) (configured_kpriv P jconfig)))
              +:+ modelname
                    (set_modelname nm
                       (set_modelclass (ivas_xclass_to_num P cls)
                          (configured_kpriv P jconfig)))
              +:+ ".elf") with (artifact kq ".elf").
      all: rewrite Hlen.
      * reflexivity.
      * simpl. unfold ret, add_events. simpl. by rewrite <- ?app_assoc.
Qed.

Lemma init_rejects_witness :
  xlnx_kernel_init sample_platform sample_world (fresh_handle config_unknown_class)
    empty_state
  = Ret ((neg1_int32, fresh_handle config_unknown_class),
         add_events [EvStat "/models/"] empty_state).
Proof.
  destruct (init_rejects sample_platform sample_world (fresh_handle config_unknown_class)
              empty_state) as (_ & _ & Hkeys & _); [done|].
  apply Hkeys; [reflexivity | reflexivity |].
  right. left. exists "UNKNOWN_THING". split; [reflexivity|].
  intros Hin. apply list_elem_of_In in Hin. simpl in Hin.
  repeat destruct Hin as [Hin|Hin]; try discriminate Hin. exact Hin.
Defined.

(** ** Model selection, twice *)

(** What a selection that lets the frame through has established. *)
Lemma runtime_select_continue (P : platform) (w : world) (fr : IVASFrame)
    (k k' : ivas_xkpriv) (s s' : mstate) :
  runtime_select P w fr k s = Ret ((Continue, k'), s') →
  ∃ c n i e,
    inp_infer_meta fr = Some (c, n) ∧
    mlist_find c n (mlist k') = Some i ∧ mlist k' !! i = Some e ∧
    ml_model e = model k' ∧ ml_labelptr e = labelptr k' ∧
    modelclass k' = c ∧ modelname k' = n ∧ modelpath k' = modelpath k ∧
    elfname k' = resolved_artifact w k' ∧ elfname k' ≠ "".
Proof.
  unfold runtime_select. intros H. bind_step H as u0 s0 Hmeta.
  destruct (inp_infer_meta fr) as [[c n]|]; [|done].
  bind_step H as elf s1 Helf. rewrite modelexits_run in Helf. injection Helf as <- <-.
  destruct (String.eqb_spec (resolved_artifact w (set_modelname n (set_modelclass c k))) "")
    as [?|Hres]; [done|].
  simpl in H. destruct (mlist_find c n (mlist k)) as [i|] eqn:Hfind.
  - destruct (mlist k !! i) as [e|] eqn:Hi; [|done]. injection H as <- <-.
    by exists c, n, i, e.
  - bind_step H as r s2 Hinit. destruct r as [m [k1|]]; [|done].
    apply ivas_xinitmodel_result in Hinit as (_ & lp & lf & ml & Hk1).
    destruct m as [m|]; [|done]. subst k1. injection H as <- <-. simpl.
    eexists c, n, (length (mlist k)), _. split; [done|].
    split; [|split; [by apply list_lookup_middle|done]].
    rewrite mlist_find_app, Hfind. simpl.
    rewrite Z.eqb_refl, String.eqb_refl. simpl. by rewrite Nat.add_0_r.
Qed.

(** After a selection that let a frame through, the private structure
    describes the request: class and name are those of the frame's
    metadata, [elfname] is the artifact [modelexits] resolved for them,
    and the active model and label table are those of the first cache
    entry for the pair. *)
Theorem selection_describes_request (P : platform) (w : world) (fr : IVASFrame)
    (k k' : ivas_xkpriv) (s s' : mstate) :
  runtime_select P w fr k s = Ret ((Continue, k'), s') →
  inp_infer_meta fr = Some (modelclass k', modelname k') ∧
  elfname k' = resolved_artifact w k' ∧ elfname k' ≠ "" ∧
  artifact_present w k (modelname k') ∧
  ∃ i e, mlist_find (modelclass k') (modelname k') (mlist k') = Some i ∧
         mlist k' !! i = Some e ∧
         ml_model e = model k' ∧ ml_labelptr e = labelptr k'.
Proof.
  intros H.
  destruct (runtime_select_continue _ _ _ _ _ _ _ H)
    as (c & n & i & e & Hmeta & Hfind & Hi & Hm & Hl & <- & <- & Hpath & Helf & Hne).
  split; [done|]. split; [done|]. split; [done|]. split; [|by exists i, e].
  rewrite Helf in Hne. unfold resolved_artifact in Hne. unfold artifact_present.
  assert (Hart : ∀ ext, artifact (set_modelname (modelname k') k) ext = artifact k' ext).
  { intros ext. unfold artifact, model_dir. simpl. by rewrite Hpath. }
  rewrite !Hart.
  destruct (fs w (artifact k' ".prototxt")); simpl in Hne; [|done]. split; [done|].
  destruct (fs w (artifact k' ".xmodel")); [by left|].
  destruct (fs w (artifact k' ".elf")); [by right|done].
Qed.

Lemma selection_describes_request_witness :
  ∃ k' s', runtime_select sample_platform sample_world ssd_frame sample_kpriv empty_state
           = Ret ((Continue, k'), s') ∧
           modelclass k' = 3 ∧ modelname k' = "ssd_voc" ∧
           elfname k' = "/models//ssd_voc/ssd_voc.xmodel".
Proof.
  destruct (runtime_select sample_platform sample_world ssd_frame sample_kpriv empty_state)
    as [[[[|code] k'] s']|] eqn:H; try (vm_compute in H; discriminate H).
  destruct (selection_describes_request _ _ _ _ _ _ _ H) as (Hmeta & Helf & _).
  injection Hmeta as Hc Hn. exists k', s'. split; [done|]. split; [done|]. split; [done|].
  rewrite Helf. unfold resolved_artifact, artifact, model_dir. rewrite <- Hn.
  vm_compute in H. injection H as <- _. vm_compute. reflexivity.
Defined.

(** Selecting the same pair again, right after a selection that let a
    frame through, constructs nothing: as long as the artifact still
    resolves, the second selection makes the same model and label table
    active and leaves cache and heap as they were. *)
Theorem selection_is_idempotent (P : platform) (w w2 : world) (fr : IVASFrame)
    (k k1 : ivas_xkpriv) (s s1 s2 : mstate) :
  runtime_select P w fr k s = Ret ((Continue, k1), s1) →
  artifact_present w2 k1 (modelname k1) →
  ∃ k2 s3,
    runtime_select P w2 fr k1 s2 = Ret ((Continue, k2), s3) ∧
    model k2 = model k1 ∧ labelptr k2 = labelptr k1 ∧ mlist k2 = mlist k1 ∧
    hp s3 = hp s2 ∧
    trace s3 = trace s2 ++ EvGetInpMeta :: (EvStat <$> stat_paths w2 k1).
Proof.
  intros H Hart.
  destruct (runtime_select_continue _ _ _ _ _ _ _ H)
    as (c & n & i & e & Hmeta & Hfind & Hi & Hm & Hl & Hc & Hn & _).
  subst c n.
  eexists _, _. split.
  { unfold runtime_select, bind at 1, emit. rewrite Hmeta. unfold bind.
    rewrite modelexits_run.
    rewrite (resolved_artifact_present w2
               (set_modelclass (modelclass k1) k1) (modelname k1)) by done.
    simpl. rewrite Hfind, Hi. reflexivity. }
  simpl. rewrite <- app_assoc. by repeat split.
Qed.

Lemma selection_is_idempotent_witness :
  ∃ k1 s1 k2 s3,
    runtime_select sample_platform sample_world ssd_frame sample_kpriv empty_state
    = Ret ((Continue, k1), s1) ∧
    runtime_select sample_platform sample_world ssd_frame k1 s1
    = Ret ((Continue, k2), s3) ∧
    model k2 = model k1 ∧ hp s3 = hp s1.
Proof.
  destruct (runtime_select sample_platform sample_world ssd_frame sample_kpriv empty_state)
    as [[[[|code] k1] s1]|] eqn:H; try (vm_compute in H; discriminate H).
  destruct (selection_is_idempotent sample_platform sample_world sample_world ssd_frame
              sample_kpriv k1 empty_state s1 s1 H) as (k2 & s3 & H2 & Hm & _ & _ & Hh & _).
  - vm_compute in H. injection H as <- _.
    split; [vm_compute; reflexivity | left; vm_compute; reflexivity].
  - by exists k1, s1, k2, s3.
Defined.

(** ** Teardown *)

Lemma is_freed_false (a : nat) (h : heap) : a ∉ freed h → is_freed a h = false.
Proof. intros H. unfold is_freed. by apply bool_decide_eq_false_2. Qed.

Lemma is_freed_true (a : nat) (h : heap) : a ∈ freed h → is_freed a h = true.
Proof. intros H. unfold is_freed. by apply bool_decide_eq_true_2. Qed.

(** Deinit on a live private structure in runtime mode, or with an
    empty cache. *)
Lemma deinit_run (P : platform) (w : world) (handle : IVASKernel)
    (k : ivas_xkpriv) (s : mstate) :
  kernel_priv handle = PrivLive k →
  run_time_model k = true ∨ mlist k = [] →
  NoDup (active_blocks k) →
  (∀ a, a ∈ active_blocks k → a ∉ freed (hp s)) →
  ∃ k' s' t1,
    xlnx_kernel_deinit P w handle s
    = Ret ((C_true, set_kernel_priv (PrivFreed k') handle), s') ∧
    trace s' = trace s ++ t1 ++ teardown_events k ∧ Forall is_report t1 ∧
    freed (hp s') = active_blocks k ++ freed (hp s) ∧
    next_addr (hp s') = next_addr (hp s) ∧
    mlist k' = mlist k ∧ model k' = None.
Proof.
  intros Hpriv Hmode Hnd Hlive.
  unfold xlnx_kernel_deinit. rewrite Hpriv.
  destruct (final_report_run w k s) as (s1 & t1 & E & Et1 & Hh1 & Ht1).
  unfold bind at 1. rewrite E.
  assert (Hrep : Forall is_report t1).
  { destruct (_ && _); [|by subst].
    destruct Ht1 as (fps & -> & _). by apply Forall_singleton. }
  clear E Ht1. destruct s1 as [h1 tk1 tr1]. simpl in Et1, Hh1. subst h1 tr1.
  assert (Hloop : (if negb (run_time_model (set_pf zero_perf k))
                   then bind (deinit_mlist (mlist (set_pf zero_perf k)))
                          (λ l, ret (match l with
                                     | [] => set_mlist l (set_pf zero_perf k)
                                     | _ => set_model None (set_mlist l (set_pf zero_perf k))
                                     end))
                   else ret (set_pf zero_perf k))
                  = ret (set_mlist (mlist k) (set_pf zero_perf k))).
  { destruct k; simpl in *. destruct Hmode as [->| ->]; [done|].
    by destruct run_time_model0. }
  unfold bind at 1. rewrite Hloop. unfold ret at 1. clear Hloop.
  unfold active_blocks, teardown_events in *.
  destruct k as [mo mc mf ll np pt rt lp lf ml mp mn en mli pfk]. simpl in *.
  destruct mo as [m|], lp as [b|]; simpl in *.
  - assert (Hb : lb_addr b ∉ freed (hp s)).
    { apply Hlive, elem_of_cons. by left. }
    assert (Hm : m ∉ freed (hp s)).
    { apply Hlive, elem_of_cons. right. apply elem_of_cons. by left. }
    assert (Hbm : lb_addr b ∉ m :: freed (hp s)).
    { apply NoDup_cons in Hnd as [Hnd _]. apply not_elem_of_cons. split; [|done].
      intros Heq. apply Hnd. rewrite Heq. apply elem_of_cons. by left. }
    unfold bind, close_and_delete, bind, touch, release, emit, ret. simpl.
    rewrite (is_freed_false m (hp s)) by done. simpl.
    rewrite (is_freed_false m (hp s)) by done. simpl.
    rewrite is_freed_false by done. simpl.
    eexists _, _, t1. split; [reflexivity|]. simpl.
    rewrite <- !app_assoc. by repeat split.
  - assert (Hm : m ∉ freed (hp s)).
    { apply Hlive, elem_of_cons. by left. }
    unfold bind, close_and_delete, bind, touch, release, emit, ret. simpl.
    rewrite (is_freed_false m (hp s)) by done. simpl.
    rewrite (is_freed_false m (hp s)) by done. simpl.
    eexists _, _, t1. split; [reflexivity|]. simpl.
    rewrite <- !app_assoc. by repeat split.
  - assert (Hb : lb_addr b ∉ freed (hp s)).
    { apply Hlive, elem_of_cons. by left. }
    unfold bind, release, emit, ret. simpl.
    rewrite is_freed_false by done. simpl.
    eexists _, _, t1. split; [reflexivity|]. simpl.
    rewrite <- !app_assoc. by repeat split.
  - unfold bind, emit, ret. simpl.
    eexists _, _, t1. split; [reflexivity|]. simpl.
    rewrite <- !app_assoc. by repeat split.
Qed.


(** In runtime-selection mode, and whenever the cache is empty, deinit
    on a live private structure whose active model and label table are
    distinct live blocks returns [true] after: the final report (if
    any), close and delete of the active model, the release of the
    active label table and of the capabilities. Nothing else is
    released: the cache is left as it was, so a cached model that is
    not the active one is neither closed nor deleted. *)
Theorem deinit_teardown (P : platform) (w : world) (handle : IVASKernel)
    (k : ivas_xkpriv) (s : mstate) :
  kernel_priv handle = PrivLive k →
  run_time_model k = true ∨ mlist k = [] →
  NoDup (active_blocks k) →
  (∀ a, a ∈ active_blocks k → a ∉ freed (hp s)) →
  ∃ k' s' t1,
    xlnx_kernel_deinit P w handle s
    = Ret ((C_true, set_kernel_priv (PrivFreed k') handle), s') ∧
    trace s' = trace s ++ t1 ++ teardown_events k ∧ Forall is_report t1 ∧
    freed (hp s') = active_blocks k ++ freed (hp s) ∧
    next_addr (hp s') = next_addr (hp s) ∧
    mlist k' = mlist k ∧ model k' = None ∧
    ∀ e m, e ∈ mlist k → ml_model e = Some m → m ∉ active_blocks k →
           m ∉ freed (hp s) → m ∉ freed (hp s').
Proof.
  intros Hpriv Hmode Hnd Hlive.
  destruct (deinit_run P w handle k s Hpriv Hmode Hnd Hlive)
    as (k' & s' & t1 & H & Ht & Hr & Hf & Hn & Hm & Hmo).
  exists k', s', t1. do 6 (split; [done|]). split; [done|].
  intros e m _ _ Hm' Hfm. rewrite Hf. by apply not_elem_of_app.
Qed.

Lemma deinit_teardown_witness :
  ∃ k' s',
    xlnx_kernel_deinit sample_platform sample_world (live_handle two_model_kpriv)
      two_model_state
    = Ret ((C_true, set_kernel_priv (PrivFreed k') (live_handle two_model_kpriv)), s') ∧
    freed (hp s') = [0%nat] ∧ mlist k' = [ssd_entry; resnet_entry].
Proof.
  destruct (deinit_teardown sample_platform sample_world (live_handle two_model_kpriv)
              two_model_kpriv two_model_state eq_refl (or_introl eq_refl))
    as (k' & s' & t1 & H & _ & _ & Hf & _ & Hm & _).
  - apply NoDup_singleton.
  - intros a _. apply not_elem_of_nil.
  - by exists k', s'.
Defined.

(** Deinit frees the private structure but leaves [handle->kernel_priv]
    pointing at it. The test at the top of deinit guards only handles
    that were never initialised: after a deinit of a live handle, a
    second deinit, a start or a done reads freed memory. *)
Theorem deinit_leaves_dangling_pointer (P : platform) (w : world)
    (handle handle' : IVASKernel) (k : ivas_xkpriv) (s s' : mstate) (code : Z) :
  kernel_priv handle = PrivLive k →
  xlnx_kernel_deinit P w handle s = Ret ((code, handle'), s') →
  kernel_config handle' = kernel_config handle ∧
  (∃ last, kernel_priv handle' = PrivFreed last) ∧
  (∀ w2 s2, xlnx_kernel_deinit P w2 handle' s2 = Undef UseAfterFree) ∧
  (∀ w2 fr s2, xlnx_kernel_start P w2 fr handle' s2 = Undef UseAfterFree) ∧
  (∀ s2, xlnx_kernel_done handle' s2 = Undef UseAfterFree).
Proof.
  intros Hpriv H.
  destruct (deinit_inv _ _ _ _ _ _ _ _ Hpriv H) as (k' & t1 & t2 & -> & _).
  split; [done|]. split; [by exists k'|]. by repeat split.
Qed.

Lemma deinit_leaves_dangling_pointer_witness :
  ∃ handle' s',
    xlnx_kernel_deinit sample_platform sample_world (live_handle cached_kpriv)
      {| hp := one_model_heap; tick := 0; trace := [] |}
    = Ret ((C_true, handle'), s') ∧
    xlnx_kernel_deinit sample_platform sample_world handle' s' = Undef UseAfterFree.
Proof.
  destruct (xlnx_kernel_deinit sample_platform sample_world (live_handle cached_kpriv)
              {| hp := one_model_heap; tick := 0; trace := [] |})
    as [[[code handle'] s']|] eqn:H; [|vm_compute in H; discriminate H].
  destruct (deinit_leaves_dangling_pointer sample_platform sample_world
              (live_handle cached_kpriv) handle' cached_kpriv _ s' code eq_refl H)
    as (_ & _ & Hagain & _).
  exists handle', s'. split; [|apply Hagain].
  destruct (deinit_inv sample_platform sample_world (live_handle cached_kpriv) handle'
              cached_kpriv _ s' code eq_refl H) as (k' & t1 & t2 & _ & -> & _).
  reflexivity.
Defined.

(** ** Frames *)

Lemma set_pf_same (k : ivas_xkpriv) : set_pf (pf k) k = k.
Proof. by destruct k. Qed.

Lemma update_perf_pf (w : world) (k k' : ivas_xkpriv) (s s' : mstate) :
  update_perf w k s = Ret (k', s') → k' = set_pf (pf k') k ∧ hp s' = hp s.
Proof.
  unfold update_perf. destruct (_ && _).
  - unfold bind, get_time, emit, ret. simpl.
    destruct (_ <=? _)%float; simpl; by intros [= <- <-].
  - intros [= <- <-]. by rewrite set_pf_same.
Qed.

(** Running the active model and counting the frame. *)
Lemma run_and_count (w : world) (fr : IVASFrame) (k : ivas_xkpriv) (m : nat) (s : mstate) :
  model k = Some m → is_freed m (hp s) = false →
  ∃ p t s',
    bind (touch m) (λ _, bind (ivas_xrunmodel k fr) (λ r,
      bind (update_perf w k) (λ kpriv, ret (to_uint32 r, kpriv)))) s
    = Ret ((to_uint32 (if run_ok fr then C_true else -1), set_pf p k), s') ∧
    hp s' = hp s ∧ trace s' = trace s ++ EvRun m :: t ∧ Forall is_report t ∧
    (performance_test k = false → p = pf k ∧ t = []) ∧
    (performance_test k = true → test_started (pf k) ≠ 0 →
       test_started p ≠ 0 ∧ frames p = to_uint64 (frames (pf k) + 1)).
Proof.
  intros Hm Hfr.
  destruct (update_perf_run w k (add_events [EvRun m] s))
    as (k1 & s1 & t & E & Et & Hh & _ & _ & _ & Hts & Hoff & Hrep).
  destruct (update_perf_pf _ _ _ _ _ E) as [Hk1 _].
  exists (pf k1), t, s1.
  split.
  { unfold bind at 1, touch. rewrite Hfr.
    unfold bind at 1, ivas_xrunmodel. rewrite Hm.
    unfold bind at 1, touch. rewrite Hfr.
    unfold bind at 1, emit. fold (add_events [EvRun m] s).
    destruct (run_ok fr); simpl; unfold ret at 1, bind; rewrite E; unfold ret;
      by rewrite <- Hk1. }
  split; [done|]. split; [by rewrite Et; simpl; rewrite <- app_assoc|].
  split; [destruct Hrep as [->|(fps & -> & _)]; [done | by apply Forall_singleton]|].
  split.
  - intros Hpt. rewrite Hpt in Hoff. exact Hoff.
  - intros Hpt Hst. rewrite Hpt in Hoff. apply Z.eqb_neq in Hst. rewrite Hst in Hoff.
    simpl in Hoff. apply Z.eqb_neq in Hst. split; [by rewrite Hts | done].
Qed.

(** The processing part on a frame that passes the two checks. *)
Lemma process_frame_accepted (w : world) (fr : IVASFrame) (k : ivas_xkpriv) (s : mstate) :
  frame_accepted fr = true →
  match model k with
  | None => process_frame w fr k s = Undef NullDeref
  | Some m =>
    if is_freed m (hp s) then process_frame w fr k s = Undef UseAfterFree
    else ∃ p t s',
           process_frame w fr k s
           = Ret ((to_uint32 (if run_ok fr then C_true else -1), set_pf p k), s') ∧
           hp s' = hp s ∧ trace s' = trace s ++ EvAddMeta :: EvRun m :: t ∧
           Forall is_report t ∧
           (performance_test k = false → p = pf k ∧ t = []) ∧
           (performance_test k = true →
              test_started p ≠ 0 ∧ frames p = to_uint64 (frames (pf k) + 1))
  end.
Proof.
  intros Hacc. apply andb_prop in Hacc as [Hadd Hfmt].
  assert (Hgo : process_frame w fr k s
    = bind (if performance_test k && (test_started (pf k) =? 0)
            then bind (get_time w) (λ t, ret (set_pf (start_timer t (pf k)) k))
            else ret k)
        (λ kpriv, match model kpriv with
                  | Some m =>
                    bind (touch m) (λ _, bind (ivas_xrunmodel kpriv fr) (λ r,
                      bind (update_perf w kpriv) (λ kpriv0, ret (to_uint32 r, kpriv0))))
                  | None => undef NullDeref
                  end)
        (add_events [EvAddMeta] s)).
  { unfold process_frame, bind at 1, emit. rewrite Hadd. simpl negb. cbv iota.
    by destruct (props_fmt fr). }
  rewrite Hgo. clear Hgo.
  destruct (model k) as [m|] eqn:Hm.
  - destruct (is_freed m (hp s)) eqn:Hfr.
    + destruct (performance_test k && (test_started (pf k) =? 0));
        unfold bind, get_time, ret, touch; simpl; rewrite Hm; simpl; by rewrite Hfr.
    + destruct (performance_test k) eqn:Hpt; simpl andb;
        [destruct (Z.eqb_spec (test_started (pf k)) 0) as [Hts|Hts]|].
      * assert (Ht : bind (get_time w) (λ t, ret (set_pf (start_timer t (pf k)) k))
                       (add_events [EvAddMeta] s)
                     = Ret (set_pf (start_timer (time_at w (tick s)) (pf k)) k,
                            {| hp := hp s; tick := S (tick s);
                               trace := trace s ++ [EvAddMeta] |})) by reflexivity.
        unfold bind at 1. rewrite Ht. simpl (model _). rewrite Hm.
        destruct (run_and_count w fr
                    (set_pf (start_timer (time_at w (tick s)) (pf k)) k) m
                    {| hp := hp s; tick := S (tick s); trace := trace s ++ [EvAddMeta] |}
                    Hm Hfr)
          as (p & t & s' & E & Hh & Et & Hrep & _ & Hon).
        exists p, t, s'. split; [exact E|]. split; [done|].
        split; [rewrite Et; simpl; by rewrite <- app_assoc|].
        split; [done|]. split; [done|]. intros _. by apply Hon.
      * unfold bind at 1, ret at 1. rewrite Hm.
        destruct (run_and_count w fr k m (add_events [EvAddMeta] s) Hm Hfr)
          as (p & t & s' & E & Hh & Et & Hrep & _ & Hon).
        exists p, t, s'. split; [exact E|]. split; [done|].
        split; [rewrite Et; simpl; by rewrite <- app_assoc|].
        split; [done|]. split; [done|]. intros _. by apply Hon.
      * unfold bind at 1, ret at 1. rewrite Hm.
        destruct (run_and_count w fr k m (add_events [EvAddMeta] s) Hm Hfr)
          as (p & t & s' & E & Hh & Et & Hrep & Hoff & _).
        exists p, t, s'. split; [exact E|]. split; [done|].
        split; [rewrite Et; simpl; by rewrite <- app_assoc|].
        split; [done|]. split; [intros _; by apply Hoff | done].
  - destruct (performance_test k && (test_started (pf k) =? 0));
      unfold bind, get_time, ret; simpl; by rewrite Hm.
Qed.

(** The status [xlnx_kernel_start] returns is [1] or [0xFFFFFFFF] (the
    [-1] of the source in its [uint32_t] return type), and it is [1]
    exactly when the model ran on the frame and its [run] reported
    success. *)
Theorem start_status (P : platform) (w : world) (fr : IVASFrame)
    (handle handle' : IVASKernel) (k : ivas_xkpriv) (s s' : mstate) (code : Z) :
  kernel_priv handle = PrivLive k →
  xlnx_kernel_start P w fr handle s = Ret ((code, handle'), s') →
  (code = 1 ∨ code = 4294967295) ∧
  ∃ t, trace s' = trace s ++ t ∧
       (code = 1 ↔ run_ok fr = true ∧ ∃ m, EvRun m ∈ t).
Proof.
  intros Hpriv H.
  destruct (start_inv _ _ _ _ _ _ _ _ _ Hpriv H)
    as (k' & t & _ & Et & _ & _ & _ & _ & [(Hrun & -> & _)|(Hno & -> & _)]).
  - destruct (run_ok fr).
    + split; [by left|]. exists t. by split.
    + split; [by right|]. exists t. split; [done|].
      split; [done | by intros [? _]].
  - split; [by right|]. exists t. split; [done|].
    split; [done|]. intros [_ [m Hm]]. by apply Hno in Hm.
Qed.

Lemma start_status_witness :
  ∃ handle' s',
    xlnx_kernel_start sample_platform sample_world failing_frame
      (live_handle cached_kpriv) {| hp := one_model_heap; tick := 0; trace := [] |}
    = Ret ((4294967295, handle'), s').
Proof.
  destruct (xlnx_kernel_start sample_platform sample_world failing_frame
              (live_handle cached_kpriv) {| hp := one_model_heap; tick := 0; trace := [] |})
    as [[[code handle'] s']|] eqn:H; [|vm_compute in H; discriminate H].
  destruct (start_status sample_platform sample_world failing_frame
              (live_handle cached_kpriv) handle' cached_kpriv _ s' code eq_refl H)
    as ([->| ->] & t & _ & Hiff).
  - destruct Hiff as [Hone _]. destruct (Hone eq_refl) as [Hok _]. discriminate Hok.
  - by exists handle', s'.
Defined.

(** In static mode a call of [xlnx_kernel_start] never looks at the
    disk, the cache or the heap: a frame whose result metadata cannot
    be attached, or whose pixel format is neither BGR nor RGB, is
    turned away with -1 and the handle as it was; any other frame runs
    the one model init built, and the call changes nothing but the
    performance counters (and not even those with telemetry off). *)
Theorem static_start (P : platform) (w : world) (fr : IVASFrame)
    (handle : IVASKernel) (k : ivas_xkpriv) (s : mstate) :
  kernel_priv handle = PrivLive k → run_time_model k = false →
  if frame_accepted fr then
    match model k with
    | None => xlnx_kernel_start P w fr handle s = Undef NullDeref
    | Some m =>
      if is_freed m (hp s) then xlnx_kernel_start P w fr handle s = Undef UseAfterFree
      else ∃ p t s',
             xlnx_kernel_start P w fr handle s
             = Ret ((to_uint32 (if run_ok fr then C_true else -1),
                     set_kernel_priv (PrivLive (set_pf p k)) handle), s') ∧
             hp s' = hp s ∧ trace s' = trace s ++ EvAddMeta :: EvRun m :: t ∧
             Forall is_report t ∧
             (performance_test k = false → p = pf k ∧ t = [])
    end
  else xlnx_kernel_start P w fr handle s
       = Ret ((neg1_uint32, handle), add_events [EvAddMeta] s).
Proof.
  intros Hpriv Hrt.
  assert (Hstart : xlnx_kernel_start P w fr handle s
                   = bind (process_frame w fr k)
                       (λ '(code, kpriv),
                          ret (code, set_kernel_priv (PrivLive kpriv) handle)) s).
  { unfold xlnx_kernel_start. rewrite Hpriv, Hrt. reflexivity. }
  rewrite Hstart. clear Hstart.
  destruct (frame_accepted fr) eqn:Hacc.
  - pose proof (process_frame_accepted w fr k s Hacc) as Hp.
    destruct (model k) as [m|] eqn:Hm.
    + destruct (is_freed m (hp s)).
      * unfold bind. by rewrite Hp.
      * destruct Hp as (p & t & s' & E & Hh & Et & Hrep & Hoff & _).
        exists p, t, s'. split; [unfold bind; by rewrite E|]. done.
    + unfold bind. by rewrite Hp.
  - assert (Hrej : process_frame w fr k s = Ret ((neg1_uint32, k), add_events [EvAddMeta] s)).
    { unfold frame_accepted in Hacc. unfold process_frame, bind, emit.
      destruct (add_meta_ok fr); simpl in *; [|done].
      by destruct (props_fmt fr). }
    unfold bind. rewrite Hrej. unfold ret. destruct handle. simpl in Hpriv. by subst.
Qed.

Lemma static_start_witness :
  xlnx_kernel_start sample_platform sample_world nv12_frame (live_handle static_kpriv)
    {| hp := one_model_heap; tick := 0; trace := [] |}
  = Ret ((neg1_uint32, live_handle static_kpriv),
         {| hp := one_model_heap; tick := 0; trace := [EvAddMeta] |}).
Proof.
  exact (static_start sample_platform sample_world nv12_frame (live_handle static_kpriv)
           static_kpriv {| hp := one_model_heap; tick := 0; trace := [] |}
           eq_refl eq_refl).
Defined.

(** ** Classes left out of the build, and label tables not found *)





(** The factory when the class is compiled in, no label file exists
    and the constructor reports that it needs one. *)
Lemma ivas_xinitmodel_label_failure (P : platform) (w : world) (k : ivas_xkpriv)
    (c : Z) (s : mstate) (active : nat) :
  class_enabled P c = true → fs w (label_path k) = false →
  ctor_misses_labels P c k = true →
  model k = Some active → is_freed active (hp s) = false →
  ivas_xinitmodel P w k c s
  = Ret ((None,
          Some (set_modelclass (IVAS_XCLASS_NOTFOUND P)
                  (set_model None
                     (set_labelflags (ctor_labelflags P c (before_ctor P k))
                        (before_ctor P k))))),
         {| hp := {| next_addr := S (next_addr (hp s)); freed := active :: freed (hp s) |};
            tick := tick s;
            trace := trace s ++ [EvStat (label_path k);
                                 EvNew c (elfname k) (need_preprocess k) (next_addr (hp s));
                                 EvClose active; EvDelete active] |}).
Proof.
  intros Hen Hfs Hmiss Hm Hfr.
  unfold ivas_xinitmodel, fileexists, bind, emit, ret, alloc, touch, release.
  unfold label_path in Hfs. simpl. rewrite Hfs, Hen. simpl.
  unfold ctor_misses_labels, before_ctor in Hmiss. rewrite Hmiss, Hm.
  unfold is_freed in *. simpl. rewrite Hfr. simpl. rewrite Hfr. simpl.
  unfold before_ctor, label_path. by rewrite <- !app_assoc.
Qed.

(** When a runtime-mode request has to construct a model whose
    constructor needs a label file that is not there, the factory
    closes and deletes [kpriv->model], which is the model of the
    previous request and still sits in the cache, while the instance
    it has just built is never released. The call returns -1 with the
    cache unchanged; a later request that hits the cache entry of the
    deleted model runs a freed object. *)
Theorem label_failure_poisons_cache (P : platform) (w : world) (fr : IVASFrame)
    (k : ivas_xkpriv) (s : mstate) (c : Z) (n : string) (active : nat) :
  let kq := set_modelname n (set_modelclass c k) in
  let kq := set_elfname (resolved_artifact w kq) kq in
  inp_infer_meta fr = Some (c, n) → artifact_present w k n →
  mlist_find c n (mlist k) = None →
  class_enabled P c = true → fs w (label_path kq) = false →
  ctor_misses_labels P c kq = true →
  model k = Some active → is_freed active (hp s) = false →
  ∃ k' s',
    runtime_select P w fr k s = Ret ((Return neg1_uint32, k'), s') ∧
    mlist k' = mlist k ∧ model k' = None ∧
    freed (hp s') = active :: freed (hp s) ∧
    next_addr (hp s') = S (next_addr (hp s)) ∧
    EvDelete active ∈ trace s' ∧
    ∀ w2 fr2 e handle s2,
      cache_ok k → e ∈ mlist k → ml_model e = Some active →
      inp_infer_meta fr2 = Some (cache_key e) →
      artifact_present w2 k (ml_modelname e) → frame_accepted fr2 = true →
      kernel_priv handle = PrivLive k' → run_time_model k = true →
      active ∈ freed (hp s2) →
      xlnx_kernel_start P w2 fr2 handle s2 = Undef UseAfterFree.
Proof.
  intros kq0 kq Hmeta Hart Hfind Hen Hfs Hmiss Hm Hfr.
  eexists _, _. split.
  { unfold runtime_select, bind at 1, emit. rewrite Hmeta. unfold bind at 1.
    rewrite modelexits_run.
    rewrite (resolved_artifact_present w (set_modelclass c k) n) by done.
    simpl (mlist _). rewrite Hfind. unfold bind at 1. fold kq0. fold kq.
    by rewrite (ivas_xinitmodel_label_failure P w kq (modelclass kq) _ active). }
  simpl. do 4 (split; [done|]). split.
  { rewrite !elem_of_app. right. do 3 (apply elem_of_cons; right).
    apply elem_of_cons. by left. }
  intros w2 fr2 e handle s2 Hok He Hact Hmeta2 Hart2 Hacc Hpriv Hrt Hfreed.
  unfold xlnx_kernel_start. rewrite Hpriv. simpl run_time_model. rewrite Hrt.
  unfold bind at 1. rewrite (runtime_select_hit P w2 fr2 _ e s2); try done.
  unfold bind at 1. rewrite Hact.
  match goal with
  | |- context [process_frame w2 fr2 ?k2 ?s3] =>
    pose proof (process_frame_accepted w2 fr2 k2 s3 Hacc) as Hp
  end.
  simpl in Hp. rewrite (is_freed_true active (hp s2)) in Hp by done.
  by rewrite Hp.
Qed.

Lemma label_failure_poisons_cache_witness :
  ∃ k' s',
    runtime_select sample_platform two_model_world resnet_frame cached_kpriv
      {| hp := one_model_heap; tick := 0; trace := [] |}
    = Ret ((Return neg1_uint32, k'), s') ∧
    mlist k' = [ssd_entry] ∧ freed (hp s') = [0%nat] ∧
    xlnx_kernel_start sample_platform two_model_world ssd_frame (live_handle k') s'
    = Undef UseAfterFree.
Proof.
  destruct (label_failure_poisons_cache sample_platform two_model_world resnet_frame
              cached_kpriv {| hp := one_model_heap; tick := 0; trace := [] |}
              2 "resnet50" 0%nat)
    as (k' & s' & H & Hml & _ & Hf & _ & _ & Hnext); try reflexivity.
  { split; [reflexivity | left; reflexivity]. }
  exists k', s'. do 3 (split; [done|]).
  apply (Hnext two_model_world ssd_frame ssd_entry); try reflexivity.
  - apply NoDup_singleton.
  - apply elem_of_cons. by left.
  - split; [reflexivity | left; reflexivity].
  - rewrite Hf. apply elem_of_cons. by left.
Defined.

(** ** What the cache holds *)

Lemma runtime_select_growth (P : platform) (w : world) (fr : IVASFrame)
    (k k' : ivas_xkpriv) (s s' : mstate) (fl : flow) :
  runtime_select P w fr k s = Ret ((fl, k'), s') →
  mlist k' = mlist k ∨
  ∃ e m, mlist k' = mlist k ++ [e] ∧ inp_infer_meta fr = Some (cache_key e) ∧
         ml_model e = Some m ∧ mlist_find (ml_modelclass e) (ml_modelname e) (mlist k) = None.
Proof.
  unfold runtime_select. intros H. bind_step H as u0 s0 Hget.
  destruct (inp_infer_meta fr) as [[c n]|]; [|left; by injection H as _ <- _].
  bind_step H as elf s1 Helf.
  destruct (String.eqb elf ""); [left; by injection H as _ <- _|].
  simpl in H. destruct (mlist_find c n (mlist k)) as [i|] eqn:Hfind.
  - destruct (mlist k !! i); [|done]. left. by injection H as _ <- _.
  - bind_step H as r s2 Hinit. destruct r as [m [k1|]]; [|done].
    apply ivas_xinitmodel_keeps in Hinit as (Hm & _). simpl in Hm.
    destruct m as [m|]; injection H as _ <- _; simpl; [|by left].
    right. eexists _, m. rewrite Hm. by repeat split.
Qed.

Lemma start_growth (P : platform) (w : world) (fr : IVASFrame)
    (handle handle' : IVASKernel) (k : ivas_xkpriv) (s s' : mstate) (code : Z) :
  kernel_priv handle = PrivLive k →
  xlnx_kernel_start P w fr handle s = Ret ((code, handle'), s') →
  ∃ k', kernel_priv handle' = PrivLive k' ∧ run_time_model k' = run_time_model k ∧
        (mlist k' = mlist k ∨
         run_time_model k = true ∧
         ∃ e m, mlist k' = mlist k ++ [e] ∧ inp_infer_meta fr = Some (cache_key e) ∧
                ml_model e = Some m ∧
                mlist_find (ml_modelclass e) (ml_modelname e) (mlist k) = None).
Proof.
  intros Hpriv H. unfold xlnx_kernel_start in H. rewrite Hpriv in H.
  bind_step H as [fl k1] s1 Hsel.
  assert (Hk1 : run_time_model k1 = run_time_model k ∧
                (mlist k1 = mlist k ∨
                 run_time_model k = true ∧
                 ∃ e m, mlist k1 = mlist k ++ [e] ∧ inp_infer_meta fr = Some (cache_key e) ∧
                        ml_model e = Some m ∧
                        mlist_find (ml_modelclass e) (ml_modelname e) (mlist k) = None)).
  { destruct (run_time_model k) eqn:Hrt.
    - destruct (runtime_select_cache _ _ _ _ _ _ _ _ Hsel) as (_ & _ & (_ & Hr & _) & _).
      simpl in Hr. split; [congruence|].
      apply runtime_select_growth in Hsel as [?|?]; [by left | by right].
    - injection Hsel as _ <- _. split; [done | by left]. }
  destruct Hk1 as [Hr1 Hg1].
  destruct fl as [|c].
  - bind_step H as [c k2] s2 Hproc. injection H as _ <- _.
    apply process_frame_inv in Hproc as ((Hm2 & Hr2 & _) & _). simpl in Hm2, Hr2.
    exists k2. split; [done|]. split; [congruence|]. by rewrite Hm2.
  - injection H as _ <- _. by exists k1.
Qed.

(** Over any run of start calls the cache only grows at its end, by
    at most one entry per frame, and only in runtime-selection mode;
    every entry it gains holds a model and carries the class and name
    of the selection metadata of one of the frames. *)
Theorem cache_holds_requested_models (P : platform) (fr : list (world * IVASFrame)) :
  ∀ (handle handle' : IVASKernel) (h h' : heap) (tr : list event) (k : ivas_xkpriv),
    kernel_priv handle = PrivLive k →
    start_all P fr handle h = Ret (handle', h', tr) →
    ∃ k' added,
      kernel_priv handle' = PrivLive k' ∧ mlist k' = mlist k ++ added ∧
      (length added ≤ length fr)%nat ∧
      (run_time_model k = false → added = []) ∧
      Forall (λ e, is_Some (ml_model e) ∧
                   ∃ wf, wf ∈ fr ∧ inp_infer_meta wf.2 = Some (cache_key e)) added.
Proof.
  induction fr as [|[w f] fr IH]; intros handle handle' h h' tr k Hpriv H; simpl in H.
  - injection H as <- _ _. exists k, []. rewrite app_nil_r. by repeat split.
  - destruct (call _ h) as [[[[code handle1] h1] t1]|] eqn:Hcall; [|done].
    destruct (start_all P fr handle1 h1) as [[[handle2 h2] t2]|] eqn:Hrest; [|done].
    injection H as <- _ _.
    apply call_Ret in Hcall as (s1 & Hcall & _ & _).
    destruct (start_growth _ _ _ _ _ _ _ _ _ Hpriv Hcall) as (k1 & Hpriv1 & Hr1 & Hg1).
    destruct (IH _ _ _ _ _ k1 Hpriv1 Hrest) as (k2 & added & Hpriv2 & Hml & Hlen & Hst & Hall).
    assert (Hall' : Forall (λ e, is_Some (ml_model e) ∧
                     ∃ wf, wf ∈ (w, f) :: fr ∧ inp_infer_meta wf.2 = Some (cache_key e))
                     added).
    { eapply Forall_impl; [exact Hall|]. intros e [Hsome (wf & Hin & Hmeta)].
      split; [done|]. exists wf. split; [|done]. apply elem_of_cons. by right. }
    destruct Hg1 as [Hsame|(Hrt & e & m & Happ & Hmeta & Hmod & _)].
    + exists k2, added. split; [done|]. split; [by rewrite Hml, Hsame|].
      split; [simpl; lia|]. split; [|done]. intros Hoff. apply Hst. congruence.
    + exists k2, (e :: added). split; [done|].
      split; [by rewrite Hml, Happ, <- app_assoc|].
      split; [simpl; lia|]. split; [congruence|].
      apply Forall_cons. split; [|done]. split; [by exists m|].
      exists (w, f). split; [|done]. apply elem_of_cons. by left.
Qed.

Lemma cache_holds_requested_models_witness :
  ∃ handle' h' tr k',
    start_all sample_platform [(sample_world, ssd_frame); (sample_world, failing_frame)]
      (live_handle sample_kpriv) empty_heap = Ret (handle', h', tr) ∧
    kernel_priv handle' = PrivLive k' ∧ (length (mlist k') ≤ 2)%nat.
Proof.
  destruct (start_all sample_platform
              [(sample_world, ssd_frame); (sample_world, failing_frame)]
              (live_handle sample_kpriv) empty_heap)
    as [[[handle' h'] tr]|] eqn:H; [|vm_compute in H; discriminate H].
  destruct (cache_holds_requested_models sample_platform
              [(sample_world, ssd_frame); (sample_world, failing_frame)]
              (live_handle sample_kpriv) handle' empty_heap h' tr sample_kpriv eq_refl H)
    as (k' & added & Hpriv & Hml & Hlen & _).
  exists handle', h', tr, k'. split; [done|]. split; [done|].
  rewrite Hml. simpl. exact Hlen.
Defined.

(** ** A static-mode session from init to deinit *)

Lemma readlabel_heap (w : world) (k k' : ivas_xkpriv) (f : string)
    (s s' : mstate) (r : option label_block) :
  readlabel w k f s = Ret ((r, k'), s') →
  (r = None ∧ hp s' = hp s) ∨
  (next_addr (hp s') = S (next_addr (hp s)) ∧
   match r with
   | Some b => lb_addr b = next_addr (hp s) ∧ freed (hp s') = freed (hp s)
   | None => freed (hp s') = next_addr (hp s) :: freed (hp s)
   end).
Proof.
  unfold readlabel, bind, emit, ret, alloc, release, lift, is_freed. simpl.
  destruct (json_files w f) as [root|]; simpl; [|intros [= <- <- <-]; by left].
  destruct (negb (json_is_integer _)); simpl; [intros [= <- <- <-]; by left|].
  intros H. right. revert H.
  destruct (json_null _); simpl.
  { destruct (bool_decide _) eqn:Hd; [done|]. by intros [= <- <- <-]. }
  destruct (negb (json_is_array _)); simpl.
  { destruct (bool_decide _) eqn:Hd; [done|]. by intros [= <- <- <-]. }
  destruct (negb (_ =? _)); simpl.
  { destruct (bool_decide _) eqn:Hd; [done|]. by intros [= <- <- <-]. }
  destruct (readlabel_loop _ _ _ _ _) as [[cells|]|]; simpl; [| |done].
  - by intros [= <- <- <-].
  - destruct (bool_decide _) eqn:Hd; [done|]. by intros [= <- <- <-].
Qed.

(** The blocks a successful construction leaves: the label table, if
    one was read, and the model, both fresh, distinct and live. *)
Lemma ivas_xinitmodel_blocks (P : platform) (w : world) (k k' : ivas_xkpriv)
    (c : Z) (s s' : mstate) (m : nat) :
  heap_wf (hp s) →
  ivas_xinitmodel P w k c s = Ret ((Some m, Some k'), s') →
  NoDup (active_blocks (set_model (Some m) k')) ∧
  (∀ a, a ∈ active_blocks (set_model (Some m) k') → a ∉ freed (hp s')) ∧
  (∀ a, (next_addr (hp s) ≤ a < next_addr (hp s'))%nat →
        a ∈ active_blocks (set_model (Some m) k') ∨ a ∈ freed (hp s')).
Proof.
  intros Hwf H. unfold ivas_xinitmodel in H.
  bind_step H as has s0 Hhas. unfold fileexists, bind, emit, ret in Hhas.
  injection Hhas as _ <-.
  bind_step H as k1 s1 Hk1.
  assert (Hl : (labelptr k1 = None ∧ hp s1 = hp s) ∨
               (next_addr (hp s1) = S (next_addr (hp s)) ∧
                match labelptr k1 with
                | Some b => lb_addr b = next_addr (hp s) ∧ freed (hp s1) = freed (hp s)
                | None => freed (hp s1) = next_addr (hp s) :: freed (hp s)
                end)).
  { destruct has.
    - bind_step Hk1 as r s2 Hrl. destruct r as [l k0]. injection Hk1 as <- <-.
      apply readlabel_heap in Hrl. exact Hrl.
    - injection Hk1 as <- <-. by left. }
  clear Hk1.
  destruct (negb (class_enabled P c)); [done|].
  bind_step H as a s2 Ha. unfold alloc in Ha. injection Ha as <- <-.
  bind_step H as u0 s3 Hnew. unfold emit in Hnew. injection Hnew as _ <-.
  destruct (_ && _).
  { simpl in H. destruct (model k1); [|done].
    bind_step H as u1 s4 H1. bind_step H as u2 s5 H2. bind_step H as u3 s6 H3.
    bind_step H as u4 s7 H4. bind_step H as u5 s8 H5. done. }
  bind_step H as u1 s4 Hcaps. unfold emit in Hcaps. injection Hcaps as _ <-.
  injection H as <- <- <-. unfold active_blocks. simpl.
  assert (Hfresh : ∀ a, (next_addr (hp s) ≤ a)%nat → a ∉ freed (hp s)).
  { intros a Ha Hin. apply Hwf in Hin. lia. }
  destruct Hl as [[Hnone Hh]|[Hnext Hl]].
  - rewrite Hnone, Hh. simpl. split; [apply NoDup_singleton|]. split.
    + intros a Ha. apply list_elem_of_singleton in Ha. subst a. by apply Hfresh.
    + intros a Ha. left. apply list_elem_of_singleton. lia.
  - rewrite Hnext. destruct (labelptr k1) as [b|].
    + destruct Hl as [Hb Hf]. rewrite Hb, Hf. simpl. split.
      { apply NoDup_cons. split; [|apply NoDup_singleton].
        intros Hin. apply list_elem_of_singleton in Hin. lia. }
      split.
      * intros a Ha. apply Hfresh.
        apply elem_of_cons in Ha as [->|Ha]; [lia|].
        apply list_elem_of_singleton in Ha. lia.
      * intros a Ha. left. apply elem_of_cons.
        destruct (decide (a = next_addr (hp s))) as [->|Hne]; [by left|].
        right. apply list_elem_of_singleton. lia.
    + rewrite Hl. simpl. split; [apply NoDup_singleton|]. split.
      * intros a Ha. apply list_elem_of_singleton in Ha. subst a.
        apply not_elem_of_cons. split; [lia|]. apply Hfresh. lia.
      * intros a Ha.
        destruct (decide (a = next_addr (hp s))) as [->|Hne].
        -- right. apply elem_of_cons. by left.
        -- left. apply list_elem_of_singleton. lia.
Qed.

Lemma init_static_session (P : platform) (w : world) (handle handle' : IVASKernel)
    (s s' : mstate) :
  heap_wf (hp s) →
  configured_flag (kernel_config handle) "run_time_model" false = false →
  xlnx_kernel_init P w handle s = Ret ((C_true, handle'), s') →
  ∃ k, kernel_priv handle' = PrivLive k ∧ static_session (next_addr (hp s)) k (hp s').
Proof.
  intros Hwf Hst H.
  apply xlnx_kernel_init_inv in H as [(_ & ? & _)|(_ & _ & Hgo)]; [done|].
  unfold init_after_format in Hgo. rewrite Hst in Hgo.
  bind_step Hgo as ok s0 Hok. unfold fileexists, bind, emit, ret in Hok.
  injection Hok as _ <-. destruct (negb _); [done|].
  unfold init_static in Hgo.
  destruct (json_string_value (json_object_get _ "model-class")) as [cls|]; [|done].
  simpl in Hgo. destruct (_ =? _); [done|].
  destruct (json_string_value (json_object_get _ "model-name")) as [nm|]; [|done].
  bind_step Hgo as nm' s3 Hnm. apply lift_assign_Ret in Hnm as (-> & -> & _).
  bind_step Hgo as elf s1 Helf. rewrite modelexits_run in Helf. injection Helf as <- <-.
  bind_step Hgo as elf' s4 Hmv. apply lift_move_Ret in Hmv as (-> & -> & _).
  destruct (String.eqb _ ""); [done|].
  bind_step Hgo as r s2 Hinit. destruct r as [m [k1|]]; [|done].
  destruct m as [m|]; [|done]. injection Hgo as <- <-.
  destruct (ivas_xinitmodel_keeps _ _ _ _ _ _ _ _ Hinit) as (Hml & Hrt & _).
  apply ivas_xinitmodel_blocks in Hinit as (Hnd & Hlive & Hcover); [|done].
  simpl in Hml, Hrt, Hcover. eexists. split; [reflexivity|].
  split; [by rewrite <- Hst|]. split; [done|]. split; [by eexists|]. done.
Qed.

Lemma process_frame_rejected (w : world) (fr : IVASFrame) (k : ivas_xkpriv) (s : mstate) :
  frame_accepted fr = false →
  process_frame w fr k s = Ret ((neg1_uint32, k), add_events [EvAddMeta] s).
Proof.
  intros Hacc. unfold frame_accepted in Hacc. unfold process_frame, bind, emit.
  destruct (add_meta_ok fr); simpl in *; [|done].
  by destruct (props_fmt fr).
Qed.

(** In a static session every start call returns, with the heap as it
    was and the session intact. *)
Lemma static_session_start (P : platform) (w : world) (fr : IVASFrame)
    (handle : IVASKernel) (k : ivas_xkpriv) (h : heap) (h0 : nat) :
  kernel_priv handle = PrivLive k → static_session h0 k h →
  ∃ code p t,
    call (xlnx_kernel_start P w fr handle) h
    = Ret ((code, set_kernel_priv (PrivLive (set_pf p k)) handle), h, t).
Proof.
  intros Hpriv (Hrt & _ & [m Hm] & _ & Hlive & _).
  assert (Hfr : is_freed m h = false).
  { apply is_freed_false, Hlive. unfold active_blocks. rewrite Hm.
    apply elem_of_app. right. by apply list_elem_of_singleton. }
  unfold call, xlnx_kernel_start. rewrite Hpriv, Hrt. unfold bind at 1, ret at 1.
  destruct (frame_accepted fr) eqn:Hacc.
  - pose proof (process_frame_accepted w fr k {| hp := h; tick := 0; trace := [] |} Hacc)
      as Hp.
    rewrite Hm in Hp. simpl in Hp. rewrite Hfr in Hp.
    destruct Hp as (p & t & s' & E & Hh & Et & _).
    unfold bind. rewrite E. unfold ret. simpl in Hh. rewrite Hh. by eexists _, p, _.
  - unfold bind. rewrite process_frame_rejected by done. unfold ret. simpl.
    eexists _, (pf k), _. by rewrite set_pf_same.
Qed.

Lemma static_session_start_all (P : platform) (fr : list (world * IVASFrame))
    (h : heap) (h0 : nat) :
  ∀ (handle : IVASKernel) (k : ivas_xkpriv),
    kernel_priv handle = PrivLive k → static_session h0 k h →
    ∃ handle' tr k',
      start_all P fr handle h = Ret (handle', h, tr) ∧
      kernel_priv handle' = PrivLive k' ∧ static_session h0 k' h.
Proof.
  induction fr as [|[w f] fr IH]; intros handle k Hpriv Hsess; simpl.
  - by exists handle, [], k.
  - destruct (static_session_start P w f handle k h h0 Hpriv Hsess) as (code & p & t & E).
    rewrite E.
    destruct (IH (set_kernel_priv (PrivLive (set_pf p k)) handle) (set_pf p k) eq_refl Hsess)
      as (handle' & tr & k' & E' & Hpriv' & Hsess').
    rewrite E'. by exists handle', (t ++ tr), k'.
Qed.

(** A static-mode session uses no freed model or label table and
    releases the ones it built: after an init that succeeded, every
    start call returns whatever the frame, none of them allocates or
    releases a model instance or a label table, and the deinit that
    follows returns [true] with every model instance and label table
    allocated since init began released, each once. (What the session
    does leak, the value of [json_load_file] and the buffers of
    [std::string] and [std::vector] members, is not held by the
    embedding's heap.) *)
Theorem static_session_releases_its_objects (P : platform) (w : world)
    (handle handle1 : IVASKernel) (s s1 : mstate) :
  heap_wf (hp s) →
  configured_flag (kernel_config handle) "run_time_model" false = false →
  xlnx_kernel_init P w handle s = Ret ((C_true, handle1), s1) →
  ∀ fr, ∃ handle2 tr,
    start_all P fr handle1 (hp s1) = Ret (handle2, hp s1, tr) ∧
    ∀ w2 s2, hp s2 = hp s1 →
      ∃ handle3 s3,
        xlnx_kernel_deinit P w2 handle2 s2 = Ret ((C_true, handle3), s3) ∧
        next_addr (hp s3) = next_addr (hp s1) ∧
        ∀ a, (next_addr (hp s) ≤ a < next_addr (hp s3))%nat → a ∈ freed (hp s3).
Proof.
  intros Hwf Hst Hinit fr.
  destruct (init_static_session _ _ _ _ _ _ Hwf Hst Hinit) as (k1 & Hpriv1 & Hsess1).
  destruct (static_session_start_all P fr (hp s1) (next_addr (hp s)) handle1 k1 Hpriv1 Hsess1)
    as (handle2 & tr & k2 & E & Hpriv2 & (_ & Hml & _ & Hnd & Hlive & Hcover)).
  exists handle2, tr. split; [done|]. intros w2 s2 Hh.
  destruct (deinit_run P w2 handle2 k2 s2 Hpriv2 (or_intror Hml) Hnd)
    as (k3 & s3 & t1 & Hde & _ & _ & Hf & Hn & _); [by rewrite Hh|].
  eexists _, s3. split; [exact Hde|]. split; [by rewrite Hn, Hh|].
  intros a Ha. rewrite Hn, Hh in Ha. rewrite Hf, Hh. apply elem_of_app.
  by apply Hcover.
Qed.

Lemma static_session_releases_its_objects_witness :
  ∃ handle1 s1 handle2 tr handle3 s3,
    xlnx_kernel_init sample_platform sample_world (fresh_handle static_config) empty_state
    = Ret ((C_true, handle1), s1) ∧
    start_all sample_platform [(sample_world, ssd_frame); (sample_world, nv12_frame)]
      handle1 (hp s1) = Ret (handle2, hp s1, tr) ∧
    xlnx_kernel_deinit sample_platform sample_world handle2 s1
    = Ret ((C_true, handle3), s3) ∧
    0%nat ∈ freed (hp s3).
Proof.
  destruct (xlnx_kernel_init sample_platform sample_world (fresh_handle static_config)
              empty_state) as [[[code handle1] s1]|] eqn:H;
    [|vm_compute in H; discriminate H].
  assert (Hcode : code = C_true).
  { vm_compute in H. by injection H as <- _ _. }
  subst code.
  assert (Hwf : heap_wf (hp empty_state)).
  { intros a Ha. simpl in Ha. by apply not_elem_of_nil in Ha. }
  destruct (static_session_releases_its_objects sample_platform sample_world
              (fresh_handle static_config) handle1 empty_state s1 Hwf eq_refl H
              [(sample_world, ssd_frame); (sample_world, nv12_frame)])
    as (handle2 & tr & Hall & Hde).
  destruct (Hde sample_world s1 eq_refl) as (handle3 & s3 & Hd & Hn & Hfreed).
  exists handle1, s1, handle2, tr, handle3, s3. do 3 (split; [done|]).
  apply Hfreed. rewrite Hn. vm_compute in H. injection H as _ <-. simpl. lia.
Defined.

(** ** The frame count of the final report *)

Lemma count_runs_app (t t' : list event) :
  count_runs (t ++ t') = (count_runs t + count_runs t')%nat.
Proof.
  induction t as [|e t IH]; [done|]. destruct e; simpl; by rewrite ?IH.
Qed.

Lemma count_runs_selection (t : list event) :
  Forall selection_event t → count_runs t = 0%nat.
Proof.
  induction 1 as [|e t He _ IH]; [done|]. by destruct e.
Qed.

Lemma count_runs_report (t : list event) :
  Forall is_report t → count_runs t = 0%nat.
Proof.
  induction 1 as [|e t He _ IH]; [done|]. by destruct e.
Qed.

Lemma to_uint64_add_l (a b : Z) : to_uint64 (to_uint64 a + b) = to_uint64 (a + b).
Proof. unfold to_uint64. apply Zplus_mod_idemp_l. Qed.

(** One start call with telemetry on: the model ran once and the frame
    was counted, or it did not run and the counters are as they were. *)
Lemma start_counts (P : platform) (w : world) (fr : IVASFrame)
    (handle handle' : IVASKernel) (k : ivas_xkpriv) (s s' : mstate) (code : Z) :
  kernel_priv handle = PrivLive k → performance_test k = true →
  xlnx_kernel_start P w fr handle s = Ret ((code, handle'), s') →
  ∃ k' t,
    kernel_priv handle' = PrivLive k' ∧ trace s' = trace s ++ t ∧
    performance_test k' = true ∧
    ((count_runs t = 1%nat ∧ frames (pf k') = to_uint64 (frames (pf k) + 1) ∧
      test_started (pf k') ≠ 0)
     ∨ (count_runs t = 0%nat ∧ pf k' = pf k)).
Proof.
  intros Hpriv Hpt H. unfold xlnx_kernel_start in H. rewrite Hpriv in H.
  bind_step H as [fl k1] s1 Hsel.
  assert (Hs : ∃ t1, trace s1 = trace s ++ t1 ∧ Forall selection_event t1 ∧
                     performance_test k1 = true ∧ pf k1 = pf k).
  { destruct (run_time_model k).
    - destruct (runtime_select_selection P w fr k _ _ _ Hsel) as (t1 & Et1 & Ht1).
      destruct (runtime_select_cache _ _ _ _ _ _ _ _ Hsel) as (_ & _ & (_ & _ & Hp & Hpf) & _).
      simpl in Hp, Hpf. exists t1. by rewrite Hp.
    - injection Hsel as _ <- <-. exists []. by rewrite app_nil_r. }
  destruct Hs as (t1 & Et1 & Ht1 & Hp1 & Hpf1).
  apply count_runs_selection in Ht1.
  destruct fl as [|c].
  - bind_step H as [c k2] s2 Hproc. injection H as _ <- <-.
    destruct (frame_accepted fr) eqn:Hacc.
    + pose proof (process_frame_accepted w fr k1 s1 Hacc) as Hfw.
      destruct (model k1) as [m|]; [|by rewrite Hfw in Hproc].
      destruct (is_freed m (hp s1)); [by rewrite Hfw in Hproc|].
      destruct Hfw as (p & t & s3 & E & _ & Et & Hrep & _ & Hon).
      rewrite E in Hproc. injection Hproc as _ <- <-.
      destruct (Hon Hp1) as [Hst Hfr].
      exists (set_pf p k1), (t1 ++ EvAddMeta :: EvRun m :: t).
      split; [done|]. split; [by rewrite Et, Et1, <- app_assoc|]. split; [done|].
      left. rewrite count_runs_app, Ht1. simpl.
      rewrite (count_runs_report t Hrep). split; [done|]. by rewrite <- Hpf1.
    + rewrite process_frame_rejected in Hproc by done. injection Hproc as _ <- <-.
      exists k1, (t1 ++ [EvAddMeta]).
      split; [done|]. split; [simpl; by rewrite Et1, <- app_assoc|]. split; [done|].
      right. by rewrite count_runs_app, Ht1.
  - injection H as _ <- <-. exists k1, t1. do 3 (split; [done|]). by right.
Qed.

Lemma start_all_counts (P : platform) (fr : list (world * IVASFrame)) :
  ∀ (handle handle' : IVASKernel) (h h' : heap) (tr : list event) (k : ivas_xkpriv),
    kernel_priv handle = PrivLive k → performance_test k = true →
    start_all P fr handle h = Ret (handle', h', tr) →
    ∃ k', kernel_priv handle' = PrivLive k' ∧ performance_test k' = true ∧
          ((count_runs tr = 0%nat ∧ pf k' = pf k)
           ∨ ((0 < count_runs tr)%nat ∧ test_started (pf k') ≠ 0 ∧
              frames (pf k') = to_uint64 (frames (pf k) + Z.of_nat (count_runs tr)))).
Proof.
  induction fr as [|[w f] fr IH]; intros handle handle' h h' tr k Hpriv Hpt H; simpl in H.
  - injection H as <- _ <-. exists k. split; [done|]. split; [done|]. by left.
  - destruct (call _ h) as [[[[code handle1] h1] t1]|] eqn:Hcall; [|done].
    destruct (start_all P fr handle1 h1) as [[[handle2 h2] t2]|] eqn:Hrest; [|done].
    injection H as <- _ <-.
    apply call_Ret in Hcall as (s1 & Hcall & _ & Etr).
    destruct (start_counts _ _ _ _ _ _ _ _ _ Hpriv Hpt Hcall)
      as (k1 & t & Hpriv1 & Et & Hpt1 & Hstep).
    rewrite Etr in Et. simpl in Et. subst t.
    destruct (IH _ _ _ _ _ k1 Hpriv1 Hpt1 Hrest) as (k2 & Hpriv2 & Hpt2 & Hall).
    exists k2. split; [done|]. split; [done|]. rewrite count_runs_app.
    destruct Hstep as [(Hc1 & Hf1 & Hs1)|(Hc1 & Hpf1)];
      destruct Hall as [(Hc2 & Hpf2)|(Hc2 & Hs2 & Hf2)]; rewrite Hc1.
    + right. rewrite Hc2, Hpf2. split; [simpl; lia|]. split; [done|]. by rewrite Hf1.
    + right. split; [lia|]. split; [done|].
      rewrite Hf2, Hf1, to_uint64_add_l. f_equal. lia.
    + left. split; [by rewrite Hc2 | congruence].
    + right. split; [lia|]. split; [done|]. rewrite Hf2, Hpf1. f_equal.
Qed.

(** With telemetry on and the counters as init leaves them, the frame
    count that deinit prints after any run of start calls is the
    number of times a model was run (modulo 2^64, the width of the
    counter); if no frame reached a model, deinit prints nothing. *)
Theorem final_report_counts_runs (P : platform) (fr : list (world * IVASFrame))
    (handle handle' handle'' : IVASKernel) (h h' : heap) (tr : list event)
    (k : ivas_xkpriv) (w : world) (s s' : mstate) (code : Z) :
  kernel_priv handle = PrivLive k → performance_test k = true → pf k = zero_perf →
  start_all P fr handle h = Ret (handle', h', tr) →
  xlnx_kernel_deinit P w handle' s = Ret ((code, handle''), s') →
  ∃ t1 t2,
    trace s' = trace s ++ t1 ++ t2 ∧ Forall (λ e, ¬ is_report e) t2 ∧
    if (count_runs tr =? 0)%nat then t1 = []
    else ∃ fps, t1 = [EvPrintf (to_uint64 (Z.of_nat (count_runs tr)))
                        (fps_precision fps) fps].
Proof.
  intros Hpriv Hpt Hzero Hall Hde.
  destruct (start_all_counts _ _ _ _ _ _ _ _ Hpriv Hpt Hall) as (k' & Hpriv' & Hpt' & Hcnt).
  destruct (deinit_inv _ _ _ _ _ _ _ _ Hpriv' Hde)
    as (k'' & t1 & t2 & _ & _ & _ & Et & Hquiet & Hrep).
  exists t1, t2. split; [done|]. split; [done|].
  rewrite Hpt' in Hrep. simpl in Hrep.
  destruct Hcnt as [(Hc & Hpf)|(Hc & Hst & Hfr)].
  - rewrite Hc. simpl. by rewrite Hpf, Hzero in Hrep.
  - destruct (Nat.eqb_spec (count_runs tr) 0) as [?|_]; [lia|].
    apply Z.eqb_neq in Hst. rewrite Hst in Hrep. simpl in Hrep.
    destruct Hrep as (fps & -> & _). exists fps. by rewrite Hfr, Hzero.
Qed.

Lemma final_report_counts_runs_witness :
  ∃ handle' h' tr handle'' s' fps rest,
    start_all sample_platform [(sample_world, ssd_frame); (sample_world, failing_frame)]
      (live_handle cached_kpriv) one_model_heap = Ret (handle', h', tr) ∧
    xlnx_kernel_deinit sample_platform sample_world handle'
      {| hp := h'; tick := 0; trace := [] |} = Ret ((C_true, handle''), s') ∧
    trace s' = EvPrintf 2 (fps_precision fps) fps :: rest.
Proof.
  destruct (start_all sample_platform
              [(sample_world, ssd_frame); (sample_world, failing_frame)]
              (live_handle cached_kpriv) one_model_heap)
    as [[[handle' h'] tr]|] eqn:H; [|vm_compute in H; discriminate H].
  destruct (xlnx_kernel_deinit sample_platform sample_world handle'
              {| hp := h'; tick := 0; trace := [] |})
    as [[[code handle''] s']|] eqn:Hd;
    [|vm_compute in H; injection H as <- <- _; vm_compute in Hd; discriminate Hd].
  destruct (final_report_counts_runs sample_platform _ (live_handle cached_kpriv)
              handle' handle'' one_model_heap h' tr cached_kpriv sample_world _ s' code
              eq_refl eq_refl eq_refl H Hd) as (t1 & t2 & Et & _ & Hrep).
  assert (Hruns : count_runs tr = 2%nat).
  { vm_compute in H. by injection H as _ _ <-. }
  rewrite Hruns in Hrep. simpl in Hrep. destruct Hrep as (fps & ->).
  assert (Hcode : code = C_true).
  { clear Et. vm_compute in H. injection H as <- <- _. vm_compute in Hd.
    by injection Hd as <- _ _. }
  subst code. exists handle', h', tr, handle'', s', fps, t2.
  split; [done|]. split; [done|]. exact Et.
Defined.

(** ** Label tables not found, with no model active *)

Lemma ivas_xinitmodel_label_failure_null (P : platform) (w : world) (k : ivas_xkpriv)
    (c : Z) (s : mstate) :
  class_enabled P c = true → fs w (label_path k) = false →
  ctor_misses_labels P c k = true → model k = None →
  ivas_xinitmodel P w k c s = Undef NullDeref.
Proof.
  intros Hen Hfs Hmiss Hm.
  unfold ivas_xinitmodel, fileexists, bind, emit, ret, alloc.
  unfold label_path in Hfs. simpl. rewrite Hfs, Hen. simpl.
  unfold ctor_misses_labels, before_ctor in Hmiss. by rewrite Hmiss, Hm.
Qed.

(** The "labels required but not found" branch of the factory calls
    [kpriv->model->close ()] before anything was assigned to
    [kpriv->model] by this construction. When no model is active, as
    at the first runtime-mode request and always in static-mode init,
    a model whose constructor needs a label file that is not there
    does not make the call fail with -1: the call dereferences
    [NULL]. *)
Theorem missing_labels_without_active_model (P : platform) (w : world) (c : Z) :
  class_enabled P c = true →
  (∀ fr k n s,
     let kq := set_modelname n (set_modelclass c k) in
     let kq := set_elfname (resolved_artifact w kq) kq in
     inp_infer_meta fr = Some (c, n) → artifact_present w k n →
     mlist_find c n (mlist k) = None →
     fs w (label_path kq) = false → ctor_misses_labels P c kq = true →
     model k = None →
     runtime_select P w fr k s = Undef NullDeref) ∧
  (∀ handle cls nm s,
     let k := configured_kpriv P (kernel_config handle) in
     let kq := set_modelname nm (set_modelclass c k) in
     let kq := set_elfname (resolved_artifact w kq) kq in
     configured_format (kernel_config handle) ≠ IVAS_VMFT_UNKNOWN →
     fs w (configured_modelpath (kernel_config handle)) = true →
     configured_flag (kernel_config handle) "run_time_model" false = false →
     json_string_value (json_object_get (kernel_config handle) "model-class") = Some cls →
     ivas_xclass_to_num P cls = c → c ≠ IVAS_XCLASS_NOTFOUND P →
     json_string_value (json_object_get (kernel_config handle) "model-name") = Some nm →
     artifact_present w k nm →
     fs w (label_path kq) = false → ctor_misses_labels P c kq = true →
     xlnx_kernel_init P w handle s = Undef NullDeref).
Proof.
  intros Hen. split.
  - intros fr k n s kq0 kq Hmeta Hart Hfind Hfs Hmiss Hm.
    unfold runtime_select, bind at 1, emit. rewrite Hmeta. unfold bind at 1.
    rewrite modelexits_run.
    rewrite (resolved_artifact_present w (set_modelclass c k) n) by done.
    simpl (mlist _). rewrite Hfind. unfold bind at 1. fold kq0. fold kq.
    by rewrite (ivas_xinitmodel_label_failure_null P w kq (modelclass kq)).
  - intros handle cls nm s k kq0 kq Hfmt Hpath Hst Hcls Hc Hnf Hnm Hart Hfs Hmiss.
    assert (Hne : String.eqb (configured_modelpath (kernel_config handle)) "" = false).
    { apply String.eqb_neq. intros Heq. rewrite Heq, (stat_empty w) in Hpath.
      discriminate. }
    rewrite (xlnx_kernel_init_accepted _ _ _ Hfmt), Hne.
    unfold init_after_format, bind at 1, fileexists, bind at 1, emit, ret at 1.
    rewrite Hpath, Hst. change (negb true) with false. cbv iota. fold k.
    unfold init_static. rewrite Hcls, Hnm. simpl (modelclass _).
    rewrite Hc. apply Z.eqb_neq in Hnf. rewrite Hnf. cbv iota.
    unfold bind at 1, lift at 1, assign_to_zeroed.
    destruct (String.eqb nm ""); [reflexivity|].
    unfold bind at 1. rewrite modelexits_run. fold kq0.
    unfold bind at 1, lift, move_to_zeroed.
    destruct (modelexits_in_place _ _); [reflexivity|].
    assert (Hres : String.eqb (resolved_artifact w kq0) "" = false).
    { by apply (resolved_artifact_present w (set_modelclass c k) nm). }
    rewrite Hres. unfold bind at 1. fold kq.
    by rewrite (ivas_xinitmodel_label_failure_null P w kq (modelclass kq)).
Qed.

Lemma missing_labels_without_active_model_witness :
  runtime_select sample_platform two_model_world resnet_frame sample_kpriv empty_state
  = Undef NullDeref.
Proof.
  destruct (missing_labels_without_active_model sample_platform two_model_world 2 eq_refl)
    as [Hsel _].
  apply (Hsel resnet_frame sample_kpriv "resnet50" empty_state); try reflexivity.
  split; [reflexivity | left; reflexivity].
Defined.
